(** * Dashboard vouchers: forms and views of [oscar.apps.dashboard.vouchers]

    A shallow embedding of [forms.py] and [views.py].  The relational store is
    a pair of tables (lists of rows in insertion order) with auto-increment
    primary keys; the ORM calls of the source are functions on that store.
    Mutating code runs in a small state-and-exception monad whose state also
    carries the random source of the code generator, the clock and a budget of
    database writes, so that a failure can be injected at any persistence step.
    [atomic] is Django's [transaction.atomic]: on an exception the database
    component is rolled back. *)

From Stdlib Require Import ZArith String Ascii List Bool Lia Sorted Permutation Btauto.
From stdpp Require Import base decidable option list gmap sets strings sorting.

Open Scope Z_scope.
Open Scope string_scope.
Open Scope nat_scope.
Open Scope list_scope.
Import ListNotations.

(** ** Python strings *)

Module Str.

(** [str.isspace] on the ASCII range: TAB..CR, FS..US and SPACE. *)
Definition is_space (c : ascii) : bool :=
  let n := nat_of_ascii c in
  ((9 <=? n) && (n <=? 13)) || ((28 <=? n) && (n <=? 32)).

Definition upper_char (c : ascii) : ascii :=
  let n := nat_of_ascii c in
  if (97 <=? n) && (n <=? 122) then ascii_of_nat (n - 32) else c.

Definition lower_char (c : ascii) : ascii :=
  let n := nat_of_ascii c in
  if (65 <=? n) && (n <=? 90) then ascii_of_nat (n + 32) else c.

Fixpoint map_chars (f : ascii -> ascii) (s : string) : string :=
  match s with
  | EmptyString => EmptyString
  | String c r => String (f c) (map_chars f r)
  end.

(** [s.upper()] and [s.lower()] (ASCII letters). *)
Definition upper (s : string) : string := map_chars upper_char s.
Definition lower (s : string) : string := map_chars lower_char s.

Fixpoint lstrip (s : string) : string :=
  match s with
  | EmptyString => EmptyString
  | String c r => if is_space c then lstrip r else s
  end.

Fixpoint rstrip (s : string) : string :=
  match s with
  | EmptyString => EmptyString
  | String c r =>
      match rstrip r with
      | EmptyString => if is_space c then EmptyString else String c EmptyString
      | r' => String c r'
      end
  end.

(** [s.strip()] *)
Definition strip (s : string) : string := lstrip (rstrip s).

Fixpoint all_chars (p : ascii -> bool) (s : string) : bool :=
  match s with
  | EmptyString => true
  | String c r => p c && all_chars p r
  end.

(** [needle in hay] *)
Fixpoint contains (needle hay : string) : bool :=
  String.prefix needle hay ||
  match hay with
  | EmptyString => false
  | String _ r => contains needle r
  end.

(** The ORM lookup [field__icontains=needle]. *)
Definition icontains (needle hay : string) : bool :=
  contains (lower needle) (lower hay).

(** Truth value of a Python string: [if s:] *)
Definition truthy (s : string) : bool :=
  match s with EmptyString => false | _ => true end.

End Str.

(** ** Data model *)

(** Modelled from the spec: [Voucher.USAGE_CHOICES] is declared on the model,
    which is not part of these two files; the spec lists the usage policies
    single-use, multi-use and once-per-customer. *)
Inductive Usage := SINGLE_USE | MULTI_USE | ONCE_PER_CUSTOMER.

Module Voucher.
(** Modelled from the spec: the model class [Voucher] is not part of these
    two files.  Its columns are those of the spec's data model and the three
    columns the list views sort by; [voucher_set] is the primary key of the
    owning set, [offers] the primary keys of the associated offers. *)
Record t := mk {
  id : nat;
  name : string;
  code : string;
  usage : Usage;
  start_datetime : Z;
  end_datetime : Z;
  voucher_set : option nat;
  offers : gset nat;
  date_created : Z;
  num_basket_additions : nat;
  num_orders : nat
}.

(** The columns written by [instance.vouchers.update(name=..., usage=...,
    start_datetime=..., end_datetime=...)]. *)
Definition update (n : string) (u : Usage) (s e : Z) (v : t) : t :=
  mk (id v) n (code v) u s e (voucher_set v) (offers v)
     (date_created v) (num_basket_additions v) (num_orders v).

(** [voucher.offers.set(offers)] *)
Definition offers_set (o : gset nat) (v : t) : t :=
  mk (id v) (name v) (code v) (usage v) (start_datetime v) (end_datetime v)
     (voucher_set v) o (date_created v) (num_basket_additions v)
     (num_orders v).

(** [voucher.offers.add] of every offer in [offers] *)
Definition offers_add (o : gset nat) (v : t) : t :=
  offers_set (offers v ∪ o) v.

(** The columns assigned in [VoucherUpdateView.form_valid]. *)
Definition assign (n c : string) (u : Usage) (s e : Z) (v : t) : t :=
  mk (id v) n c u s e (voucher_set v) (offers v)
     (date_created v) (num_basket_additions v) (num_orders v).
End Voucher.

Module VoucherSet.
(** Modelled from the spec: the model class [VoucherSet] is not part of these
    two files.  Its columns are those of the spec's data model: [count] is the
    desired number of vouchers, [num_vouchers] the recorded number of owned
    vouchers. *)
Record t := mk {
  id : nat;
  name : string;
  code_length : nat;
  description : string;
  start_datetime : Z;
  end_datetime : Z;
  count : nat;
  num_vouchers : nat;
  date_created : Z
}.

Definition set_num_vouchers (n : nat) (s : t) : t :=
  mk (id s) (name s) (code_length s) (description s) (start_datetime s)
     (end_datetime s) (count s) n (date_created s).
End VoucherSet.

(** The entity store: two tables and their primary-key counters. *)
Record Store := mkStore {
  vouchers : list Voucher.t;
  voucher_sets : list VoucherSet.t;
  next_voucher_id : nat;
  next_set_id : nat
}.

Definition empty_store : Store := mkStore [] [] 1 1.

Definition with_vouchers (f : list Voucher.t -> list Voucher.t) (st : Store) : Store :=
  mkStore (f (vouchers st)) (voucher_sets st) (next_voucher_id st) (next_set_id st).

Definition with_voucher_sets (f : list VoucherSet.t -> list VoucherSet.t) (st : Store) : Store :=
  mkStore (vouchers st) (f (voucher_sets st)) (next_voucher_id st) (next_set_id st).

(** ** Errors *)

(** Validation errors raised by the forms. *)
Inductive ValidationError :=
  | DuplicateName | EmptyCode | DuplicateCode | InvalidRange | CountDecrease.

(** Exceptions that are not caught by the forms or the views. *)
Inductive Exc :=
  | DoesNotExist | MultipleObjectsReturned | IntegrityError | DatabaseError
  | Http404 | NoUnusedCode.

(** ** The request monad *)

Record World := mkWorld {
  db : Store;
  rng : list ascii;          (* characters still to be drawn from the random source *)
  faults : option nat;       (* [Some k]: the database fails at write number k+1 *)
  clock : Z                  (* [timezone.now()] *)
}.

Inductive Result (A : Type) :=
  | Ok (a : A)
  | Raise (e : Exc).
Arguments Ok {A} a.
Arguments Raise {A} e.

Definition M (A : Type) : Type := World -> Result A * World.

Definition ret {A} (a : A) : M A := fun w => (Ok a, w).
Definition raise {A} (e : Exc) : M A := fun w => (Raise e, w).
Definition bind {A B} (m : M A) (f : A -> M B) : M B :=
  fun w => match m w with
           | (Ok a, w') => f a w'
           | (Raise e, w') => (Raise e, w')
           end.

Notation "'do' x <- m ; k" := (bind m (fun x => k))
  (at level 10, x name, m at level 100, k at level 200).
Notation "'run' m ; k" := (bind m (fun _ => k))
  (at level 10, m at level 100, k at level 200).

Definition set_db (st : Store) (w : World) : World :=
  mkWorld st (rng w) (faults w) (clock w).
Definition set_rng (r : list ascii) (w : World) : World :=
  mkWorld (db w) r (faults w) (clock w).
Definition set_faults (f : option nat) (w : World) : World :=
  mkWorld (db w) (rng w) f (clock w).

(** Reading the database and the clock. *)
Definition query {A} (q : Store -> A) : M A := fun w => (Ok (q (db w)), w).
Definition now : M Z := fun w => (Ok (clock w), w).

(** One persistence step.  It raises [DatabaseError] when the write budget is
    used up and applies [f] to the database otherwise. *)
Definition write (f : Store -> Store) : M unit :=
  fun w => match faults w with
           | Some 0 => (Raise DatabaseError, w)
           | Some (S k) => (Ok tt, set_faults (Some k) (set_db (f (db w)) w))
           | None => (Ok tt, set_db (f (db w)) w)
           end.

(** [transaction.atomic]: when the body raises, every write it made to the
    database is undone; the exception propagates. *)
Definition atomic {A} (body : M A) : M A :=
  fun w => match body w with
           | (Ok a, w') => (Ok a, w')
           | (Raise e, w') => (Raise e, set_db (db w) w')
           end.

Fixpoint for_each {A} (l : list A) (body : A -> M unit) : M unit :=
  match l with
  | [] => ret tt
  | x :: r => run body x; for_each r body
  end.

(** ** The ORM calls used by the forms and the views *)

(** [Model.objects.get(...)]: the matching row, [DoesNotExist] or
    [MultipleObjectsReturned]. *)
Inductive Lookup (A : Type) :=
  | Found (a : A)
  | NotFound
  | Multiple.
Arguments Found {A} a.
Arguments NotFound {A}.
Arguments Multiple {A}.

Definition get {A} (p : A -> bool) (rows : list A) : Lookup A :=
  match List.filter p rows with
  | [] => NotFound
  | [a] => Found a
  | _ => Multiple
  end.

Definition has_name (n : string) (v : Voucher.t) : bool := String.eqb (Voucher.name v) n.
Definition has_code (c : string) (v : Voucher.t) : bool := String.eqb (Voucher.code v) c.
Definition has_id (pk : nat) (v : Voucher.t) : bool := Nat.eqb (Voucher.id v) pk.
Definition set_has_id (pk : nat) (s : VoucherSet.t) : bool := Nat.eqb (VoucherSet.id s) pk.

(** [voucher.voucher_set_id == pk] *)
Definition in_set (pk : nat) (v : Voucher.t) : bool :=
  match Voucher.voucher_set v with
  | Some k => Nat.eqb k pk
  | None => false
  end.

(** [voucher_set__isnull=b] *)
Definition voucher_set__isnull (b : bool) (v : Voucher.t) : bool :=
  Bool.eqb (match Voucher.voucher_set v with None => true | Some _ => false end) b.

(** [instance.vouchers.all()] and [instance.vouchers.count()] *)
Definition vouchers_of (pk : nat) (st : Store) : list Voucher.t :=
  List.filter (in_set pk) (vouchers st).
Definition vouchers_count (pk : nat) (st : Store) : nat :=
  length (vouchers_of pk st).

Definition code_in_use (st : Store) (c : string) : bool :=
  existsb (has_code c) (vouchers st).

(** Apply [f] to the rows selected by [p]. *)
Definition update_where {A} (p : A -> bool) (f : A -> A) (rows : list A) : list A :=
  map (fun r => if p r then f r else r) rows.

(** Modelled from the spec: [Voucher.objects.create(...)] is the manager of
    the model class, which is not part of these two files.  The new row gets
    the next primary key and [date_created] is the current time.  The store
    rejects a second voucher with the same [code] (the uniqueness constraint
    of the entity store); it does not constrain [name], which the set form
    writes to every voucher of a set. *)
Definition objects_create (n c : string) (vset : option nat) (u : Usage) (s e : Z)
  : M Voucher.t :=
  do st <- query (fun st => st);
  do t <- now;
  if code_in_use st c then raise IntegrityError
  else
    let v := Voucher.mk (next_voucher_id st) n c u s e vset ∅ t 0 0 in
    run write (fun st => mkStore (vouchers st ++ [v]) (voucher_sets st)
                                 (S (next_voucher_id st)) (next_set_id st));
    ret v.

(** [voucher.offers.set(offers)] and [voucher.offers.add] for the voucher
    with primary key [pk]. *)
Definition offers_set (pk : nat) (o : gset nat) : M unit :=
  write (with_vouchers (update_where (has_id pk) (Voucher.offers_set o))).
Definition offers_add (pk : nat) (o : gset nat) : M unit :=
  write (with_vouchers (update_where (has_id pk) (Voucher.offers_add o))).

(** Modelled from the spec: [voucher.save()] of a loaded voucher whose columns
    were assigned; the store rejects a code that another voucher has. *)
Definition voucher_save (pk : nat) (n c : string) (u : Usage) (s e : Z) : M unit :=
  do clash <- query (fun st =>
      existsb (fun r => has_code c r && negb (has_id pk r)) (vouchers st));
  if clash : bool then raise IntegrityError
  else write (with_vouchers (update_where (has_id pk) (Voucher.assign n c u s e))).

(** [voucher.delete()] *)
Definition voucher_delete (pk : nat) : M unit :=
  write (with_vouchers (List.filter (fun r => negb (has_id pk r)))).

(** [get_object()] of the generic detail views: [Http404] when the row is
    missing. *)
Definition get_object {A} (p : A -> bool) (table : Store -> list A) : M A :=
  do r <- query (fun st => get p (table st));
  match r with
  | Found a => ret a
  | NotFound => raise Http404
  | Multiple => raise MultipleObjectsReturned
  end.

(** Modelled from the spec: [VoucherSet.update_count] belongs to the model
    class, which is not part of these two files.  It recomputes the number of
    vouchers owned by the set and persists it in [num_vouchers]. *)
Definition update_count (pk : nat) : M unit :=
  write (fun st =>
    with_voucher_sets
      (update_where (set_has_id pk) (VoucherSet.set_num_vouchers (vouchers_count pk st)))
      st).

(** ** The code generator *)

(** Modelled from the spec: [oscar.apps.voucher.utils.get_unused_code] is not
    part of these two files.  A candidate code is [length] characters drawn
    from the random source; the generator retries until the candidate is not
    the code of a voucher in the store.  [draw_unused] runs that loop on the
    characters that are left; it gives up when they run out or, for the empty
    candidate, when the fuel does: a generator that never returns is the
    exception [NoUnusedCode] here. *)
Fixpoint draw_unused (fuel : nat) (in_use : string -> bool) (n : nat)
    (tape : list ascii) : option (string * list ascii) :=
  match fuel with
  | 0 => None
  | S fuel' =>
      if length tape <? n then None
      else
        let c := string_of_list_ascii (firstn n tape) in
        let rest := skipn n tape in
        if in_use c then draw_unused fuel' in_use n rest else Some (c, rest)
  end.

Definition get_unused_code (length : nat) : M string :=
  fun w =>
    match draw_unused (S (List.length (rng w))) (code_in_use (db w)) length (rng w) with
    | Some (c, rest) => (Ok c, set_rng rest w)
    | None => (Raise NoUnusedCode, w)
    end.

(** ** forms.py *)

(** What a [clean_<field>] method does: return the cleaned value, raise
    [forms.ValidationError], or let another exception escape. *)
Inductive Cleaned (A : Type) :=
  | Clean (a : A)
  | Invalid (e : ValidationError)
  | Crash (e : Exc).
Arguments Clean {A} a.
Arguments Invalid {A} e.
Arguments Crash {A} e.

Definition errors_of {A} (r : Cleaned A) : list ValidationError :=
  match r with
  | Invalid e => [e]
  | _ => []
  end.

(** Outcome of [form.is_valid()]. *)
Inductive Validation (A : Type) :=
  | Valid (cleaned_data : A)
  | Errors (errors : list ValidationError)
  | Crashed (e : Exc).
Arguments Valid {A} cleaned_data.
Arguments Errors {A} errors.
Arguments Crashed {A} e.

Module VoucherForm.

(** [cleaned_data] after the fields were converted by the framework. *)
Record data := mk {
  name : string;
  code : string;
  start_datetime : Z;
  end_datetime : Z;
  usage : Usage;
  offers : gset nat
}.

(** [(not self.voucher) or (voucher.id != self.voucher.id)] *)
Definition is_other (self_voucher : option Voucher.t) (voucher : Voucher.t) : bool :=
  match self_voucher with
  | None => true
  | Some mine => negb (Nat.eqb (Voucher.id voucher) (Voucher.id mine))
  end.

Definition clean_name (self_voucher : option Voucher.t) (st : Store) (name : string)
  : Cleaned string :=
  match get (has_name name) (vouchers st) with
  | NotFound => Clean name
  | Found voucher =>
      if is_other self_voucher voucher then Invalid DuplicateName else Clean name
  | Multiple => Crash MultipleObjectsReturned
  end.

Definition clean_code (self_voucher : option Voucher.t) (st : Store) (raw : string)
  : Cleaned string :=
  let code := Str.upper (Str.strip raw) in
  if negb (Str.truthy code) then Invalid EmptyCode
  else
    match get (has_code code) (vouchers st) with
    | NotFound => Clean code
    | Found voucher =>
        if is_other self_voucher voucher then Invalid DuplicateCode else Clean code
    | Multiple => Crash MultipleObjectsReturned
    end.

Definition clean (d : data) : Cleaned data :=
  if (end_datetime d <? start_datetime d)%Z then Invalid InvalidRange else Clean d.

(** [is_valid()]: the field methods run in field order, then [clean];
    validation errors are collected, any other exception escapes. *)
Definition is_valid (self_voucher : option Voucher.t) (st : Store) (d : data)
  : Validation data :=
  match clean_name self_voucher st (name d),
        clean_code self_voucher st (code d),
        clean d with
  | Crash e, _, _ => Crashed e
  | _, Crash e, _ => Crashed e
  | Clean n, Clean c, Clean _ =>
      Valid (mk n c (start_datetime d) (end_datetime d) (usage d) (offers d))
  | rn, rc, rr => Errors (errors_of rn ++ errors_of rc ++ errors_of rr)
  end.

End VoucherForm.

(** [request.GET.get(key)]: the last value submitted for the key. *)
Definition GET_get (key : string) (GET : list (string * string)) : option string :=
  snd <$> List.find (fun kv => String.eqb (fst kv) key) (rev GET).

Module VoucherSearchForm.

Record data := mk {
  name : string;
  code : string;
  is_active : option bool;
  in_set : option bool
}.

Definition clean_code (code : string) : string := Str.upper code.

Section Fields.
(** The framework's conversion of a submitted value ([None]: the key is
    absent) by [forms.CharField(required=False)] and by
    [forms.NullBooleanField]; the result [None] is a validation error. *)
Variable CharField : option string -> option string.
Variable NullBooleanField : option string -> option (option bool).

(** [form.is_valid()] and [form.cleaned_data] of the form bound to the
    query parameters. *)
Definition is_valid (GET : list (string * string)) : option data :=
  match CharField (GET_get "name" GET), CharField (GET_get "code" GET),
        NullBooleanField (GET_get "is_active" GET),
        NullBooleanField (GET_get "in_set" GET) with
  | Some n, Some c, Some a, Some s => Some (mk n (clean_code c) a s)
  | _, _, _, _ => None
  end.
End Fields.

End VoucherSearchForm.

Module VoucherSetForm.

(** [cleaned_data]: the model fields of [Meta.fields], [usage] and
    [offers]. *)
Record data := mk {
  name : string;
  code_length : nat;
  description : string;
  start_datetime : Z;
  end_datetime : Z;
  count : nat;
  usage : Usage;
  offers : gset nat
}.

(** [self.instance]: [None] is a new, unsaved set ([instance.pk is None]),
    [Some s] the row loaded for an update. *)
Definition clean_count (instance : option VoucherSet.t) (data : nat) : Cleaned nat :=
  match instance with
  | Some inst =>
      if data <? VoucherSet.count inst then Invalid CountDecrease else Clean data
  | None => Clean data
  end.

Definition is_valid (instance : option VoucherSet.t) (d : data) : Validation data :=
  match clean_count instance (count d) with
  | Clean _ => Valid d
  | Invalid e => Errors [e]
  | Crash e => Crashed e
  end.

(** The instance with the form's model fields copied onto it. *)
Definition construct_instance (pk : nat) (num : nat) (created : Z) (d : data)
  : VoucherSet.t :=
  VoucherSet.mk pk (name d) (code_length d) (description d) (start_datetime d)
                (end_datetime d) (count d) num created.

(** Modelled from the spec: [super().save(commit)] with [commit] set writes
    the instance through the model class, which is not part of these two
    files.  A new set is inserted with the next primary key, the current time
    and [num_vouchers] 0 (it owns no voucher yet); an existing one is written
    back. *)
Definition ModelForm_save (instance : option VoucherSet.t) (d : data) : M VoucherSet.t :=
  match instance with
  | None =>
      do st <- query (fun st => st);
      do t <- now;
      let s := construct_instance (next_set_id st) 0 t d in
      run write (fun st => mkStore (vouchers st) (voucher_sets st ++ [s])
                                   (next_voucher_id st) (S (next_set_id st)));
      ret s
  | Some old =>
      let s := construct_instance (VoucherSet.id old) (VoucherSet.num_vouchers old)
                                  (VoucherSet.date_created old) d in
      run write (with_voucher_sets
                   (update_where (set_has_id (VoucherSet.id old)) (fun _ => s)));
      ret s
  end.

(** The loop [for i in range(instance.vouchers.count(), instance.count)],
    run for its [k] iterations; the result is [vouchers_added]. *)
Fixpoint add_vouchers (k : nat) (instance : VoucherSet.t) (usage : Usage)
    (offers : gset nat) : M bool :=
  match k with
  | 0 => ret false
  | S k' =>
      do code <- get_unused_code (VoucherSet.code_length instance);
      do voucher <- objects_create (VoucherSet.name instance) code
                      (Some (VoucherSet.id instance)) usage
                      (VoucherSet.start_datetime instance)
                      (VoucherSet.end_datetime instance);
      run offers_add (Voucher.id voucher) offers;
      run add_vouchers k' instance usage offers;
      ret true
  end.

(** The body of [save]; the result is the primary key of the instance.  The
    test [instance is not None] of the source always holds after
    [super().save]. *)
Definition save_body (instance : option VoucherSet.t) (d : data) (commit : bool)
  : M (option nat) :=
    if commit then
      do instance <- ModelForm_save instance d;
      let pk := VoucherSet.id instance in
      (* Update vouchers in this set *)
      run write (with_vouchers
                   (update_where (in_set pk)
                      (Voucher.update (VoucherSet.name instance) (usage d)
                                      (VoucherSet.start_datetime instance)
                                      (VoucherSet.end_datetime instance))));
      do all <- query (vouchers_of pk);
      run for_each all (fun voucher => offers_set (Voucher.id voucher) (offers d));
      (* Add vouchers to this set *)
      do n <- query (vouchers_count pk);
      do vouchers_added <- add_vouchers (VoucherSet.count instance - n) instance
                             (usage d) (offers d);
      run (if vouchers_added : bool then update_count pk else ret tt);
      ret (Some pk)
    else
      ret (VoucherSet.id <$> instance).

(** [@transaction.atomic def save(self, commit=True)] *)
Definition save (instance : option VoucherSet.t) (d : data) (commit : bool)
  : M (option nat) :=
  atomic (save_body instance d commit).

End VoucherSetForm.

Module VoucherSetSearchForm.

Definition clean_code (code : string) : string := Str.upper code.

Section Fields.
Variable CharField : option string -> option string.

(** [form.is_valid()] and [cleaned_data['code']] of the form bound to the
    query parameters. *)
Definition is_valid (GET : list (string * string)) : option string :=
  match CharField (GET_get "code" GET) with
  | Some c => Some (clean_code c)
  | None => None
  end.
End Fields.

End VoucherSetSearchForm.

(** ** views.py *)

Inductive Url :=
  | voucher_list
  | voucher_set_list
  | voucher_set_detail (pk : nat)
  | voucher_set_update (pk : nat).

Inductive Response :=
  | HttpResponseRedirect (url : Url)
  | FormInvalid (errors : list ValidationError).

(** [post] of the generic form views: validate, then [form_valid] or render
    the form again with its errors. *)
Definition process_form {A} (v : Validation A) (form_valid : A -> M Response) : M Response :=
  match v with
  | Valid cleaned_data => form_valid cleaned_data
  | Errors errors => ret (FormInvalid errors)
  | Crashed e => raise e
  end.

Module VoucherCreateView.

Definition form_valid (cleaned_data : VoucherForm.data) : M Response :=
  atomic (
    do voucher <- objects_create (VoucherForm.name cleaned_data)
                    (VoucherForm.code cleaned_data) None
                    (VoucherForm.usage cleaned_data)
                    (VoucherForm.start_datetime cleaned_data)
                    (VoucherForm.end_datetime cleaned_data);
    run offers_add (Voucher.id voucher) (VoucherForm.offers cleaned_data);
    ret (HttpResponseRedirect voucher_list)).

Definition post (d : VoucherForm.data) : M Response :=
  do st <- query (fun st => st);
  process_form (VoucherForm.is_valid None st d) form_valid.

End VoucherCreateView.

Module VoucherUpdateView.

(** [Voucher.objects.get(id=self.kwargs['pk'])] *)
Definition get_voucher (pk : nat) : M Voucher.t :=
  do r <- query (fun st => get (has_id pk) (vouchers st));
  match r with
  | Found v => ret v
  | NotFound => raise DoesNotExist
  | Multiple => raise MultipleObjectsReturned
  end.

(** [get_initial]: the edit form starts from the columns of the voucher. *)
Definition get_initial (voucher : Voucher.t) : VoucherForm.data :=
  VoucherForm.mk (Voucher.name voucher) (Voucher.code voucher)
                 (Voucher.start_datetime voucher) (Voucher.end_datetime voucher)
                 (Voucher.usage voucher) (Voucher.offers voucher).

Definition form_valid (voucher : Voucher.t) (cleaned_data : VoucherForm.data)
  : M Response :=
  atomic (
    run voucher_save (Voucher.id voucher)
          (VoucherForm.name cleaned_data) (VoucherForm.code cleaned_data)
          (VoucherForm.usage cleaned_data)
          (VoucherForm.start_datetime cleaned_data)
          (VoucherForm.end_datetime cleaned_data);
    run offers_set (Voucher.id voucher) (VoucherForm.offers cleaned_data);
    ret (HttpResponseRedirect voucher_list)).

(** [dispatch] followed by [post]. *)
Definition post (pk : nat) (d : VoucherForm.data) : M Response :=
  do voucher <- get_voucher pk;
  match Voucher.voucher_set voucher with
  | Some set_pk => ret (HttpResponseRedirect (voucher_set_update set_pk))
  | None =>
      do st <- query (fun st => st);
      process_form (VoucherForm.is_valid (Some voucher) st d) (form_valid voucher)
  end.

End VoucherUpdateView.

Module VoucherDeleteView.

Definition get_success_url (object : Voucher.t) : Url :=
  match Voucher.voucher_set object with
  | Some pk => voucher_set_detail pk
  | None => voucher_list
  end.

Definition delete (pk : nat) : M Response :=
  atomic (
    (* super().delete(request, *args, **kwargs) *)
    do object <- get_object (has_id pk) vouchers;
    run voucher_delete (Voucher.id object);
    let response := HttpResponseRedirect (get_success_url object) in
    run match Voucher.voucher_set object with
        | Some set_pk => update_count set_pk
        | None => ret tt
        end;
    ret response).

End VoucherDeleteView.

Module VoucherSetCreateView.

Definition post (d : VoucherSetForm.data) : M Response :=
  process_form (VoucherSetForm.is_valid None d)
    (fun cleaned_data =>
       run VoucherSetForm.save None cleaned_data true;
       ret (HttpResponseRedirect voucher_set_list)).

End VoucherSetCreateView.

Module VoucherSetUpdateView.

(** [get_initial]: [usage] and [offers] of the form are taken from
    [self.object.vouchers.first()]; [None] when the set owns no voucher.
    Which row [first()] picks depends on the ordering declared on the model;
    the first row of the table is taken here. *)
Definition get_initial (object : VoucherSet.t) (st : Store) : option (Usage * gset nat) :=
  match vouchers_of (VoucherSet.id object) st with
  | voucher :: _ => Some (Voucher.usage voucher, Voucher.offers voucher)
  | [] => None
  end.

Definition post (pk : nat) (d : VoucherSetForm.data) : M Response :=
  do object <- get_object (set_has_id pk) voucher_sets;
  process_form (VoucherSetForm.is_valid (Some object) d)
    (fun cleaned_data =>
       run VoucherSetForm.save (Some object) cleaned_data true;
       ret (HttpResponseRedirect (voucher_set_detail pk))).

End VoucherSetUpdateView.

Module VoucherSetDeleteView.

(** Modelled from the spec: the view is the framework's generic delete
    view; per the spec the vouchers of a deleted set are deleted with it
    (the cascade is declared on the model, which is not part of these two
    files). *)
Definition post (pk : nat) : M Response :=
  do object <- get_object (set_has_id pk) voucher_sets;
  run write (fun st =>
        mkStore (List.filter (fun v => negb (in_set pk v)) (vouchers st))
                (List.filter (fun s => negb (set_has_id pk s)) (voucher_sets st))
                (next_voucher_id st) (next_set_id st));
  ret (HttpResponseRedirect voucher_set_list).

End VoucherSetDeleteView.

(** ** Ordering of query sets *)

(** The column named by an [order_by] argument, as an integer. *)
Definition field_value (field : string) (v : Voucher.t) : Z :=
  if String.eqb field "date_created" then Voucher.date_created v
  else if String.eqb field "num_basket_additions" then Z.of_nat (Voucher.num_basket_additions v)
  else if String.eqb field "num_orders" then Z.of_nat (Voucher.num_orders v)
  else 0%Z.

Definition ascending (field : string) : relation Voucher.t :=
  fun a b => (field_value field a <= field_value field b)%Z.
Definition descending (field : string) : relation Voucher.t :=
  fun a b => (field_value field b <= field_value field a)%Z.

#[global] Instance ascending_dec field a b : Decision (ascending field a b).
Proof. unfold ascending. apply _. Defined.
#[global] Instance descending_dec field a b : Decision (descending field a b).
Proof. unfold descending. apply _. Defined.

(** [qs.order_by(spec)]; a leading ["-"] asks for descending order. *)
Definition order_by (spec : string) (qs : list Voucher.t) : list Voucher.t :=
  match spec with
  | String "-" field => merge_sort (descending field) qs
  | field => merge_sort (ascending field) qs
  end.

(** Modelled from the spec: [oscar.views.sort_queryset] is not part of these
    two files.  The sort key of the request is honoured when it is one of the
    allowed sortable fields; otherwise the default ordering is used. *)
Definition sort_queryset (qs : list Voucher.t) (GET : list (string * string))
    (allowed_sorts : list string) (default : string) : list Voucher.t :=
  match GET_get "sort" GET with
  | Some sort =>
      if existsb (String.eqb sort) allowed_sorts then order_by sort qs
      else order_by default qs
  | None => order_by default qs
  end.

Module VoucherListView.

Section View.
Variable CharField : option string -> option string.
Variable NullBooleanField : option string -> option (option bool).

Definition allowed_sorts : list string :=
  ["num_basket_additions"; "num_orders"; "date_created"].

(** [start_datetime__lte=now, end_datetime__gte=now] *)
Definition active_at (now : Z) (v : Voucher.t) : bool :=
  (Voucher.start_datetime v <=? now)%Z && (now <=? Voucher.end_datetime v)%Z.

(** [end_datetime__lt=now] *)
Definition ended_before (now : Z) (v : Voucher.t) : bool :=
  (Voucher.end_datetime v <? now)%Z.

Definition get_queryset (st : Store) (now : Z) (GET : list (string * string))
  : list Voucher.t :=
  let qs := order_by "-date_created" (vouchers st) in
  let qs := sort_queryset qs GET allowed_sorts "-date_created" in
  (* If form not submitted, return early *)
  match GET with
  | [] => List.filter (voucher_set__isnull true) qs
  | _ =>
      match VoucherSearchForm.is_valid CharField NullBooleanField GET with
      | None => qs
      | Some data =>
          let qs :=
            if Str.truthy (VoucherSearchForm.name data)
            then List.filter
                   (fun v => Str.icontains (VoucherSearchForm.name data) (Voucher.name v)) qs
            else qs in
          let qs :=
            if Str.truthy (VoucherSearchForm.code data)
            then List.filter (has_code (VoucherSearchForm.code data)) qs
            else qs in
          let qs :=
            match VoucherSearchForm.is_active data with
            | Some true => List.filter (active_at now) qs
            | Some false => List.filter (ended_before now) qs
            | None => qs
            end in
          let qs :=
            match VoucherSearchForm.in_set data with
            | Some in_set => List.filter (voucher_set__isnull (negb in_set)) qs
            | None => qs
            end in
          qs
      end
  end.
End View.

End VoucherListView.

(** [key in request.GET] *)
Definition GET_has (key : string) (GET : list (string * string)) : bool :=
  existsb (fun kv => String.eqb (fst kv) key) GET.

Module VoucherSetDetailView.

Section View.
Variable CharField : option string -> option string.

(** [self.voucher_set] is the set found by [dispatch]. *)
Definition dispatch (pk : nat) : M VoucherSet.t :=
  get_object (set_has_id pk) voucher_sets.

Definition get_queryset (voucher_set : VoucherSet.t) (st : Store)
    (GET : list (string * string)) : list Voucher.t :=
  let qs := order_by "-date_created"
              (List.filter (in_set (VoucherSet.id voucher_set)) (vouchers st)) in
  let qs := sort_queryset qs GET VoucherListView.allowed_sorts "-date_created" in
  (* If form not submitted, return early *)
  let is_form_submitted := GET_has "name" GET || GET_has "code" GET in
  if negb is_form_submitted then qs
  else
    match VoucherSetSearchForm.is_valid CharField GET with
    | None => qs
    | Some code =>
        if Str.truthy code
        then List.filter (fun v => Str.icontains code (Voucher.code v)) qs
        else qs
    end.
End View.

End VoucherSetDetailView.

Module VoucherSetDownloadView.

(** The rows handed to [writer.writerow], one for each code of
    [voucher_set.vouchers.values_list('code', flat=True)]. *)
Definition get (pk : nat) : M (list (list string)) :=
  do voucher_set <- get_object (set_has_id pk) voucher_sets;
  do codes <- query (fun st => map Voucher.code (vouchers_of (VoucherSet.id voucher_set) st));
  ret (map (fun code => [code]) codes).

End VoucherSetDownloadView.

(** ** The operations of the dashboard and the states they reach *)

Inductive Op :=
  | CreateVoucher (d : VoucherForm.data)
  | UpdateVoucher (pk : nat) (d : VoucherForm.data)
  | DeleteVoucher (pk : nat)
  | CreateVoucherSet (d : VoucherSetForm.data)
  | UpdateVoucherSet (pk : nat) (d : VoucherSetForm.data)
  | DeleteVoucherSet (pk : nat).

Definition handle (op : Op) : M Response :=
  match op with
  | CreateVoucher d => VoucherCreateView.post d
  | UpdateVoucher pk d => VoucherUpdateView.post pk d
  | DeleteVoucher pk => VoucherDeleteView.delete pk
  | CreateVoucherSet d => VoucherSetCreateView.post d
  | UpdateVoucherSet pk d => VoucherSetUpdateView.post pk d
  | DeleteVoucherSet pk => VoucherSetDeleteView.post pk
  end.

(** The stores that requests to the dashboard can produce from the empty
    store, whatever the random source, the clock and the database faults of
    each request. *)
Inductive reachable : Store -> Prop :=
  | reachable_empty : reachable empty_store
  | reachable_step st op r f t :
      reachable st ->
      reachable (db (snd (handle op (mkWorld st r f t)))).

(** ** Reference instance of the framework's field conversion

    Used for concrete requests only; the statements about the list view hold
    for every conversion.  [CharField] strips the value and rejects a NUL
    character; the select widget of [NullBooleanField] never fails. *)

Definition django_CharField (raw : option string) : option string :=
  match raw with
  | None => Some EmptyString
  | Some s =>
      if Str.contains (String "000"%char EmptyString) s then None
      else Some (Str.strip s)
  end.

Definition django_NullBooleanField (raw : option string) : option (option bool) :=
  match raw with
  | Some s =>
      if String.eqb s "True" || String.eqb s "true" || String.eqb s "2" then Some (Some true)
      else if String.eqb s "False" || String.eqb s "false" || String.eqb s "3" then Some (Some false)
      else Some None
  | None => Some None
  end.

(** ** What a save does to the store *)

(** The codes that [k] successive calls of the generator draw from the random
    source, each code counting as used for the calls after it. *)
Fixpoint draw_codes (k : nat) (in_use : string -> bool) (n : nat) (tape : list ascii)
  : option (list string * list ascii) :=
  match k with
  | 0 => Some ([], tape)
  | S k' =>
      match draw_unused (S (length tape)) in_use n tape with
      | None => None
      | Some (c, rest) =>
          match draw_codes k' (fun x => in_use x || String.eqb c x) n rest with
          | None => None
          | Some (cs, rest') => Some (c :: cs, rest')
          end
      end
  end.

(** The voucher created for a set with code [c] and primary key [pk]. *)
Definition new_voucher (inst : VoucherSet.t) (u : Usage) (o : gset nat) (t : Z)
    (pk : nat) (c : string) : Voucher.t :=
  Voucher.mk pk (VoucherSet.name inst) c u (VoucherSet.start_datetime inst)
             (VoucherSet.end_datetime inst) (Some (VoucherSet.id inst)) o t 0 0.

Fixpoint new_vouchers (inst : VoucherSet.t) (u : Usage) (o : gset nat) (t : Z)
    (pk : nat) (codes : list string) : list Voucher.t :=
  match codes with
  | [] => []
  | c :: r => new_voucher inst u o t pk c :: new_vouchers inst u o t (S pk) r
  end.

(** An existing voucher after the set [inst] was saved. *)
Definition refresh (inst : VoucherSet.t) (u : Usage) (o : gset nat) (v : Voucher.t)
  : Voucher.t :=
  if in_set (VoucherSet.id inst) v
  then Voucher.offers_set o
         (Voucher.update (VoucherSet.name inst) u (VoucherSet.start_datetime inst)
                         (VoucherSet.end_datetime inst) v)
  else v.

(** The instance written by [super().save(commit)] and the table of sets
    after it. *)
Definition saved_instance (instance : option VoucherSet.t) (d : VoucherSetForm.data)
    (t : Z) (st : Store) : VoucherSet.t :=
  match instance with
  | None => VoucherSetForm.construct_instance (next_set_id st) 0 t d
  | Some old =>
      VoucherSetForm.construct_instance (VoucherSet.id old) (VoucherSet.num_vouchers old)
                                        (VoucherSet.date_created old) d
  end.

Definition saved_sets (instance : option VoucherSet.t) (d : VoucherSetForm.data)
    (t : Z) (st : Store) : list VoucherSet.t :=
  match instance with
  | None => voucher_sets st ++ [saved_instance instance d t st]
  | Some old =>
      update_where (set_has_id (VoucherSet.id old))
                   (fun _ => saved_instance instance d t st) (voucher_sets st)
  end.

(** The store after a save that generated [codes]. *)
Definition save_effect (instance : option VoucherSet.t) (d : VoucherSetForm.data)
    (t : Z) (codes : list string) (st : Store) : Store :=
  let s := saved_instance instance d t st in
  let pk := VoucherSet.id s in
  let u := VoucherSetForm.usage d in
  let o := VoucherSetForm.offers d in
  let vs := map (refresh s u o) (vouchers st)
            ++ new_vouchers s u o t (next_voucher_id st) codes in
  mkStore vs
    (match codes with
     | [] => saved_sets instance d t st
     | _ => update_where (set_has_id pk)
              (VoucherSet.set_num_vouchers (length (List.filter (in_set pk) vs)))
              (saved_sets instance d t st)
     end)
    (next_voucher_id st + length codes)
    (match instance with None => S (next_set_id st) | Some _ => next_set_id st end).

(** ** What the voucher views do to the store *)

(** The row written by the create view for the cleaned data [c]: a new
    voucher that belongs to no set. *)
Definition created (c : VoucherForm.data) (st : Store) (t : Z) : Voucher.t :=
  Voucher.mk (next_voucher_id st) (VoucherForm.name c) (VoucherForm.code c)
             (VoucherForm.usage c) (VoucherForm.start_datetime c)
             (VoucherForm.end_datetime c) None (VoucherForm.offers c) t 0 0.

(** The row of a voucher after the update view saved the cleaned data [c]. *)
Definition edited (c : VoucherForm.data) (v : Voucher.t) : Voucher.t :=
  Voucher.offers_set (VoucherForm.offers c)
    (Voucher.assign (VoucherForm.name c) (VoucherForm.code c) (VoucherForm.usage c)
                    (VoucherForm.start_datetime c) (VoucherForm.end_datetime c) v).

(** The store after the delete view removed [obj] and recounted its set. *)
Definition after_delete (obj : Voucher.t) (st : Store) : Store :=
  let st1 := with_vouchers (List.filter (fun r => negb (has_id (Voucher.id obj) r))) st in
  match Voucher.voucher_set obj with
  | Some sid =>
      with_voucher_sets
        (update_where (set_has_id sid)
           (VoucherSet.set_num_vouchers (vouchers_count sid st1))) st1
  | None => st1
  end.

(** ** Well-formed stores *)

Record store_ok (st : Store) : Prop := {
  voucher_ids_unique : NoDup (map Voucher.id (vouchers st));
  voucher_ids_bound : Forall (fun v => Voucher.id v < next_voucher_id st) (vouchers st);
  set_ids_unique : NoDup (map VoucherSet.id (voucher_sets st));
  set_ids_bound : Forall (fun s => VoucherSet.id s < next_set_id st) (voucher_sets st);
  set_refs_bound :
    Forall (fun v => forall k, Voucher.voucher_set v = Some k -> k < next_set_id st)
           (vouchers st);
  num_vouchers_ok :
    Forall (fun s => VoucherSet.num_vouchers s = vouchers_count (VoucherSet.id s) st)
           (voucher_sets st);
  count_ok :
    Forall (fun s => vouchers_count (VoucherSet.id s) st <= VoucherSet.count s)
           (voucher_sets st);
  codes_unique : NoDup (map Voucher.code (vouchers st))
}.

(** The vouchers of a set carry the name and the dates of the set, and the
    vouchers of one set have the same usage and offers. *)
Record sets_agree (st : Store) : Prop := {
  child_fields :
    forall v s, In v (vouchers st) -> In s (voucher_sets st) ->
      Voucher.voucher_set v = Some (VoucherSet.id s) ->
      Voucher.name v = VoucherSet.name s
      /\ Voucher.start_datetime v = VoucherSet.start_datetime s
      /\ Voucher.end_datetime v = VoucherSet.end_datetime s;
  siblings_agree :
    forall v v' k, In v (vouchers st) -> In v' (vouchers st) ->
      Voucher.voucher_set v = Some k -> Voucher.voucher_set v' = Some k ->
      Voucher.usage v = Voucher.usage v' /\ Voucher.offers v = Voucher.offers v'
}.

(** The vouchers that belong to no set went through [VoucherForm]: their
    names are pairwise distinct, their date range is in order and their code
    is normalized and not empty. *)
Record standalone_ok (st : Store) : Prop := {
  standalone_names :
    forall v v', In v (vouchers st) -> In v' (vouchers st) ->
      Voucher.voucher_set v = None -> Voucher.voucher_set v' = None ->
      Voucher.name v = Voucher.name v' -> v = v';
  standalone_range :
    forall v, In v (vouchers st) -> Voucher.voucher_set v = None ->
      (Voucher.start_datetime v <= Voucher.end_datetime v)%Z;
  standalone_code :
    forall v, In v (vouchers st) -> Voucher.voucher_set v = None ->
      Voucher.code v <> EmptyString
      /\ Str.upper (Str.strip (Voucher.code v)) = Voucher.code v
}.

(** A row update that keeps the primary key, the code and the owning set. *)
Definition keeps (f : Voucher.t -> Voucher.t) : Prop :=
  forall v, Voucher.id (f v) = Voucher.id v
            /\ Voucher.code (f v) = Voucher.code v
            /\ Voucher.voucher_set (f v) = Voucher.voucher_set v.

(** The instance handed to the form: a new set, or a row of the table whose
    count the form does not decrease. *)
Definition instance_ok (st : Store) (instance : option VoucherSet.t)
    (d : VoucherSetForm.data) : Prop :=
  match instance with
  | None => True
  | Some old => In old (voucher_sets st) /\ VoucherSet.count old <= VoucherSetForm.count d
  end.

(** ** Example data *)

Definition spring : VoucherSetForm.data :=
  VoucherSetForm.mk "Spring" 2 "spring sale" 10 20 2 MULTI_USE {[ 7 ]}.

(** The store after the voucher set "Spring" was created at time 5 with the
    random source "ABABCD": two vouchers, with codes "AB" and "CD". *)
Definition spring_store : Store :=
  db (snd (handle (CreateVoucherSet spring)
                  (mkWorld empty_store (list_ascii_of_string "ABABCD") None 5))).

Definition spring_set : VoucherSet.t :=
  VoucherSet.mk 1 "Spring" 2 "spring sale" 10 20 2 2 5.

(** The request that created it. *)
Definition spring_request : World :=
  mkWorld empty_store (list_ascii_of_string "ABABCD") None 5.

(** The set is renamed and extended to three vouchers. *)
Definition summer : VoucherSetForm.data :=
  VoucherSetForm.mk "Summer" 2 "summer sale" 30 40 3 SINGLE_USE {[ 8 ]}.

Definition summer_request : World :=
  mkWorld spring_store (list_ascii_of_string "EF") None 9.

(** A request whose random source repeats the first code and then runs out,
    and one whose database fails at the fourth write. *)
Definition starved_request : World :=
  mkWorld empty_store (list_ascii_of_string "ABAB") None 5.

Definition faulty_request : World :=
  mkWorld empty_store (list_ascii_of_string "ABABCD") (Some 3) 5.

(** ** The filters of the voucher list, as predicates on a voucher *)

(** The filters on name, code and membership of a set. *)
Definition other_filters (data : VoucherSearchForm.data) (v : Voucher.t) : bool :=
  (if Str.truthy (VoucherSearchForm.name data)
   then Str.icontains (VoucherSearchForm.name data) (Voucher.name v) else true)
  && (if Str.truthy (VoucherSearchForm.code data)
      then has_code (VoucherSearchForm.code data) v else true)
  && match VoucherSearchForm.in_set data with
     | Some in_set => voucher_set__isnull (negb in_set) v
     | None => true
     end.

(** The filter on [is_active]. *)
Definition active_filter (now : Z) (data : VoucherSearchForm.data) (v : Voucher.t) : bool :=
  match VoucherSearchForm.is_active data with
  | Some true => VoucherListView.active_at now v
  | Some false => VoucherListView.ended_before now v
  | None => true
  end.

(** The sort key of the request is missing or not allowed. *)
Definition no_allowed_sort (GET : list (string * string)) : Prop :=
  match GET_get "sort" GET with
  | Some sort => existsb (String.eqb sort) VoucherListView.allowed_sorts = false
  | None => True
  end.

(** Newest first. *)
Definition newest_first : relation Voucher.t :=
  fun a b => (Voucher.date_created b <= Voucher.date_created a)%Z.

(** Two standalone vouchers, created at times 1 and 2. *)
Definition two_vouchers : Store :=
  db (snd (handle (CreateVoucher (VoucherForm.mk "B" "CODEB" 10 20 SINGLE_USE ∅))
            (mkWorld
               (db (snd (handle (CreateVoucher (VoucherForm.mk "A" "CODEA" 10 20 SINGLE_USE ∅))
                                (mkWorld empty_store [] None 1))))
               [] None 2))).

(** Two searches of the voucher list: a name filter with a sort key that is
    not allowed, and a name that the form rejects (it holds a NUL character)
    with an allowed sort key. *)
Definition bogus_sort_search : list (string * string) :=
  [("name", "A"); ("sort", "bogus")].

Definition invalid_search : list (string * string) :=
  [("name", String "000"%char EmptyString); ("sort", "date_created")].

(** The store [spring_store] after the standalone voucher "Easter" was created
    at time 9 through the voucher form, and that voucher. *)
Definition easter : VoucherForm.data :=
  VoucherForm.mk "Easter" "  egg25 " 10 20 SINGLE_USE {[ 7 ]}.

Definition easter_store : Store :=
  db (snd (handle (CreateVoucher easter) (mkWorld spring_store [] None 9))).

Definition easter_voucher : Voucher.t :=
  Voucher.mk 3 "Easter" "EGG25" SINGLE_USE 10 20 None {[ 7 ]} 9 0 0.

(** The first voucher of the set "Spring". *)
Definition spring_voucher : Voucher.t :=
  Voucher.mk 1 "Spring" "AB" MULTI_USE 10 20 (Some 1) {[ 7 ]} 5 0 0.

(** * Proofs *)

(** ** The monad *)

Section MonadFacts.
Context {A B : Type}.

Lemma bind_Ok (m : M A) (f : A -> M B) w b w' :
  bind m f w = (Ok b, w') ->
  exists a w1, m w = (Ok a, w1) /\ f a w1 = (Ok b, w').
Proof.
  unfold bind. destruct (m w) as [[a|e] w1]; intros H; [eauto | discriminate].
Qed.

Lemma bind_step (m : M A) (f : A -> M B) w a w1 :
  m w = (Ok a, w1) -> bind m f w = f a w1.
Proof. unfold bind. now intros ->. Qed.

Lemma atomic_Ok (m : M A) w a w' :
  atomic m w = (Ok a, w') -> m w = (Ok a, w').
Proof.
  unfold atomic. destruct (m w) as [[x|e] w1]; intros H; [exact H | discriminate].
Qed.

Lemma atomic_Raise (m : M A) w e w' :
  atomic m w = (Raise e, w') -> db w' = db w.
Proof.
  unfold atomic. destruct (m w) as [[x|e'] w1]; intros H; [discriminate |].
  inversion H; subst. reflexivity.
Qed.

End MonadFacts.

Lemma write_Ok f w u w' :
  write f w = (Ok u, w') ->
  db w' = f (db w) /\ rng w' = rng w /\ clock w' = clock w.
Proof.
  unfold write. destruct (faults w) as [[|k]|]; intros H; inversion H; subst; auto.
Qed.

Lemma write_total f w :
  faults w = None -> write f w = (Ok tt, set_db (f (db w)) w).
Proof. unfold write. now intros ->. Qed.

Lemma write_Raise f w e w' :
  write f w = (Raise e, w') -> w' = w.
Proof.
  unfold write. destruct (faults w) as [[|k]|]; intros H; inversion H; subst; auto.
Qed.

Lemma query_Ok {A} (q : Store -> A) w a w' :
  query q w = (Ok a, w') -> a = q (db w) /\ w' = w.
Proof. unfold query. intros H; inversion H; auto. Qed.

Lemma now_Ok w a w' : now w = (Ok a, w') -> a = clock w /\ w' = w.
Proof. unfold now. intros H; inversion H; auto. Qed.

Lemma ret_Ok {A} (x : A) w a w' : ret x w = (Ok a, w') -> a = x /\ w' = w.
Proof. unfold ret. intros H; inversion H; auto. Qed.

(** Decompose a successful run step by step. *)
Ltac run_inv H :=
  let a := fresh "a" in
  let w1 := fresh "w" in
  let H1 := fresh "Hrun" in
  let H2 := fresh "Hrun" in
  lazymatch type of H with
  | bind _ _ _ = (Ok _, _) =>
      apply bind_Ok in H; destruct H as (a & w1 & H1 & H2)
  | atomic _ _ = (Ok _, _) => apply atomic_Ok in H
  | ret _ _ = (Ok _, _) => apply ret_Ok in H; destruct H as [-> ->]
  | query _ _ = (Ok _, _) => apply query_Ok in H; destruct H as [-> ->]
  | now _ = (Ok _, _) => apply now_Ok in H; destruct H as [-> ->]
  | raise _ _ = (Ok _, _) => discriminate H
  end.

(** ** Rows and tables *)

Lemma keeps_offers_set o : keeps (Voucher.offers_set o).
Proof. intros v; auto. Qed.
Lemma keeps_offers_add o : keeps (Voucher.offers_add o).
Proof. intros v; auto. Qed.
Lemma keeps_refresh s u o : keeps (refresh s u o).
Proof. intros v; unfold refresh; destruct (in_set _ v); auto. Qed.
Lemma keeps_where p f : keeps f -> keeps (fun r => if p r : bool then f r else r).
Proof. intros Hf v. destruct (p v); [apply Hf | auto]. Qed.

Lemma in_set_keeps f pk v :
  Voucher.voucher_set (f v) = Voucher.voucher_set v -> in_set pk (f v) = in_set pk v.
Proof. unfold in_set. now intros ->. Qed.

Lemma filter_map_commute {A} (p : A -> bool) (f : A -> A) (l : list A) :
  (forall x, p (f x) = p x) ->
  List.filter p (map f l) = map f (List.filter p l).
Proof.
  intros Hp. induction l as [|x l IH]; simpl; [reflexivity |].
  rewrite Hp. destruct (p x); simpl; now rewrite IH.
Qed.

Lemma count_map f pk l :
  (forall v, Voucher.voucher_set (f v) = Voucher.voucher_set v) ->
  length (List.filter (in_set pk) (map f l)) = length (List.filter (in_set pk) l).
Proof.
  intros Hf. rewrite filter_map_commute.
  - apply length_map.
  - intros v. now apply in_set_keeps.
Qed.

Lemma map_id_keeps f l :
  (forall v, Voucher.id (f v) = Voucher.id v) ->
  map Voucher.id (map f l) = map Voucher.id l.
Proof.
  intros Hf. rewrite map_map. apply map_ext. exact Hf.
Qed.

Lemma existsb_code_map f c l :
  (forall v, Voucher.code (f v) = Voucher.code v) ->
  existsb (has_code c) (map f l) = existsb (has_code c) l.
Proof.
  intros Hf. induction l as [|x l IH]; simpl; [reflexivity |].
  unfold has_code at 1. rewrite Hf. fold (has_code c x). now rewrite IH.
Qed.

Lemma map_code_keeps f l :
  (forall v, Voucher.code (f v) = Voucher.code v) ->
  map Voucher.code (map f l) = map Voucher.code l.
Proof.
  intros Hf. rewrite map_map. apply map_ext. exact Hf.
Qed.

Lemma code_in_use_spec st c :
  code_in_use st c = true <-> In c (map Voucher.code (vouchers st)).
Proof.
  unfold code_in_use. rewrite existsb_exists, in_map_iff.
  split; intros (v & H1 & H2); exists v.
  - unfold has_code in H2. apply String.eqb_eq in H2. auto.
  - unfold has_code. split; [exact H2 | now apply String.eqb_eq].
Qed.

(** Codes that are not in use can be added to a table with unique codes. *)
Lemma NoDup_codes_app st (l : list Voucher.t) codes :
  NoDup (map Voucher.code (vouchers st)) ->
  map Voucher.code l = map Voucher.code (vouchers st) ->
  Forall (fun c => code_in_use st c = false) codes -> NoDup codes ->
  NoDup (map Voucher.code l ++ codes).
Proof.
  intros Hnd Hl Hfresh Hndc. rewrite Hl. apply NoDup_app. split; [exact Hnd |].
  split; [| exact Hndc].
  intros c Hc Hc'. rewrite Forall_forall in Hfresh. specialize (Hfresh c Hc').
  apply list_elem_of_In, code_in_use_spec in Hc. congruence.
Qed.

(** With unique primary keys a row is determined by its key. *)
Lemma unique_key_eq {A} (key : A -> nat) (l : list A) x1 x2 :
  NoDup (map key l) -> In x1 l -> In x2 l -> key x1 = key x2 -> x1 = x2.
Proof.
  induction l as [|x l IH]; simpl; intros Hnd H1 H2 Heq; [contradiction |].
  apply NoDup_cons in Hnd as [Hx Hnd]. rewrite list_elem_of_In in Hx.
  destruct H1 as [<- | H1], H2 as [<- | H2]; auto.
  - exfalso. apply Hx. rewrite Heq. apply in_map, H2.
  - exfalso. apply Hx. rewrite <- Heq. apply in_map, H1.
Qed.

(** A filter that selects by a unique key finds the row itself only. *)
Lemma filter_key {A K} (key : A -> K) (eqb : K -> K -> bool) (l : list A) x :
  (forall a b, eqb a b = true <-> a = b) ->
  NoDup (map key l) -> In x l ->
  List.filter (fun y => eqb (key y) (key x)) l = [x].
Proof.
  intros Heqb.
  assert (Hrefl : eqb (key x) (key x) = true) by now apply Heqb.
  assert (Hneq : forall y, key y <> key x -> eqb (key y) (key x) = false).
  { intros y Hy. apply not_true_is_false. intros E. now apply Heqb in E. }
  induction l as [|y l IH]; simpl; intros Hnd Hin; [contradiction |].
  apply NoDup_cons in Hnd as [Hy Hnd]. rewrite list_elem_of_In in Hy.
  destruct Hin as [-> | Hin].
  - rewrite Hrefl. f_equal.
    clear IH Hnd. induction l as [|z l IH]; simpl; [reflexivity |].
    rewrite Hneq.
    + apply IH. intros Hx. apply Hy. simpl. now right.
    + intros E. apply Hy. rewrite <- E. simpl. now left.
  - rewrite Hneq.
    + now apply IH.
    + intros E. apply Hy. rewrite E. apply in_map, Hin.
Qed.

(** ** The code generator *)

Lemma length_string_of_list_ascii l :
  String.length (string_of_list_ascii l) = length l.
Proof. induction l as [|c l IH]; simpl; [reflexivity | now rewrite IH]. Qed.

Lemma draw_unused_ext fuel f g n tape :
  (forall c, f c = g c) ->
  draw_unused fuel f n tape = draw_unused fuel g n tape.
Proof.
  intros Hfg. revert tape. induction fuel as [|fuel IH]; intros tape; simpl; [reflexivity |].
  destruct (length tape <? n); [reflexivity |].
  rewrite Hfg. destruct (g _); [apply IH | reflexivity].
Qed.

(** A drawn code is unused and has the requested length. *)
Lemma draw_unused_spec fuel f n tape c rest :
  draw_unused fuel f n tape = Some (c, rest) ->
  f c = false /\ String.length c = n.
Proof.
  revert tape. induction fuel as [|fuel IH]; intros tape; simpl; [discriminate |].
  destruct (Nat.ltb_spec (length tape) n) as [Hlt|Hge]; [discriminate |].
  destruct (f (string_of_list_ascii (firstn n tape))) eqn:E.
  - apply IH.
  - intros H; inversion H; subst. split; [exact E |].
    rewrite length_string_of_list_ascii, length_firstn. lia.
Qed.

Lemma draw_codes_ext k : forall f g n tape,
  (forall c, f c = g c) ->
  draw_codes k f n tape = draw_codes k g n tape.
Proof.
  induction k as [|k IH]; intros f g n tape Hfg; cbn [draw_codes]; [reflexivity |].
  rewrite (draw_unused_ext _ f g n tape Hfg).
  destruct (draw_unused _ g n tape) as [[c rest]|]; [| reflexivity].
  rewrite (IH (fun x => f x || String.eqb c x) (fun x => g x || String.eqb c x)).
  - reflexivity.
  - intros x. now rewrite Hfg.
Qed.

(** The drawn codes: as many as asked for, of the requested length, unused
    before, and pairwise distinct. *)
Lemma draw_codes_spec k : forall f n tape codes rest,
  draw_codes k f n tape = Some (codes, rest) ->
  length codes = k
  /\ Forall (fun c => String.length c = n /\ f c = false) codes
  /\ NoDup codes.
Proof.
  induction k as [|k IH]; intros f n tape codes rest; cbn [draw_codes].
  - intros H; inversion H; subst. repeat split; constructor.
  - destruct (draw_unused _ f n tape) as [[c rest1]|] eqn:E1; [| discriminate].
    destruct (draw_codes k _ n rest1) as [[cs rest2]|] eqn:E2; [| discriminate].
    intros H; inversion H; subst.
    apply draw_unused_spec in E1 as [Hc Hlen].
    apply IH in E2 as (Hk & Hall & Hnd).
    split; [simpl; now rewrite Hk |].
    split.
    + constructor; [auto |].
      eapply Forall_impl; [exact Hall |].
      simpl. intros x [Hx1 Hx2]. split; [exact Hx1 |].
      now apply orb_false_iff in Hx2 as [Hx2 _].
    + apply NoDup_cons. split; [| exact Hnd].
      intros Hin. rewrite Forall_forall in Hall.
      apply Hall in Hin as [_ Hin].
      apply orb_false_iff in Hin as [_ Hin].
      now rewrite String.eqb_refl in Hin.
Qed.

Lemma get_unused_code_Ok n w c w' :
  get_unused_code n w = (Ok c, w') ->
  draw_unused (S (length (rng w))) (code_in_use (db w)) n (rng w) = Some (c, rng w')
  /\ db w' = db w /\ clock w' = clock w.
Proof.
  unfold get_unused_code.
  destruct (draw_unused _ _ n (rng w)) as [[c' rest]|]; intros H; inversion H; subst.
  auto.
Qed.

(** ** ORM calls *)

Lemma objects_create_Ok n c vs u s e w v w' :
  objects_create n c vs u s e w = (Ok v, w') ->
  code_in_use (db w) c = false
  /\ v = Voucher.mk (next_voucher_id (db w)) n c u s e vs ∅ (clock w) 0 0
  /\ db w' = mkStore (vouchers (db w) ++ [v]) (voucher_sets (db w))
                     (S (next_voucher_id (db w))) (next_set_id (db w))
  /\ rng w' = rng w /\ clock w' = clock w.
Proof.
  unfold objects_create. intros H.
  run_inv H. run_inv Hrun. run_inv Hrun0. run_inv Hrun.
  destruct (code_in_use (db w) c) eqn:E; [discriminate Hrun1 |].
  run_inv Hrun1. apply write_Ok in Hrun as (Hdb & Hrng & Hclock).
  run_inv Hrun0. auto.
Qed.

Lemma offers_set_Ok pk o w u w' :
  offers_set pk o w = (Ok u, w') ->
  db w' = with_vouchers (update_where (has_id pk) (Voucher.offers_set o)) (db w)
  /\ rng w' = rng w /\ clock w' = clock w.
Proof. apply write_Ok. Qed.

Lemma offers_add_Ok pk o w u w' :
  offers_add pk o w = (Ok u, w') ->
  db w' = with_vouchers (update_where (has_id pk) (Voucher.offers_add o)) (db w)
  /\ rng w' = rng w /\ clock w' = clock w.
Proof. apply write_Ok. Qed.

Lemma update_count_Ok pk w u w' :
  update_count pk w = (Ok u, w') ->
  db w' = with_voucher_sets
            (update_where (set_has_id pk)
               (VoucherSet.set_num_vouchers (vouchers_count pk (db w)))) (db w)
  /\ rng w' = rng w /\ clock w' = clock w.
Proof. intros H. apply write_Ok in H. exact H. Qed.

Lemma get_object_Ok {A} (p : A -> bool) table w a w' :
  get_object p table w = (Ok a, w') ->
  get p (table (db w)) = Found a /\ w' = w.
Proof.
  unfold get_object. intros H. run_inv H. run_inv Hrun.
  destruct (get p (table (db w))); try discriminate Hrun0.
  run_inv Hrun0. auto.
Qed.

Lemma get_Found_In {A} (p : A -> bool) l a :
  get p l = Found a -> In a l /\ p a = true.
Proof.
  unfold get. destruct (List.filter p l) as [|x [|y r]] eqn:E; try discriminate.
  intros H; inversion H; subst.
  apply filter_In. rewrite E. now left.
Qed.

Lemma get_NotFound {A} (p : A -> bool) l :
  (forall x, In x l -> p x = false) -> get p l = NotFound.
Proof.
  intros H. unfold get.
  destruct (List.filter p l) as [|x r] eqn:E; [reflexivity |].
  assert (Hx : In x (List.filter p l)) by (rewrite E; now left).
  apply filter_In in Hx as [Hx Hp]. rewrite (H x Hx) in Hp. discriminate.
Qed.

Lemma update_where_none {A} (p : A -> bool) f (l : list A) :
  (forall r, In r l -> p r = false) -> update_where p f l = l.
Proof.
  intros H. unfold update_where. induction l as [|x l IH]; simpl; [reflexivity |].
  rewrite (H x (or_introl eq_refl)). f_equal. apply IH. intros; apply H; now right.
Qed.

Lemma code_in_use_app st v x :
  existsb (has_code x) (vouchers st ++ [v])
  = code_in_use st x || String.eqb (Voucher.code v) x.
Proof.
  unfold code_in_use. rewrite existsb_app. simpl. now rewrite orb_false_r.
Qed.

(** ** The loops of [VoucherSetForm.save] *)

Lemma for_each_offers_set_Ok (l : list Voucher.t) o : forall w u w',
  for_each l (fun voucher => offers_set (Voucher.id voucher) o) w = (Ok u, w') ->
  db w' = with_vouchers
            (update_where (fun r => existsb (fun c => has_id (Voucher.id c) r) l)
                          (Voucher.offers_set o)) (db w)
  /\ rng w' = rng w /\ clock w' = clock w.
Proof.
  induction l as [|x l IH]; intros w u w' H; simpl in H.
  - run_inv H. repeat split.
    unfold with_vouchers, update_where. simpl. rewrite map_id. now destruct (db w).
  - run_inv H. apply offers_set_Ok in Hrun as (Hdb & Hrng & Hclock).
    apply IH in Hrun0 as (Hdb' & Hrng' & Hclock').
    repeat split; [| congruence | congruence].
    rewrite Hdb', Hdb. unfold with_vouchers, update_where. simpl. f_equal.
    rewrite map_map. apply map_ext. intros r.
    destruct (has_id (Voucher.id x) r) eqn:E; simpl.
    + now destruct (existsb _ l).
    + reflexivity.
Qed.

Lemma add_vouchers_Ok k inst u o : forall w b w',
  Forall (fun v => Voucher.id v < next_voucher_id (db w)) (vouchers (db w)) ->
  VoucherSetForm.add_vouchers k inst u o w = (Ok b, w') ->
  exists codes,
    draw_codes k (code_in_use (db w)) (VoucherSet.code_length inst) (rng w)
      = Some (codes, rng w')
    /\ db w' = mkStore (vouchers (db w)
                        ++ new_vouchers inst u o (clock w) (next_voucher_id (db w)) codes)
                       (voucher_sets (db w))
                       (next_voucher_id (db w) + length codes)
                       (next_set_id (db w))
    /\ clock w' = clock w
    /\ b = negb (Nat.eqb k 0).
Proof.
  induction k as [|k IH]; intros w b w' Hbound H; cbn [VoucherSetForm.add_vouchers] in H.
  - run_inv H. exists []. cbn [draw_codes new_vouchers length].
    rewrite app_nil_r, Nat.add_0_r. repeat split. now destruct (db w).
  - run_inv H. apply get_unused_code_Ok in Hrun as (Hdraw & Hdb0 & Hclock0).
    run_inv Hrun0. apply objects_create_Ok in Hrun as (Hfree & Hv & Hdb1 & Hrng1 & Hclock1).
    run_inv Hrun1. apply offers_add_Ok in Hrun as (Hdb2 & Hrng2 & Hclock2).
    run_inv Hrun0. run_inv Hrun1.
    rewrite Hdb0 in *.
    set (nid := next_voucher_id (db w)) in *.
    set (nv := new_voucher inst u o (clock w) nid a).
    assert (Hdb3 : db w2 = mkStore (vouchers (db w) ++ [nv]) (voucher_sets (db w))
                               (S nid) (next_set_id (db w))).
    { rewrite Hdb2, Hdb1. unfold with_vouchers, update_where. simpl. f_equal.
      rewrite map_app. f_equal.
      - apply (update_where_none (has_id (Voucher.id a0))).
        intros r Hr. rewrite Forall_forall in Hbound.
        apply list_elem_of_In, Hbound in Hr.
        unfold has_id. rewrite Hv. simpl. apply Nat.eqb_neq. fold nid. lia.
      - simpl. unfold has_id. rewrite Nat.eqb_refl. rewrite Hv.
        unfold nv, new_voucher, Voucher.offers_add, Voucher.offers_set. simpl.
        rewrite Hclock0. f_equal. f_equal. apply (left_id_L ∅ (∪)). }
    apply IH in Hrun as (codes & Hdraws & Hdb4 & Hclock4 & _).
    2:{ rewrite Hdb3. simpl. apply Forall_app. split.
        - eapply Forall_impl; [exact Hbound |]. simpl. intros x Hx. lia.
        - constructor; [simpl; lia | constructor]. }
    exists (a :: codes). cbn [draw_codes new_vouchers length].
    rewrite Hdraw.
    rewrite (draw_codes_ext k _ (code_in_use (db w2))).
    2:{ intros x. rewrite Hdb3. unfold code_in_use at 2. simpl.
        rewrite existsb_app. simpl. now rewrite orb_false_r. }
    replace (rng w0) with (rng w2) by congruence.
    rewrite Hdraws. repeat split.
    + rewrite Hdb4, Hdb3. simpl. rewrite <- app_assoc. simpl.
      f_equal; [| lia].
      do 3 f_equal. congruence.
    + congruence.
Qed.

(** ** A successful save *)

Lemma ModelForm_save_Ok inst d w s w' :
  VoucherSetForm.ModelForm_save inst d w = (Ok s, w') ->
  s = saved_instance inst d (clock w) (db w)
  /\ db w' = mkStore (vouchers (db w)) (saved_sets inst d (clock w) (db w))
                     (next_voucher_id (db w))
                     (match inst with
                      | None => S (next_set_id (db w))
                      | Some _ => next_set_id (db w)
                      end)
  /\ rng w' = rng w /\ clock w' = clock w.
Proof.
  unfold VoucherSetForm.ModelForm_save. destruct inst as [old|]; intros H.
  - run_inv H. apply write_Ok in Hrun as (Hdb & Hrng & Hclock). run_inv Hrun0.
    repeat split; auto.
  - run_inv H. run_inv Hrun. run_inv Hrun0. run_inv Hrun.
    run_inv Hrun1. apply write_Ok in Hrun as (Hdb & Hrng & Hclock). run_inv Hrun0.
    repeat split; auto.
Qed.

(** The two passes over the vouchers of the set amount to [refresh]. *)
Lemma refresh_passes (s : VoucherSet.t) u o (l : list Voucher.t) :
  NoDup (map Voucher.id l) ->
  let pk := VoucherSet.id s in
  let l1 := update_where (in_set pk)
              (Voucher.update (VoucherSet.name s) u (VoucherSet.start_datetime s)
                              (VoucherSet.end_datetime s)) l in
  update_where (fun r => existsb (fun c => has_id (Voucher.id c) r)
                                 (List.filter (in_set pk) l1))
               (Voucher.offers_set o) l1
  = map (refresh s u o) l.
Proof.
  intros Hnd pk l1. unfold update_where at 1. unfold l1 at 2. unfold update_where at 1.
  rewrite map_map. apply map_ext_in. intros v Hv.
  set (upd := Voucher.update _ _ _ _).
  unfold refresh. fold pk. fold upd.
  destruct (in_set pk v) eqn:E.
  - replace (existsb _ _) with true; [reflexivity |].
    symmetry. apply existsb_exists. exists (upd v). split.
    + apply filter_In. split.
      * unfold l1, update_where. apply in_map_iff. exists v. now rewrite E.
      * exact E.
    + unfold has_id. apply Nat.eqb_refl.
  - replace (existsb _ _) with false; [reflexivity |].
    symmetry. apply not_true_is_false. intros Hex.
    apply existsb_exists in Hex as (c & Hc & Hid).
    apply filter_In in Hc as [Hc Hcset].
    unfold l1, update_where in Hc. apply in_map_iff in Hc as (v0 & Hc & Hv0).
    assert (Hsame : Voucher.id c = Voucher.id v0 /\ in_set pk c = in_set pk v0).
    { subst c. destruct (in_set pk v0) eqn:E0; split; auto; exact E0. }
    destruct Hsame as [Hid0 Hset0].
    unfold has_id in Hid. apply Nat.eqb_eq in Hid.
    assert (v = v0) by (apply (unique_key_eq Voucher.id l); auto; congruence).
    subst v0. congruence.
Qed.

Lemma save_body_Ok inst d w r w' :
  NoDup (map Voucher.id (vouchers (db w))) ->
  Forall (fun v => Voucher.id v < next_voucher_id (db w)) (vouchers (db w)) ->
  VoucherSetForm.save_body inst d true w = (Ok r, w') ->
  let s := saved_instance inst d (clock w) (db w) in
  exists codes,
    draw_codes (VoucherSetForm.count d - vouchers_count (VoucherSet.id s) (db w))
               (code_in_use (db w)) (VoucherSetForm.code_length d) (rng w)
      = Some (codes, rng w')
    /\ db w' = save_effect inst d (clock w) codes (db w)
    /\ r = Some (VoucherSet.id s)
    /\ clock w' = clock w.
Proof.
  intros Hnd Hbound H s. unfold VoucherSetForm.save_body in H.
  run_inv H. apply ModelForm_save_Ok in Hrun as (Hs & Hdb1 & Hrng1 & Hclock1).
  fold s in Hs. subst a.
  run_inv Hrun0. apply write_Ok in Hrun as (Hdb2 & Hrng2 & Hclock2).
  run_inv Hrun1. run_inv Hrun.
  run_inv Hrun0. apply for_each_offers_set_Ok in Hrun as (Hdb3 & Hrng3 & Hclock3).
  run_inv Hrun1. run_inv Hrun.
  run_inv Hrun0.
  set (pk := VoucherSet.id s) in *.
  set (u := VoucherSetForm.usage d) in *.
  set (o := VoucherSetForm.offers d) in *.
  assert (Hv3 : vouchers (db w2) = map (refresh s u o) (vouchers (db w))).
  { rewrite Hdb3. unfold vouchers_of. rewrite Hdb2, Hdb1. simpl.
    apply (refresh_passes s u o _ Hnd). }
  assert (Hrest3 : voucher_sets (db w2) = saved_sets inst d (clock w) (db w)
                   /\ next_voucher_id (db w2) = next_voucher_id (db w)
                   /\ next_set_id (db w2)
                      = match inst with
                        | None => S (next_set_id (db w))
                        | Some _ => next_set_id (db w)
                        end).
  { rewrite Hdb3, Hdb2, Hdb1. simpl. auto. }
  destruct Hrest3 as (Hsets3 & Hnv3 & Hns3).
  assert (Hcount3 : vouchers_count pk (db w2) = vouchers_count pk (db w)).
  { unfold vouchers_count, vouchers_of. rewrite Hv3. apply count_map.
    intros v. apply keeps_refresh. }
  apply add_vouchers_Ok in Hrun as (codes & Hdraw & Hdb4 & Hclock4 & Hb).
  2:{ rewrite Hv3, Hnv3. apply Forall_forall. intros v Hv.
      apply list_elem_of_In, in_map_iff in Hv as (v0 & <- & Hv0).
      rewrite Forall_forall in Hbound. apply list_elem_of_In, Hbound in Hv0.
      destruct (keeps_refresh s u o v0) as [-> _]. exact Hv0. }
  rewrite Hcount3 in Hdraw, Hb.
  rewrite (draw_codes_ext _ _ (code_in_use (db w))) in Hdraw.
  2:{ intros c. unfold code_in_use. rewrite Hv3. apply existsb_code_map.
      intros v. apply keeps_refresh. }
  replace (rng w2) with (rng w) in Hdraw by congruence.
  replace (clock w2) with (clock w) in Hdb4 by congruence.
  rewrite Hv3, Hsets3, Hnv3, Hns3 in Hdb4.
  assert (Hcnt : VoucherSet.count s = VoucherSetForm.count d)
    by (unfold s; destruct inst; reflexivity).
  assert (Hcl : VoucherSet.code_length s = VoucherSetForm.code_length d)
    by (unfold s; destruct inst; reflexivity).
  rewrite Hcnt in Hdraw, Hb. rewrite Hcl in Hdraw.
  pose proof (draw_codes_spec _ _ _ _ _ _ Hdraw) as (Hlen & _ & _).
  exists codes.
  destruct (VoucherSetForm.count d - vouchers_count pk (db w)) as [|k] eqn:Ek;
    simpl in Hb; subst a1.
  - run_inv Hrun1. run_inv Hrun. run_inv Hrun0.
    destruct codes; [| discriminate Hlen].
    repeat split; [exact Hdraw | | congruence].
    rewrite Hdb4. unfold save_effect. fold s u o. simpl. reflexivity.
  - run_inv Hrun1. apply update_count_Ok in Hrun as (Hdb5 & Hrng5 & Hclock5).
    run_inv Hrun0.
    destruct codes as [|c codes]; [discriminate Hlen |].
    repeat split; [congruence | | congruence].
    rewrite Hdb5, Hdb4. unfold save_effect. fold s u o pk. simpl. reflexivity.
Qed.

(** ** Runs on a database without faults *)

Lemma objects_create_run n c vs u s e w :
  faults w = None -> code_in_use (db w) c = false ->
  let v := Voucher.mk (next_voucher_id (db w)) n c u s e vs ∅ (clock w) 0 0 in
  objects_create n c vs u s e w
  = (Ok v, set_db (mkStore (vouchers (db w) ++ [v]) (voucher_sets (db w))
                           (S (next_voucher_id (db w))) (next_set_id (db w))) w).
Proof.
  intros Hf Hc v. unfold objects_create, bind, query, now. rewrite Hc.
  rewrite write_total by exact Hf. reflexivity.
Qed.

Lemma objects_create_total n c vs u s e w :
  faults w = None -> code_in_use (db w) c = false ->
  exists v w', objects_create n c vs u s e w = (Ok v, w') /\ faults w' = None.
Proof.
  intros Hf Hc. unfold objects_create, bind, query, now. rewrite Hc.
  rewrite write_total by exact Hf. unfold ret. eexists _, _. split; [reflexivity | exact Hf].
Qed.

Lemma for_each_offers_set_total (l : list Voucher.t) o : forall w,
  faults w = None ->
  exists w', for_each l (fun voucher => offers_set (Voucher.id voucher) o) w = (Ok tt, w')
             /\ faults w' = None.
Proof.
  induction l as [|x l IH]; intros w Hf; simpl.
  - exists w. split; [reflexivity | exact Hf].
  - unfold bind, offers_set. rewrite write_total by exact Hf.
    apply IH. exact Hf.
Qed.

Lemma add_vouchers_total k inst u o : forall w codes rest,
  faults w = None ->
  draw_codes k (code_in_use (db w)) (VoucherSet.code_length inst) (rng w)
    = Some (codes, rest) ->
  exists b w', VoucherSetForm.add_vouchers k inst u o w = (Ok b, w')
               /\ faults w' = None.
Proof.
  induction k as [|k IH]; intros w codes rest Hf Hdraw;
    cbn [VoucherSetForm.add_vouchers draw_codes] in *.
  - exists false, w. split; [reflexivity | exact Hf].
  - destruct (draw_unused _ _ _ (rng w)) as [[c rest1]|] eqn:E1; [| discriminate].
    destruct (draw_codes k _ _ rest1) as [[cs rest2]|] eqn:E2; [| discriminate].
    assert (Hget : get_unused_code (VoucherSet.code_length inst) w
                   = (Ok c, set_rng rest1 w)).
    { unfold get_unused_code. now rewrite E1. }
    rewrite (bind_step _ _ _ _ _ Hget).
    destruct (draw_unused_spec _ _ _ _ _ _ E1) as [Hfree _].
    destruct (objects_create_total (VoucherSet.name inst) c
                (Some (VoucherSet.id inst)) u (VoucherSet.start_datetime inst)
                (VoucherSet.end_datetime inst) (set_rng rest1 w) Hf Hfree)
      as (v & w1 & Hcreate & Hf1).
    rewrite (bind_step _ _ _ _ _ Hcreate).
    pose proof (objects_create_Ok _ _ _ _ _ _ _ _ _ Hcreate)
      as (_ & Hv & Hdb1 & Hrng1 & _).
    assert (Hadd : offers_add (Voucher.id v) o w1
                   = (Ok tt, set_db (with_vouchers
                                       (update_where (has_id (Voucher.id v))
                                                     (Voucher.offers_add o)) (db w1)) w1)).
    { unfold offers_add. now rewrite write_total. }
    rewrite (bind_step _ _ _ _ _ Hadd).
    destruct (IH (set_db (with_vouchers
                            (update_where (has_id (Voucher.id v))
                                          (Voucher.offers_add o)) (db w1)) w1)
                 cs rest2) as (b & w' & Hrec & Hf').
    + exact Hf1.
    + simpl. rewrite Hrng1. simpl.
      rewrite <- E2. apply draw_codes_ext. intros x.
      unfold code_in_use at 1. simpl. unfold update_where.
      rewrite existsb_code_map by (intros r; apply keeps_where, keeps_offers_add).
      rewrite Hdb1. simpl. rewrite code_in_use_app. now rewrite Hv.
    + rewrite (bind_step _ _ _ _ _ Hrec). unfold ret. eexists _, _. split; [reflexivity | exact Hf'].
Qed.

Lemma saved_instance_count inst d t st :
  VoucherSet.count (saved_instance inst d t st) = VoucherSetForm.count d.
Proof. now destruct inst. Qed.

Lemma saved_instance_code_length inst d t st :
  VoucherSet.code_length (saved_instance inst d t st) = VoucherSetForm.code_length d.
Proof. now destruct inst. Qed.

Lemma save_body_total inst d w codes rest :
  faults w = None ->
  draw_codes (VoucherSetForm.count d
              - vouchers_count (VoucherSet.id (saved_instance inst d (clock w) (db w))) (db w))
             (code_in_use (db w)) (VoucherSetForm.code_length d) (rng w)
    = Some (codes, rest) ->
  exists r w', VoucherSetForm.save_body inst d true w = (Ok r, w').
Proof.
  intros Hf Hdraw. unfold VoucherSetForm.save_body.
  assert (Hsave : exists w1, VoucherSetForm.ModelForm_save inst d w
                    = (Ok (saved_instance inst d (clock w) (db w)), w1)
                    /\ faults w1 = None).
  { unfold VoucherSetForm.ModelForm_save, saved_instance.
    destruct inst as [old|]; unfold bind, query, now;
      rewrite write_total by exact Hf; unfold ret; eexists; split; try reflexivity;
      exact Hf. }
  destruct Hsave as (w1 & Hsave & Hf1).
  pose proof (ModelForm_save_Ok _ _ _ _ _ Hsave) as (_ & Hdb1 & Hrng1 & Hclock1).
  set (s := saved_instance inst d (clock w) (db w)) in *.
  rewrite (bind_step _ _ _ _ _ Hsave).
  unfold bind at 1. rewrite write_total by exact Hf1.
  unfold bind at 1. unfold query at 1.
  match goal with
  | |- context [bind (for_each ?l ?body) _ ?w0] =>
      destruct (for_each_offers_set_total l (VoucherSetForm.offers d) w0 Hf1)
        as (w3 & Hloop & Hf3)
  end.
  rewrite (bind_step _ _ _ _ _ Hloop).
  pose proof (for_each_offers_set_Ok _ _ _ _ _ Hloop) as (Hdb3 & Hrng3 & Hclock3).
  unfold bind at 1. unfold query at 1.
  simpl in Hdb3, Hrng3.
  assert (Hv3 : exists f, keeps f /\ vouchers (db w3) = map f (vouchers (db w))).
  { rewrite Hdb3. unfold with_vouchers, update_where. simpl. rewrite Hdb1. simpl.
    rewrite map_map. eexists. split; [| reflexivity].
    intros r. cbv beta. destruct (in_set _ r); destruct (existsb _ _); auto. }
  destruct Hv3 as (f & Hk & Hv3).
  assert (Hcount3 : vouchers_count (VoucherSet.id s) (db w3)
                    = vouchers_count (VoucherSet.id s) (db w)).
  { unfold vouchers_count, vouchers_of. rewrite Hv3.
    apply count_map. intros v; apply Hk. }
  destruct (add_vouchers_total
              (VoucherSet.count s - vouchers_count (VoucherSet.id s) (db w3))
              s (VoucherSetForm.usage d) (VoucherSetForm.offers d) w3 codes rest Hf3)
    as (b & w4 & Hadd & Hf4).
  { rewrite Hcount3. unfold s at 1 3. rewrite saved_instance_count, saved_instance_code_length.
    rewrite Hrng3, Hrng1. rewrite <- Hdraw. apply draw_codes_ext. intros c.
    unfold code_in_use. rewrite Hv3.
    apply existsb_code_map. intros v; apply Hk. }
  rewrite (bind_step _ _ _ _ _ Hadd).
  destruct b.
  - unfold bind, update_count. rewrite write_total by exact Hf4. unfold ret. eauto.
  - unfold bind, ret. eauto.
Qed.

(** ** The store after a save *)

Lemma new_vouchers_length inst u o t nid codes :
  length (new_vouchers inst u o t nid codes) = length codes.
Proof.
  revert nid. induction codes as [|c r IH]; intros nid; simpl; [reflexivity |].
  now rewrite IH.
Qed.

Lemma new_vouchers_ids inst u o t nid codes :
  map Voucher.id (new_vouchers inst u o t nid codes) = seq nid (length codes).
Proof.
  revert nid. induction codes as [|c r IH]; intros nid; simpl; [reflexivity |].
  now rewrite IH.
Qed.

Lemma new_vouchers_codes inst u o t nid codes :
  map Voucher.code (new_vouchers inst u o t nid codes) = codes.
Proof.
  revert nid. induction codes as [|c r IH]; intros nid; simpl; [reflexivity |].
  now rewrite IH.
Qed.

Lemma new_vouchers_In inst u o t nid codes v :
  In v (new_vouchers inst u o t nid codes) ->
  exists i c, v = new_voucher inst u o t (nid + i) c /\ In c codes /\ i < length codes.
Proof.
  revert nid. induction codes as [|c r IH]; intros nid; simpl; [contradiction |].
  intros [<- | Hin].
  - exists 0, c. rewrite Nat.add_0_r. repeat split; auto. lia.
  - apply IH in Hin as (i & c' & -> & Hc' & Hi).
    exists (S i), c'. rewrite Nat.add_succ_r. repeat split; auto. lia.
Qed.

Lemma filter_in_set_news inst u o t nid codes k :
  List.filter (in_set k) (new_vouchers inst u o t nid codes)
  = if Nat.eqb (VoucherSet.id inst) k then new_vouchers inst u o t nid codes else [].
Proof.
  revert nid. induction codes as [|c r IH]; intros nid; simpl.
  - now destruct (Nat.eqb _ k).
  - rewrite IH. unfold in_set at 1. simpl. now destruct (Nat.eqb _ k).
Qed.

Lemma save_effect_count inst d t codes st k :
  vouchers_count k (save_effect inst d t codes st)
  = vouchers_count k st
    + (if Nat.eqb (VoucherSet.id (saved_instance inst d t st)) k
       then length codes else 0).
Proof.
  unfold vouchers_count, vouchers_of, save_effect. simpl.
  rewrite List.filter_app, List.length_app. f_equal.
  - apply count_map. intros v. apply keeps_refresh.
  - rewrite filter_in_set_news. destruct (Nat.eqb _ k); [| reflexivity].
    apply new_vouchers_length.
Qed.

Lemma In_update_where {A} (p : A -> bool) f (l : list A) x :
  In x (update_where p f l) <-> exists y, In y l /\ x = if p y then f y else y.
Proof.
  unfold update_where. rewrite in_map_iff. split; intros (y & H1 & H2); exists y; auto.
Qed.

Lemma map_update_where {A B} (g : A -> B) (p : A -> bool) f (l : list A) :
  (forall x, g (f x) = g x) -> map g (update_where p f l) = map g l.
Proof.
  intros H. unfold update_where. rewrite map_map. apply map_ext.
  intros x. destruct (p x); auto.
Qed.

(** A set that owns no voucher yet. *)
Lemma vouchers_count_fresh st k :
  Forall (fun v => forall j, Voucher.voucher_set v = Some j -> j < next_set_id st)
         (vouchers st) ->
  next_set_id st <= k -> vouchers_count k st = 0.
Proof.
  intros H Hk. unfold vouchers_count, vouchers_of.
  induction (vouchers st) as [|v l IH]; simpl; [reflexivity |].
  apply Forall_cons in H as [Hv Hl].
  unfold in_set at 1. destruct (Voucher.voucher_set v) as [j|] eqn:E; [| now apply IH].
  specialize (Hv j eq_refl).
  destruct (Nat.eqb_spec j k); [lia | now apply IH].
Qed.

Lemma saved_instance_id_bound st inst d t :
  store_ok st -> instance_ok st inst d ->
  VoucherSet.id (saved_instance inst d t st)
  < match inst with None => S (next_set_id st) | Some _ => next_set_id st end.
Proof.
  intros Hok Hinst. destruct inst as [old|]; simpl; [| lia].
  destruct Hinst as [Hin _]. pose proof (set_ids_bound st Hok) as Hb.
  rewrite Forall_forall in Hb. now apply list_elem_of_In, Hb in Hin.
Qed.

Lemma saved_sets_ids st inst d t :
  map VoucherSet.id (saved_sets inst d t st)
  = match inst with
    | None => map VoucherSet.id (voucher_sets st) ++ [next_set_id st]
    | Some _ => map VoucherSet.id (voucher_sets st)
    end.
Proof.
  destruct inst as [old|]; simpl.
  - unfold update_where. rewrite map_map. apply map_ext_in. intros x _.
    unfold set_has_id. destruct (Nat.eqb_spec (VoucherSet.id x) (VoucherSet.id old)); auto.
  - now rewrite map_app.
Qed.

(** Every row of the table of sets after [super().save]: the saved instance,
    or an unchanged row with another key. *)
Lemma In_saved_sets st inst d t x :
  Forall (fun s => VoucherSet.id s < next_set_id st) (voucher_sets st) ->
  In x (saved_sets inst d t st) ->
  x = saved_instance inst d t st
  \/ (In x (voucher_sets st)
      /\ VoucherSet.id x <> VoucherSet.id (saved_instance inst d t st)).
Proof.
  intros Hb. destruct inst as [old|]; simpl.
  - intros H. apply In_update_where in H as (y & Hy & ->).
    unfold set_has_id. destruct (Nat.eqb_spec (VoucherSet.id y) (VoucherSet.id old)); auto.
  - intros H. apply in_app_iff in H as [H | [<- | []]]; auto.
    right. split; [exact H |].
    rewrite Forall_forall in Hb. apply list_elem_of_In, Hb in H. lia.
Qed.

Lemma In_save_effect_sets st inst d t codes x :
  Forall (fun s => VoucherSet.id s < next_set_id st) (voucher_sets st) ->
  let s := saved_instance inst d t st in
  let st' := save_effect inst d t codes st in
  In x (voucher_sets st') ->
  (VoucherSet.id x = VoucherSet.id s
   /\ VoucherSet.count x = VoucherSetForm.count d
   /\ VoucherSet.num_vouchers x
      = match codes with
        | [] => VoucherSet.num_vouchers s
        | _ => vouchers_count (VoucherSet.id s) st'
        end)
  \/ (In x (voucher_sets st) /\ VoucherSet.id x <> VoucherSet.id s).
Proof.
  intros Hb s st' Hx.
  assert (Hs : VoucherSet.count s = VoucherSetForm.count d)
    by apply saved_instance_count.
  destruct codes as [|c codes].
  - simpl in Hx. apply (In_saved_sets st inst d t x Hb) in Hx as [-> | Hx]; auto.
  - unfold st', save_effect in Hx. cbn [voucher_sets] in Hx.
    apply In_update_where in Hx as (y & Hy & ->).
    apply (In_saved_sets st inst d t y Hb) in Hy as [-> | [Hy Hne]].
    + left. fold s. unfold set_has_id. rewrite Nat.eqb_refl.
      repeat split; auto.
    + right. unfold set_has_id.
      pose proof Hne as Hne'. apply Nat.eqb_neq in Hne'. rewrite Hne'. auto.
Qed.

Lemma save_effect_ok st inst d t codes :
  store_ok st -> instance_ok st inst d ->
  length codes
  = VoucherSetForm.count d - vouchers_count (VoucherSet.id (saved_instance inst d t st)) st ->
  Forall (fun c => code_in_use st c = false) codes -> NoDup codes ->
  store_ok (save_effect inst d t codes st).
Proof.
  intros Hok Hinst Hlen Hfresh Hndc.
  set (s := saved_instance inst d t st) in *.
  set (st' := save_effect inst d t codes st).
  pose proof (saved_instance_id_bound st inst d t Hok Hinst) as Hpk. fold s in Hpk.
  assert (Hns : next_set_id st
                <= match inst with None => S (next_set_id st) | Some _ => next_set_id st end)
    by (destruct inst; lia).
  pose proof (voucher_ids_bound st Hok) as Hvb. rewrite Forall_forall in Hvb.
  pose proof (set_ids_bound st Hok) as Hsb.
  pose proof (set_refs_bound st Hok) as Hrb.
  assert (HM : vouchers_count (VoucherSet.id s) st <= VoucherSetForm.count d).
  { destruct inst as [old|]; simpl in *.
    - destruct Hinst as [Hin Hle]. pose proof (count_ok st Hok) as Hc.
      rewrite Forall_forall in Hc. apply list_elem_of_In, Hc in Hin. lia.
    - rewrite (vouchers_count_fresh st (next_set_id st) Hrb); lia. }
  assert (Hcount : forall x, In x (voucher_sets st') ->
            VoucherSet.num_vouchers x = vouchers_count (VoucherSet.id x) st'
            /\ vouchers_count (VoucherSet.id x) st' <= VoucherSet.count x).
  { intros x Hx.
    apply (In_save_effect_sets st inst d t codes x Hsb) in Hx
      as [(Hid & Hcnt & Hnum) | (Hx & Hne)].
    - rewrite Hid, Hcnt. unfold st'. rewrite save_effect_count.
      rewrite Nat.eqb_refl. fold s. split; [| lia].
      rewrite Hnum. destruct codes as [|c codes].
      + simpl. rewrite Nat.add_0_r. unfold s. destruct inst as [old|]; simpl.
        * destruct Hinst as [Hin _]. pose proof (num_vouchers_ok st Hok) as Hn.
          rewrite Forall_forall in Hn. now apply list_elem_of_In, Hn in Hin.
        * symmetry. apply vouchers_count_fresh; [exact Hrb | lia].
      + rewrite save_effect_count. now rewrite Nat.eqb_refl.
    - unfold st'. rewrite save_effect_count. fold s.
      destruct (Nat.eqb_spec (VoucherSet.id s) (VoucherSet.id x)) as [E|E];
        [exfalso; apply Hne; symmetry; exact E |].
      rewrite Nat.add_0_r.
      pose proof (num_vouchers_ok st Hok) as Hn. pose proof (count_ok st Hok) as Hc.
      rewrite Forall_forall in Hn, Hc.
      split; [apply Hn | apply Hc]; now apply list_elem_of_In. }
  assert (Hsets_ids : map VoucherSet.id (voucher_sets st')
                      = map VoucherSet.id (saved_sets inst d t st)).
  { unfold st', save_effect. cbn [voucher_sets]. destruct codes; [reflexivity |].
    now apply map_update_where. }
  constructor.
  - unfold st', save_effect. cbn [vouchers].
    rewrite map_app, new_vouchers_ids.
    rewrite map_id_keeps by (intros v; apply keeps_refresh).
    apply NoDup_app. split; [apply (voucher_ids_unique st Hok) |].
    split; [| apply NoDup_seq].
    intros x Hx Hx'. apply list_elem_of_In, in_map_iff in Hx as (v & <- & Hv).
    apply list_elem_of_In, in_seq in Hx'. apply list_elem_of_In, Hvb in Hv. lia.
  - apply Forall_forall. intros v Hv. unfold st', save_effect in *.
    cbn [vouchers next_voucher_id] in *.
    apply list_elem_of_In, in_app_iff in Hv as [Hv | Hv].
    + apply in_map_iff in Hv as (v0 & <- & Hv0).
      rewrite (proj1 (keeps_refresh _ _ _ v0)).
      apply list_elem_of_In, Hvb in Hv0. lia.
    + apply new_vouchers_In in Hv as (i & c & -> & _ & Hi). simpl. lia.
  - rewrite Hsets_ids, saved_sets_ids. destruct inst; [apply (set_ids_unique st Hok) |].
    apply NoDup_app. split; [apply (set_ids_unique st Hok) |].
    split; [| apply NoDup_singleton].
    intros x Hx Hx'. apply list_elem_of_In, in_map_iff in Hx as (y & <- & Hy).
    apply list_elem_of_In in Hx'. destruct Hx' as [Hx' | []].
    rewrite Forall_forall in Hsb. apply list_elem_of_In, Hsb in Hy. lia.
  - apply Forall_forall. intros x Hx.
    apply list_elem_of_In, (in_map VoucherSet.id) in Hx.
    rewrite Hsets_ids, saved_sets_ids in Hx.
    unfold st', save_effect. cbn [next_set_id].
    rewrite Forall_forall in Hsb.
    assert (Hold : forall k, In k (map VoucherSet.id (voucher_sets st)) -> k < next_set_id st).
    { intros k Hk. apply in_map_iff in Hk as (y & <- & Hy).
      now apply list_elem_of_In, Hsb in Hy. }
    destruct inst.
    + now apply Hold.
    + apply in_app_iff in Hx as [Hx | [<- | []]]; [apply Hold in Hx |]; lia.
  - apply Forall_forall. intros v Hv j Hj. unfold st', save_effect in *.
    cbn [vouchers next_set_id] in *.
    apply list_elem_of_In, in_app_iff in Hv as [Hv | Hv].
    + apply in_map_iff in Hv as (v0 & <- & Hv0).
      rewrite (proj2 (proj2 (keeps_refresh _ _ _ v0))) in Hj.
      rewrite Forall_forall in Hrb.
      apply list_elem_of_In in Hv0. specialize (Hrb v0 Hv0 j Hj). lia.
    + apply new_vouchers_In in Hv as (i & c & -> & _ & _). simpl in Hj.
      inversion Hj; subst j. exact Hpk.
  - apply Forall_forall. intros x Hx. now apply list_elem_of_In, Hcount in Hx.
  - apply Forall_forall. intros x Hx. now apply list_elem_of_In, Hcount in Hx.
  - unfold st', save_effect. cbn [vouchers].
    rewrite map_app, new_vouchers_codes.
    apply (NoDup_codes_app st).
    + apply (codes_unique st Hok).
    + apply map_code_keeps. intros v. apply keeps_refresh.
    + exact Hfresh.
    + exact Hndc.
Qed.

(** ** Well-formedness is kept by every table update of the views *)

Lemma vouchers_count_map f k st :
  (forall v, Voucher.voucher_set (f v) = Voucher.voucher_set v) ->
  vouchers_count k (with_vouchers (map f) st) = vouchers_count k st.
Proof. intros Hf. unfold vouchers_count, vouchers_of. simpl. now apply count_map. Qed.

(** Row updates that keep the key and the owning set keep the store well
    formed when the codes stay unique. *)
Lemma store_ok_rows st f :
  store_ok st ->
  (forall v, Voucher.id (f v) = Voucher.id v
             /\ Voucher.voucher_set (f v) = Voucher.voucher_set v) ->
  NoDup (map Voucher.code (map f (vouchers st))) ->
  store_ok (with_vouchers (map f) st).
Proof.
  intros Hok Hf Hcodes.
  assert (Hcnt : forall k, vouchers_count k (with_vouchers (map f) st) = vouchers_count k st)
    by (intros k; apply vouchers_count_map; intros v; apply Hf).
  constructor; simpl.
  - rewrite map_id_keeps by (intros v; apply Hf). apply (voucher_ids_unique st Hok).
  - apply Forall_forall. intros v Hv.
    apply list_elem_of_In, in_map_iff in Hv as (v0 & <- & Hv0).
    rewrite (proj1 (Hf v0)).
    pose proof (voucher_ids_bound st Hok) as Hb. rewrite Forall_forall in Hb.
    now apply list_elem_of_In, Hb in Hv0.
  - apply (set_ids_unique st Hok).
  - apply (set_ids_bound st Hok).
  - apply Forall_forall. intros v Hv j Hj.
    apply list_elem_of_In, in_map_iff in Hv as (v0 & <- & Hv0).
    rewrite (proj2 (Hf v0)) in Hj.
    pose proof (set_refs_bound st Hok) as Hb. rewrite Forall_forall in Hb.
    apply list_elem_of_In in Hv0. exact (Hb v0 Hv0 j Hj).
  - eapply Forall_impl; [apply (num_vouchers_ok st Hok) |].
    simpl. intros s Hs. now rewrite Hcnt.
  - eapply Forall_impl; [apply (count_ok st Hok) |].
    simpl. intros s Hs. now rewrite Hcnt.
  - exact Hcodes.
Qed.

Lemma store_ok_map st f :
  store_ok st -> keeps f -> store_ok (with_vouchers (map f) st).
Proof.
  intros Hok Hf. apply store_ok_rows; [exact Hok | intros v; split; apply Hf |].
  rewrite map_code_keeps by (intros v; apply Hf). apply (codes_unique st Hok).
Qed.

Lemma store_ok_update_where st p f :
  store_ok st -> keeps f -> store_ok (with_vouchers (update_where p f) st).
Proof.
  intros Hok Hf. apply (store_ok_map st (fun r => if p r then f r else r) Hok).
  now apply keeps_where.
Qed.

(** Assigning the code [c] to the row [pk] when no other row has it. *)
Lemma NoDup_codes_assign (l : list Voucher.t) pk n c u s e :
  NoDup (map Voucher.id l) -> NoDup (map Voucher.code l) ->
  existsb (fun r => has_code c r && negb (has_id pk r)) l = false ->
  NoDup (map Voucher.code (update_where (has_id pk) (Voucher.assign n c u s e) l)).
Proof.
  intros Hid Hcode Hclash.
  assert (Hother : forall r, In r l -> Voucher.code r = c -> Voucher.id r = pk).
  { intros r Hr Hc. destruct (Nat.eq_dec (Voucher.id r) pk) as [E|E]; [exact E |].
    exfalso. apply not_true_iff_false in Hclash. apply Hclash.
    apply existsb_exists. exists r. split; [exact Hr |].
    unfold has_code, has_id. apply andb_true_iff. split.
    - now apply String.eqb_eq.
    - now apply negb_true_iff, Nat.eqb_neq. }
  clear Hclash. induction l as [|x l IH]; simpl; [constructor |].
  simpl in Hid, Hcode.
  apply NoDup_cons in Hid as [Hx Hid]. apply NoDup_cons in Hcode as [Hcx Hcode].
  rewrite list_elem_of_In in Hx. rewrite list_elem_of_In in Hcx.
  apply NoDup_cons. split.
  - rewrite list_elem_of_In. intros Hin.
    apply in_map_iff in Hin as (y' & Hcy & Hy').
    apply In_update_where in Hy' as (y & Hy & ->).
    assert (Hne : Voucher.id y <> Voucher.id x)
      by (intros E; apply Hx; rewrite <- E; now apply in_map).
    unfold has_id in *.
    destruct (Nat.eqb_spec (Voucher.id x) pk) as [Ex|Ex];
      destruct (Nat.eqb_spec (Voucher.id y) pk) as [Ey|Ey]; simpl in Hcy.
    + congruence.
    + apply Ey. apply Hother; [now right | exact Hcy].
    + apply Ex. apply Hother; [now left | congruence].
    + apply Hcx. rewrite <- Hcy. now apply in_map.
  - apply IH; auto. intros r Hr. apply Hother. now right.
Qed.

(** A standalone voucher is appended. *)
Lemma store_ok_append st v :
  store_ok st ->
  Voucher.id v = next_voucher_id st -> Voucher.voucher_set v = None ->
  code_in_use st (Voucher.code v) = false ->
  store_ok (mkStore (vouchers st ++ [v]) (voucher_sets st)
                    (S (next_voucher_id st)) (next_set_id st)).
Proof.
  intros Hok Hid Hset Hfree.
  pose proof (voucher_ids_bound st Hok) as Hb.
  assert (Hcnt : forall k,
            vouchers_count k (mkStore (vouchers st ++ [v]) (voucher_sets st)
                                      (S (next_voucher_id st)) (next_set_id st))
            = vouchers_count k st).
  { intros k. unfold vouchers_count, vouchers_of. simpl.
    rewrite List.filter_app, List.length_app. simpl.
    unfold in_set at 2. rewrite Hset. simpl. lia. }
  constructor; simpl.
  - rewrite map_app. apply NoDup_app. split; [apply (voucher_ids_unique st Hok) |].
    split; [| apply NoDup_singleton].
    intros x Hx Hx'. apply list_elem_of_In, in_map_iff in Hx as (y & <- & Hy).
    apply list_elem_of_In in Hx'. destruct Hx' as [Hx' | []].
    rewrite Forall_forall in Hb. apply list_elem_of_In, Hb in Hy. simpl in Hx'. lia.
  - apply Forall_app. split.
    + eapply Forall_impl; [exact Hb |]. simpl. intros; lia.
    + constructor; [lia | constructor].
  - apply (set_ids_unique st Hok).
  - apply (set_ids_bound st Hok).
  - apply Forall_app. split; [apply (set_refs_bound st Hok) |].
    constructor; [| constructor]. intros j Hj. congruence.
  - eapply Forall_impl; [apply (num_vouchers_ok st Hok) |].
    simpl. intros s Hs. now rewrite Hcnt.
  - eapply Forall_impl; [apply (count_ok st Hok) |].
    simpl. intros s Hs. now rewrite Hcnt.
  - rewrite map_app. simpl.
    apply (NoDup_codes_app st).
    + apply (codes_unique st Hok).
    + reflexivity.
    + constructor; [exact Hfree | constructor].
    + apply NoDup_singleton.
Qed.

Lemma NoDup_map_filter {A B} (g : A -> B) (p : A -> bool) (l : list A) :
  NoDup (map g l) -> NoDup (map g (List.filter p l)).
Proof.
  induction l as [|x l IH]; simpl; intros H; [exact H |].
  apply NoDup_cons in H as [Hx Hl].
  destruct (p x); simpl; [| now apply IH].
  apply NoDup_cons. split; [| now apply IH].
  intros Hin. apply Hx.
  apply list_elem_of_In, in_map_iff in Hin as (y & <- & Hy).
  apply filter_In in Hy as [Hy _]. apply list_elem_of_In. now apply in_map.
Qed.

Lemma Forall_filter_keep {A} (P : A -> Prop) (p : A -> bool) (l : list A) :
  Forall P l -> Forall P (List.filter p l).
Proof.
  intros H. apply Forall_forall. intros x Hx.
  apply list_elem_of_In, filter_In in Hx as [Hx _].
  rewrite Forall_forall in H. now apply H, list_elem_of_In.
Qed.

(** Deleting the row [obj] removes it from the count of its own set only. *)
Lemma count_after_delete (l : list Voucher.t) obj k :
  NoDup (map Voucher.id l) -> In obj l ->
  length (List.filter (in_set k)
            (List.filter (fun r => negb (has_id (Voucher.id obj) r)) l))
  + (if in_set k obj then 1 else 0)
  = length (List.filter (in_set k) l).
Proof.
  induction l as [|x l IH]; simpl; intros Hnd Hin; [contradiction |].
  apply NoDup_cons in Hnd as [Hx Hnd].
  destruct Hin as [-> | Hin].
  - unfold has_id at 1. rewrite Nat.eqb_refl. simpl.
    rewrite (forallb_filter_id (fun r => negb (has_id (Voucher.id obj) r)) l).
    + destruct (in_set k obj); simpl; lia.
    + apply forallb_forall. intros y Hy. unfold has_id.
      apply negb_true_iff, Nat.eqb_neq. intros E. apply Hx. rewrite <- E.
      apply list_elem_of_In. now apply in_map.
  - assert (Hne : has_id (Voucher.id obj) x = false).
    { unfold has_id. apply Nat.eqb_neq. intros E. apply Hx. rewrite E.
      apply list_elem_of_In. now apply in_map. }
    rewrite Hne. simpl. specialize (IH Hnd Hin).
    destruct (in_set k x); simpl; lia.
Qed.

Lemma snd_bind_ret {A B} (m : M A) (x : B) w :
  snd (bind m (fun _ => ret x) w) = snd (m w).
Proof. unfold bind, ret. now destruct (m w) as [[a|e] w1]. Qed.

Lemma save_ok inst d w :
  store_ok (db w) -> instance_ok (db w) inst d ->
  store_ok (db (snd (VoucherSetForm.save inst d true w))).
Proof.
  intros Hok Hinst. unfold VoucherSetForm.save, atomic.
  destruct (VoucherSetForm.save_body inst d true w) as [[r|e] w'] eqn:E; simpl;
    [| exact Hok].
  apply save_body_Ok in E as (codes & Hdraw & Hdb & _ & _);
    [| apply (voucher_ids_unique _ Hok) | apply (voucher_ids_bound _ Hok)].
  apply draw_codes_spec in Hdraw as (Hlen & Hfresh & Hnd).
  rewrite Hdb. apply save_effect_ok; auto.
  eapply Forall_impl; [exact Hfresh |]. simpl. now intros c [_ Hc].
Qed.

Lemma create_voucher_ok d w :
  store_ok (db w) -> store_ok (db (snd (VoucherCreateView.post d w))).
Proof.
  intros Hok. unfold VoucherCreateView.post, bind, query, process_form.
  destruct (VoucherForm.is_valid None (db w) d) as [c|errs|e]; simpl; auto.
  unfold VoucherCreateView.form_valid, atomic.
  match goal with |- context [match ?body w with _ => _ end] =>
    destruct (body w) as [[resp|e] w'] eqn:E end; simpl; [| exact Hok].
  run_inv E. apply objects_create_Ok in Hrun as (Hfree & Hv & Hdb1 & _ & _).
  run_inv Hrun0. apply offers_add_Ok in Hrun as (Hdb2 & _ & _). run_inv Hrun1.
  rewrite Hdb2, Hdb1.
  apply store_ok_update_where; [| apply keeps_offers_add].
  apply store_ok_append; [exact Hok | now rewrite Hv .. ].
Qed.

Lemma update_voucher_ok pk d w :
  store_ok (db w) -> store_ok (db (snd (VoucherUpdateView.post pk d w))).
Proof.
  intros Hok. unfold VoucherUpdateView.post, VoucherUpdateView.get_voucher.
  unfold bind at 1 2. unfold query at 1.
  destruct (get (has_id pk) (vouchers (db w))) as [voucher| |]; simpl; auto.
  destruct (Voucher.voucher_set voucher); simpl; auto.
  unfold bind, query, process_form.
  destruct (VoucherForm.is_valid (Some voucher) (db w) d) as [c|errs|e]; simpl; auto.
  unfold VoucherUpdateView.form_valid, atomic.
  match goal with |- context [match ?body w with _ => _ end] =>
    destruct (body w) as [[resp|e] w'] eqn:E end; simpl; [| exact Hok].
  run_inv E. unfold voucher_save in Hrun. run_inv Hrun. run_inv Hrun1.
  destruct (existsb _ _) eqn:Eclash; [discriminate Hrun2 |].
  apply write_Ok in Hrun2 as (Hdb1 & _ & _).
  run_inv Hrun0. apply offers_set_Ok in Hrun as (Hdb2 & _ & _). run_inv Hrun1.
  rewrite Hdb2, Hdb1.
  apply store_ok_update_where; [| apply keeps_offers_set].
  apply store_ok_rows; [exact Hok | |].
  - intros v. destruct (has_id (Voucher.id voucher) v); split; reflexivity.
  - apply NoDup_codes_assign;
      [apply (voucher_ids_unique _ Hok) | apply (codes_unique _ Hok) | exact Eclash].
Qed.

(** The store after a voucher was deleted and its set recounted. *)
Lemma store_ok_delete st obj :
  store_ok st -> In obj (vouchers st) ->
  let st1 := with_vouchers (List.filter (fun r => negb (has_id (Voucher.id obj) r))) st in
  store_ok (match Voucher.voucher_set obj with
            | Some sid =>
                with_voucher_sets
                  (update_where (set_has_id sid)
                     (VoucherSet.set_num_vouchers (vouchers_count sid st1))) st1
            | None => st1
            end).
Proof.
  intros Hok Hin st1.
  assert (Hcnt : forall k, vouchers_count k st1 + (if in_set k obj then 1 else 0)
                           = vouchers_count k st).
  { intros k. unfold vouchers_count, vouchers_of, st1. simpl.
    apply count_after_delete; [apply (voucher_ids_unique st Hok) | exact Hin]. }
  assert (Hv : forall st2, vouchers st2 = vouchers st1 ->
                 next_voucher_id st2 = next_voucher_id st ->
                 next_set_id st2 = next_set_id st ->
                 NoDup (map Voucher.id (vouchers st2))
                 /\ Forall (fun v => Voucher.id v < next_voucher_id st2) (vouchers st2)
                 /\ Forall (fun v => forall k, Voucher.voucher_set v = Some k ->
                                               k < next_set_id st2) (vouchers st2)
                 /\ NoDup (map Voucher.code (vouchers st2))).
  { intros st2 -> -> ->. unfold st1. simpl. repeat split.
    - apply NoDup_map_filter, (voucher_ids_unique st Hok).
    - apply Forall_filter_keep, (voucher_ids_bound st Hok).
    - apply Forall_filter_keep, (set_refs_bound st Hok).
    - apply NoDup_map_filter, (codes_unique st Hok). }
  pose proof (num_vouchers_ok st Hok) as Hn. pose proof (count_ok st Hok) as Hc.
  rewrite Forall_forall in Hn, Hc.
  destruct (Voucher.voucher_set obj) as [sid|] eqn:Eset.
  - destruct (Hv (with_voucher_sets
                    (update_where (set_has_id sid)
                       (VoucherSet.set_num_vouchers (vouchers_count sid st1))) st1))
      as (H1 & H2 & H3 & H4); try reflexivity.
    assert (Hrow : forall x, In x (update_where (set_has_id sid)
                     (VoucherSet.set_num_vouchers (vouchers_count sid st1))
                     (voucher_sets st)) ->
              VoucherSet.num_vouchers x = vouchers_count (VoucherSet.id x) st1
              /\ vouchers_count (VoucherSet.id x) st1 <= VoucherSet.count x).
    { intros x Hx. apply In_update_where in Hx as (y & Hy & ->).
      apply list_elem_of_In in Hy.
      specialize (Hn y Hy). specialize (Hc y Hy). simpl in Hn, Hc.
      pose proof (Hcnt (VoucherSet.id y)) as Hk.
      unfold set_has_id. destruct (Nat.eqb_spec (VoucherSet.id y) sid) as [E|E]; simpl.
      - rewrite E in *. split; [reflexivity | lia].
      - assert (in_set (VoucherSet.id y) obj = false) as Hf.
        { unfold in_set. rewrite Eset. apply Nat.eqb_neq. congruence. }
        rewrite Hf in Hk. split; lia. }
    constructor; auto; simpl.
    + rewrite map_update_where by reflexivity. apply (set_ids_unique st Hok).
    + apply Forall_forall. intros x Hx.
      apply list_elem_of_In, In_update_where in Hx as (y & Hy & ->).
      pose proof (set_ids_bound st Hok) as Hb. rewrite Forall_forall in Hb.
      apply list_elem_of_In, Hb in Hy. now destruct (set_has_id sid y).
    + apply Forall_forall. intros x Hx. now apply list_elem_of_In, Hrow in Hx.
    + apply Forall_forall. intros x Hx. now apply list_elem_of_In, Hrow in Hx.
  - destruct (Hv st1) as (H1 & H2 & H3 & H4); try reflexivity.
    assert (Hsame : forall k, vouchers_count k st1 = vouchers_count k st).
    { intros k. rewrite <- (Hcnt k). unfold in_set. rewrite Eset. lia. }
    constructor; auto; simpl.
    + apply (set_ids_unique st Hok).
    + apply (set_ids_bound st Hok).
    + apply Forall_forall. intros x Hx. rewrite Hsame. now apply Hn.
    + apply Forall_forall. intros x Hx. rewrite Hsame. now apply Hc.
Qed.

Lemma delete_voucher_ok pk w :
  store_ok (db w) -> store_ok (db (snd (VoucherDeleteView.delete pk w))).
Proof.
  intros Hok. unfold VoucherDeleteView.delete, atomic.
  match goal with |- context [match ?body w with _ => _ end] =>
    destruct (body w) as [[resp|e] w'] eqn:E end; simpl; [| exact Hok].
  run_inv E. apply get_object_Ok in Hrun as [Hget ->].
  apply get_Found_In in Hget as [Hin _].
  run_inv Hrun0. apply write_Ok in Hrun as (Hdb1 & _ & _).
  run_inv Hrun1.
  pose proof (store_ok_delete (db w) a Hok Hin) as Hfinal. simpl in Hfinal.
  destruct (Voucher.voucher_set a) as [sid|].
  - apply update_count_Ok in Hrun as (Hdb2 & _ & _). run_inv Hrun0.
    rewrite Hdb2, Hdb1. exact Hfinal.
  - run_inv Hrun. run_inv Hrun0. rewrite Hdb1. exact Hfinal.
Qed.

Lemma create_set_ok d w :
  store_ok (db w) -> store_ok (db (snd (VoucherSetCreateView.post d w))).
Proof.
  intros Hok. unfold VoucherSetCreateView.post, process_form. simpl.
  rewrite snd_bind_ret. now apply save_ok.
Qed.

Lemma update_set_ok pk d w :
  store_ok (db w) -> store_ok (db (snd (VoucherSetUpdateView.post pk d w))).
Proof.
  intros Hok. unfold VoucherSetUpdateView.post, get_object.
  unfold bind at 1 2. unfold query at 1.
  destruct (get (set_has_id pk) (voucher_sets (db w))) as [object| |] eqn:Hget;
    simpl; auto.
  apply get_Found_In in Hget as [Hin _].
  unfold process_form, VoucherSetForm.is_valid, VoucherSetForm.clean_count.
  destruct (Nat.ltb_spec (VoucherSetForm.count d) (VoucherSet.count object)); simpl; auto.
  rewrite snd_bind_ret. apply save_ok; [exact Hok |]. split; auto.
Qed.

(** Deleting the vouchers of the set [pk] leaves the other sets' vouchers. *)
Lemma count_other_set (l : list Voucher.t) pk k :
  k <> pk ->
  length (List.filter (in_set k) (List.filter (fun v => negb (in_set pk v)) l))
  = length (List.filter (in_set k) l).
Proof.
  intros Hk. induction l as [|v l IH]; simpl; [reflexivity |].
  destruct (in_set pk v) eqn:E1; simpl.
  - replace (in_set k v) with false; [exact IH |].
    unfold in_set in *. destruct (Voucher.voucher_set v) as [j|]; [| reflexivity].
    apply Nat.eqb_eq in E1. subst j. symmetry. now apply Nat.eqb_neq.
  - destruct (in_set k v); simpl; now rewrite IH.
Qed.

Lemma delete_set_ok pk w :
  store_ok (db w) -> store_ok (db (snd (VoucherSetDeleteView.post pk w))).
Proof.
  intros Hok. unfold VoucherSetDeleteView.post, get_object.
  unfold bind at 1 2. unfold query at 1.
  destruct (get (set_has_id pk) (voucher_sets (db w))) as [object| |]; simpl; auto.
  rewrite snd_bind_ret.
  match goal with |- context [write ?f w] =>
    destruct (write f w) as [[u|e] w'] eqn:E end; simpl.
  2:{ apply write_Raise in E. now subst. }
  apply write_Ok in E as (Hdb & _ & _). rewrite Hdb.
  set (st := db w) in *.
  assert (Hcnt : forall k, k <> pk ->
            length (List.filter (in_set k)
                      (List.filter (fun v => negb (in_set pk v)) (vouchers st)))
            = vouchers_count k st).
  { intros k Hk. now apply count_other_set. }
  pose proof (num_vouchers_ok st Hok) as Hn. pose proof (count_ok st Hok) as Hc.
  rewrite Forall_forall in Hn, Hc.
  assert (Hrow : forall x,
            In x (List.filter (fun s => negb (set_has_id pk s)) (voucher_sets st)) ->
            In x (voucher_sets st) /\ VoucherSet.id x <> pk).
  { intros x Hx. apply filter_In in Hx as [Hx Hp]. split; [exact Hx |].
    unfold set_has_id in Hp. now apply negb_true_iff, Nat.eqb_neq in Hp. }
  constructor; simpl.
  - apply NoDup_map_filter, (voucher_ids_unique st Hok).
  - apply Forall_filter_keep, (voucher_ids_bound st Hok).
  - apply NoDup_map_filter, (set_ids_unique st Hok).
  - apply Forall_filter_keep, (set_ids_bound st Hok).
  - apply Forall_filter_keep, (set_refs_bound st Hok).
  - apply Forall_forall. intros x Hx.
    apply list_elem_of_In, Hrow in Hx as [Hx Hne].
    unfold vouchers_count at 1, vouchers_of. simpl. rewrite (Hcnt _ Hne).
    now apply Hn, list_elem_of_In.
  - apply Forall_forall. intros x Hx.
    apply list_elem_of_In, Hrow in Hx as [Hx Hne].
    unfold vouchers_count at 1, vouchers_of. simpl. rewrite (Hcnt _ Hne).
    now apply Hc, list_elem_of_In.
  - apply NoDup_map_filter, (codes_unique st Hok).
Qed.

Lemma handle_ok op w :
  store_ok (db w) -> store_ok (db (snd (handle op w))).
Proof.
  destruct op; simpl.
  - apply create_voucher_ok.
  - apply update_voucher_ok.
  - apply delete_voucher_ok.
  - apply create_set_ok.
  - apply update_set_ok.
  - apply delete_set_ok.
Qed.

Lemma empty_store_ok : store_ok empty_store.
Proof. constructor; simpl; constructor. Qed.

(** Every store the dashboard can reach is well formed. *)
Lemma reachable_ok st : reachable st -> store_ok st.
Proof.
  induction 1 as [|st op r f t Hr IH].
  - apply empty_store_ok.
  - now apply (handle_ok op (mkWorld st r f t)).
Qed.

(** * The claims *)

Lemma get_by_key (l : list VoucherSet.t) s :
  NoDup (map VoucherSet.id l) -> In s l ->
  get (set_has_id (VoucherSet.id s)) l = Found s.
Proof.
  intros Hnd Hin. unfold get, set_has_id.
  now rewrite (filter_key VoucherSet.id Nat.eqb l s Nat.eqb_eq Hnd Hin).
Qed.

(** C1: in every store the dashboard can reach, submitting the form of a set
    that owns M vouchers with a count below M fails with CountDecrease, and
    the request changes nothing: the M vouchers and [num_vouchers] are as
    before.  The form compares the submitted count with the stored [count] of
    the set, which in a reachable store is never below M. *)
Theorem count_decrease_rejected st s d r f t :
  reachable st ->
  In s (voucher_sets st) ->
  VoucherSetForm.count d < vouchers_count (VoucherSet.id s) st ->
  VoucherSetForm.clean_count (Some s) (VoucherSetForm.count d) = Invalid CountDecrease
  /\ VoucherSetUpdateView.post (VoucherSet.id s) d (mkWorld st r f t)
     = (Ok (FormInvalid [CountDecrease]), mkWorld st r f t).
Proof.
  intros Hreach Hin Hlt. apply reachable_ok in Hreach as Hok.
  pose proof (count_ok st Hok) as Hc. rewrite Forall_forall in Hc.
  apply list_elem_of_In in Hin as Hin'. specialize (Hc s Hin'). simpl in Hc.
  assert (Hclean : VoucherSetForm.clean_count (Some s) (VoucherSetForm.count d)
                   = Invalid CountDecrease).
  { unfold VoucherSetForm.clean_count.
    destruct (Nat.ltb_spec (VoucherSetForm.count d) (VoucherSet.count s)); [reflexivity | lia]. }
  split; [exact Hclean |].
  unfold VoucherSetUpdateView.post, get_object, bind, query. simpl.
  rewrite (get_by_key _ s (set_ids_unique st Hok) Hin). unfold ret at 1.
  unfold process_form, VoucherSetForm.is_valid. now rewrite Hclean.
Qed.

Lemma spring_store_reachable : reachable spring_store.
Proof. apply reachable_step, reachable_empty. Qed.

Lemma count_decrease_rejected_witness :
  VoucherSetUpdateView.post 1 (VoucherSetForm.mk "Spring" 2 "spring sale" 10 20 1 MULTI_USE ∅)
    (mkWorld spring_store [] None 9)
  = (Ok (FormInvalid [CountDecrease]), mkWorld spring_store [] None 9).
Proof.
  apply (count_decrease_rejected spring_store spring_set
           (VoucherSetForm.mk "Spring" 2 "spring sale" 10 20 1 MULTI_USE ∅) [] None 9).
  - exact spring_store_reachable.
  - vm_compute. left. reflexivity.
  - vm_compute. lia.
Defined.

Lemma In_saved_instance st inst d t :
  match inst with Some old => In old (voucher_sets st) | None => True end ->
  In (saved_instance inst d t st) (saved_sets inst d t st).
Proof.
  destruct inst as [old|]; simpl; intros Hin.
  - apply In_update_where. exists old. split; [exact Hin |].
    unfold set_has_id. now rewrite Nat.eqb_refl.
  - apply in_app_iff. right. now left.
Qed.

Lemma saved_instance_fields inst d t st :
  let s := saved_instance inst d t st in
  VoucherSet.name s = VoucherSetForm.name d
  /\ VoucherSet.start_datetime s = VoucherSetForm.start_datetime d
  /\ VoucherSet.end_datetime s = VoucherSetForm.end_datetime d.
Proof. now destruct inst. Qed.

Lemma save_total inst d w codes rest :
  faults w = None ->
  draw_codes (VoucherSetForm.count d
              - vouchers_count (VoucherSet.id (saved_instance inst d (clock w) (db w))) (db w))
             (code_in_use (db w)) (VoucherSetForm.code_length d) (rng w)
    = Some (codes, rest) ->
  exists r w', VoucherSetForm.save inst d true w = (Ok r, w').
Proof.
  intros Hf Hdraw.
  destruct (save_body_total inst d w codes rest Hf Hdraw) as (r & w' & H).
  exists r, w'. unfold VoucherSetForm.save, atomic. now rewrite H.
Qed.

(** C2: when a set is saved with count N while it owns M < N vouchers, a save
    that returns has created exactly N - M vouchers after the existing ones,
    the set owns N vouchers, each new voucher has the name, usage, date range
    and offers of the set, a back-reference to it and a code of length
    [code_length] that no voucher had before, the new codes are pairwise
    distinct, and the row of the set has [num_vouchers] = N.  On a database
    without faults the save returns whenever the generator finds N - M unused
    codes in the random source. *)
Theorem save_creates_missing_vouchers inst d w :
  reachable (db w) ->
  match inst with Some old => In old (voucher_sets (db w)) | None => True end ->
  let s := saved_instance inst d (clock w) (db w) in
  let pk := VoucherSet.id s in
  let M := vouchers_count pk (db w) in
  let N := VoucherSetForm.count d in
  M < N ->
  (forall r w', VoucherSetForm.save inst d true w = (Ok r, w') ->
     exists news,
       vouchers (db w')
       = map (refresh s (VoucherSetForm.usage d) (VoucherSetForm.offers d)) (vouchers (db w))
         ++ news
       /\ length news = N - M
       /\ vouchers_count pk (db w') = N
       /\ Forall (fun v =>
                    Voucher.name v = VoucherSetForm.name d
                    /\ String.length (Voucher.code v) = VoucherSetForm.code_length d
                    /\ code_in_use (db w) (Voucher.code v) = false
                    /\ Voucher.usage v = VoucherSetForm.usage d
                    /\ Voucher.start_datetime v = VoucherSetForm.start_datetime d
                    /\ Voucher.end_datetime v = VoucherSetForm.end_datetime d
                    /\ Voucher.offers v = VoucherSetForm.offers d
                    /\ Voucher.voucher_set v = Some pk) news
       /\ NoDup (map Voucher.code news)
       /\ (exists x, In x (voucher_sets (db w')) /\ VoucherSet.id x = pk)
       /\ (forall x, In x (voucher_sets (db w')) -> VoucherSet.id x = pk ->
                     VoucherSet.num_vouchers x = N))
  /\ (faults w = None ->
      forall codes rest,
        draw_codes (N - M) (code_in_use (db w)) (VoucherSetForm.code_length d) (rng w)
          = Some (codes, rest) ->
        exists r w', VoucherSetForm.save inst d true w = (Ok r, w')).
Proof.
  intros Hreach Hinst s pk M N HMN. apply reachable_ok in Hreach as Hok.
  split; [| intros Hf codes rest Hdraw; now apply (save_total inst d w codes rest)].
  intros r w' Hsave. unfold VoucherSetForm.save in Hsave. apply atomic_Ok in Hsave.
  apply save_body_Ok in Hsave as (codes & Hdraw & Hdb & _ & _);
    [| apply (voucher_ids_unique _ Hok) | apply (voucher_ids_bound _ Hok)].
  fold s pk M N in Hdraw.
  apply draw_codes_spec in Hdraw as (Hlen & Hcodes & Hnd).
  set (u := VoucherSetForm.usage d) in *. set (o := VoucherSetForm.offers d) in *.
  exists (new_vouchers s u o (clock w) (next_voucher_id (db w)) codes).
  assert (Hcount : vouchers_count pk (db w') = N).
  { rewrite Hdb, save_effect_count. fold s pk. rewrite Nat.eqb_refl. fold M. lia. }
  destruct (saved_instance_fields inst d (clock w) (db w)) as (Hname & Hstart & Hend).
  fold s in Hname, Hstart, Hend.
  destruct codes as [|c codes]; [simpl in Hlen; lia |].
  split; [now rewrite Hdb |].
  split; [now rewrite new_vouchers_length |].
  split; [exact Hcount |].
  split.
  { apply Forall_forall. intros v Hv.
    apply list_elem_of_In, new_vouchers_In in Hv as (i & c' & -> & Hc' & _).
    rewrite Forall_forall in Hcodes. apply list_elem_of_In, Hcodes in Hc' as [Hl Hfree].
    simpl. repeat split; auto. }
  split; [now rewrite new_vouchers_codes |].
  split.
  { eexists. split.
    - rewrite Hdb. unfold save_effect. cbn [voucher_sets].
      apply In_update_where. exists s. split; [| reflexivity].
      apply In_saved_instance. exact Hinst.
    - unfold set_has_id. now rewrite Nat.eqb_refl. }
  intros x Hx Hid. rewrite Hdb in Hx.
  apply In_save_effect_sets in Hx as [(_ & _ & Hnum) | (_ & Hne)];
    [| contradiction | apply (set_ids_bound _ Hok)].
  rewrite Hnum. fold s pk. now rewrite <- Hdb.
Qed.

Lemma save_creates_missing_vouchers_witness :
  exists r w',
    VoucherSetForm.save None spring true spring_request = (Ok r, w')
    /\ vouchers_count 1 (db w') = 2
    /\ (forall x, In x (voucher_sets (db w')) -> VoucherSet.id x = 1 ->
                  VoucherSet.num_vouchers x = 2).
Proof.
  destruct (save_creates_missing_vouchers None spring spring_request
              reachable_empty I ltac:(vm_compute; lia)) as [Hpartial Hprogress].
  destruct (Hprogress eq_refl ["AB"; "CD"] [] eq_refl) as (r & w' & Hsave).
  exists r, w'. split; [exact Hsave |].
  destruct (Hpartial r w' Hsave) as (news & _ & _ & Hcount & _ & _ & _ & Hnum).
  split; [exact Hcount | exact Hnum].
Defined.

Lemma refresh_child (s : VoucherSet.t) u o v :
  Voucher.voucher_set v = Some (VoucherSet.id s) ->
  refresh s u o v
  = Voucher.mk (Voucher.id v) (VoucherSet.name s) (Voucher.code v) u
               (VoucherSet.start_datetime s) (VoucherSet.end_datetime s)
               (Voucher.voucher_set v) o (Voucher.date_created v)
               (Voucher.num_basket_additions v) (Voucher.num_orders v).
Proof.
  intros Hset. unfold refresh.
  replace (in_set (VoucherSet.id s) v) with true; [reflexivity |].
  unfold in_set. now rewrite Hset, Nat.eqb_refl.
Qed.

(** C3: a save that returns has overwritten name, usage, start and end of
    every voucher the set owned with the values of the set and replaced its
    offers by the offers of the form; the row keeps its primary key, its code
    and every other column, and it is the only row with that key.  On a
    database without faults the save returns whenever the generator finds the
    missing codes. *)
Theorem save_refreshes_children inst d w :
  reachable (db w) ->
  let pk := VoucherSet.id (saved_instance inst d (clock w) (db w)) in
  (forall r w' v,
     VoucherSetForm.save inst d true w = (Ok r, w') ->
     In v (vouchers (db w)) -> Voucher.voucher_set v = Some pk ->
     let v' := Voucher.mk (Voucher.id v) (VoucherSetForm.name d) (Voucher.code v)
                 (VoucherSetForm.usage d) (VoucherSetForm.start_datetime d)
                 (VoucherSetForm.end_datetime d) (Voucher.voucher_set v)
                 (VoucherSetForm.offers d) (Voucher.date_created v)
                 (Voucher.num_basket_additions v) (Voucher.num_orders v) in
     In v' (vouchers (db w'))
     /\ forall x, In x (vouchers (db w')) -> Voucher.id x = Voucher.id v -> x = v')
  /\ (faults w = None ->
      forall codes rest,
        draw_codes (VoucherSetForm.count d - vouchers_count pk (db w))
                   (code_in_use (db w)) (VoucherSetForm.code_length d) (rng w)
          = Some (codes, rest) ->
        exists r w', VoucherSetForm.save inst d true w = (Ok r, w')).
Proof.
  intros Hreach pk. apply reachable_ok in Hreach as Hok.
  split; [| intros Hf codes rest Hdraw; now apply (save_total inst d w codes rest)].
  intros r w' v Hsave Hv Hset v'.
  unfold VoucherSetForm.save in Hsave. apply atomic_Ok in Hsave.
  apply save_body_Ok in Hsave as (codes & _ & Hdb & _ & _);
    [| apply (voucher_ids_unique _ Hok) | apply (voucher_ids_bound _ Hok)].
  set (s := saved_instance inst d (clock w) (db w)) in *.
  destruct (saved_instance_fields inst d (clock w) (db w)) as (Hname & Hstart & Hend).
  fold s in Hname, Hstart, Hend.
  assert (Hv' : refresh s (VoucherSetForm.usage d) (VoucherSetForm.offers d) v = v').
  { rewrite refresh_child by exact Hset. unfold v'. now rewrite Hname, Hstart, Hend. }
  rewrite Hdb. unfold save_effect. cbn [vouchers]. fold s. split.
  - apply in_app_iff. left. rewrite <- Hv'. now apply in_map.
  - intros x Hx Hid. apply in_app_iff in Hx as [Hx | Hx].
    + apply in_map_iff in Hx as (v0 & <- & Hv0).
      rewrite (proj1 (keeps_refresh _ _ _ v0)) in Hid.
      assert (v0 = v)
        by (apply (unique_key_eq Voucher.id (vouchers (db w)));
            auto; apply (voucher_ids_unique _ Hok)).
      subst v0. exact Hv'.
    + apply new_vouchers_In in Hx as (i & c & -> & _ & _). simpl in Hid.
      pose proof (voucher_ids_bound _ Hok) as Hb. rewrite Forall_forall in Hb.
      apply list_elem_of_In, Hb in Hv. lia.
Qed.

(** The set "Spring" is saved again with count 3: one voucher is added, the
    two existing ones keep their codes, and the set records 3 vouchers. *)
Lemma summer_save_example :
  let st' := db (snd (VoucherSetForm.save (Some spring_set) summer true summer_request)) in
  map Voucher.code (vouchers st') = ["AB"; "CD"; "EF"]
  /\ map Voucher.name (vouchers st') = ["Summer"; "Summer"; "Summer"]
  /\ map VoucherSet.num_vouchers (voucher_sets st') = [3].
Proof. vm_compute. auto. Qed.

Lemma save_refreshes_children_witness :
  In (Voucher.mk 1 "Summer" "AB" SINGLE_USE 30 40 (Some 1) {[ 8 ]} 5 0 0)
     (vouchers (db (snd (VoucherSetForm.save (Some spring_set) summer true summer_request)))).
Proof.
  apply (proj1 (save_refreshes_children (Some spring_set) summer summer_request
                  spring_store_reachable)
           (Some 1)
           (snd (VoucherSetForm.save (Some spring_set) summer true summer_request))
           (Voucher.mk 1 "Spring" "AB" MULTI_USE 10 20 (Some 1) {[ 7 ]} 5 0 0)).
  - vm_compute. reflexivity.
  - vm_compute. left. reflexivity.
  - reflexivity.
Defined.

Lemma bind_ret_Raise {A B} (m : M A) (x : B) w e w' :
  bind m (fun _ => ret x) w = (Raise e, w') -> m w = (Raise e, w').
Proof.
  unfold bind, ret. destruct (m w) as [[a|e0] w1]; intros H; [discriminate |].
  now inversion H.
Qed.

(** C4: the whole synchronization is one transaction.  When [save] raises,
    whether the generator found no unused code or the database failed at any
    of its writes, the database is the one the request started with: no
    update of an owned voucher, no new voucher and no recount remains.  The
    same holds for the two views that call it. *)
Theorem save_all_or_nothing d w :
  (forall inst commit e w',
     VoucherSetForm.save inst d commit w = (Raise e, w') -> db w' = db w)
  /\ (forall e w', VoucherSetCreateView.post d w = (Raise e, w') -> db w' = db w)
  /\ (forall pk e w', VoucherSetUpdateView.post pk d w = (Raise e, w') -> db w' = db w).
Proof.
  assert (Hsave : forall inst commit e w',
            VoucherSetForm.save inst d commit w = (Raise e, w') -> db w' = db w).
  { intros inst commit e w'. unfold VoucherSetForm.save. apply atomic_Raise. }
  split; [exact Hsave |]. split.
  - intros e w'. unfold VoucherSetCreateView.post, process_form. simpl.
    intros H. apply bind_ret_Raise in H. now apply Hsave in H.
  - intros pk e w'. unfold VoucherSetUpdateView.post, get_object.
    unfold bind at 1 2. unfold query at 1.
    destruct (get (set_has_id pk) (voucher_sets (db w))) as [object| |]; simpl;
      try (unfold raise; intros H; inversion H; reflexivity).
    unfold process_form.
    destruct (VoucherSetForm.is_valid (Some object) d) as [c|errs|e0] eqn:Ev;
      try (unfold ret; discriminate).
    + unfold VoucherSetForm.is_valid in Ev.
      destruct (VoucherSetForm.clean_count _ _); inversion Ev; subst.
      intros H. apply bind_ret_Raise in H. now apply Hsave in H.
    + unfold raise. intros H; inversion H; reflexivity.
Qed.

(** Without the transaction the first failure leaves a half-synchronized
    set behind. *)
Lemma save_body_not_atomic :
  fst (VoucherSetForm.save_body None spring true starved_request) = Raise NoUnusedCode
  /\ length (vouchers (db (snd (VoucherSetForm.save_body None spring true starved_request)))) = 1
  /\ fst (VoucherSetForm.save_body None spring true faulty_request) = Raise DatabaseError
  /\ length (voucher_sets (db (snd (VoucherSetForm.save_body None spring true faulty_request)))) = 1.
Proof. vm_compute. auto. Qed.

Lemma save_all_or_nothing_witness :
  db (snd (VoucherSetForm.save None spring true starved_request)) = empty_store
  /\ db (snd (VoucherSetForm.save None spring true faulty_request)) = empty_store.
Proof.
  split.
  - apply (proj1 (save_all_or_nothing spring starved_request) None true NoUnusedCode).
    vm_compute. reflexivity.
  - apply (proj1 (save_all_or_nothing spring faulty_request) None true DatabaseError).
    vm_compute. reflexivity.
Defined.

Lemma get_voucher_by_key (l : list Voucher.t) v :
  NoDup (map Voucher.id l) -> In v l -> get (has_id (Voucher.id v)) l = Found v.
Proof.
  intros Hnd Hin. unfold get, has_id.
  now rewrite (filter_key Voucher.id Nat.eqb l v Nat.eqb_eq Hnd Hin).
Qed.

(** What [VoucherDeleteView.delete] does to the store of a reachable state. *)
Lemma delete_result st v r f t :
  store_ok st -> In v (vouchers st) ->
  let res := VoucherDeleteView.delete (Voucher.id v) (mkWorld st r f t) in
  let st1 := with_vouchers (List.filter (fun x => negb (has_id (Voucher.id v) x))) st in
  (exists e, fst res = Raise e /\ db (snd res) = st)
  \/ (fst res = Ok (HttpResponseRedirect (VoucherDeleteView.get_success_url v))
      /\ db (snd res)
         = match Voucher.voucher_set v with
           | Some sid =>
               with_voucher_sets
                 (update_where (set_has_id sid)
                    (VoucherSet.set_num_vouchers (vouchers_count sid st1))) st1
           | None => st1
           end).
Proof.
  intros Hok Hin res st1. unfold res, VoucherDeleteView.delete, atomic.
  match goal with |- context [match ?body ?w with _ => _ end] =>
    destruct (body w) as [[resp|e] w'] eqn:E end; simpl; [right | left; eauto].
  run_inv E. apply get_object_Ok in Hrun as [Hget ->].
  simpl in Hget. rewrite (get_voucher_by_key _ v (voucher_ids_unique st Hok) Hin) in Hget.
  inversion Hget; subst a.
  run_inv Hrun0. apply write_Ok in Hrun as (Hdb1 & _ & _). simpl in Hdb1.
  run_inv Hrun1.
  destruct (Voucher.voucher_set v) as [sid|].
  - apply update_count_Ok in Hrun as (Hdb2 & _ & _). run_inv Hrun0.
    split; [reflexivity |]. rewrite Hdb2, Hdb1. reflexivity.
  - run_inv Hrun. run_inv Hrun0. split; [reflexivity | exact Hdb1].
Qed.

(** C5: in every reachable store, and so after every request (the save of a
    set, the deletion of a voucher, or any other operation of the dashboard)
    made in a reachable store, [num_vouchers] of every set is the number of
    vouchers the set owns.  A deletion that succeeds takes one voucher from
    the set that owned it; deleting a standalone voucher leaves the table of
    sets as it was. *)
Theorem num_vouchers_is_count st op r f t :
  reachable st ->
  let res := handle op (mkWorld st r f t) in
  let st' := db (snd res) in
  (forall s, In s (voucher_sets st) ->
             VoucherSet.num_vouchers s = vouchers_count (VoucherSet.id s) st)
  /\ (forall s, In s (voucher_sets st') ->
                VoucherSet.num_vouchers s = vouchers_count (VoucherSet.id s) st')
  /\ (forall v, op = DeleteVoucher (Voucher.id v) -> In v (vouchers st) ->
        match Voucher.voucher_set v with
        | None => voucher_sets st' = voucher_sets st
        | Some sid =>
            forall resp, fst res = Ok resp ->
              vouchers_count sid st' + 1 = vouchers_count sid st
        end).
Proof.
  intros Hreach res st'.
  assert (Hreach' : reachable st') by (apply reachable_step; exact Hreach).
  apply reachable_ok in Hreach as Hok. apply reachable_ok in Hreach' as Hok'.
  pose proof (num_vouchers_ok st Hok) as Hn. pose proof (num_vouchers_ok st' Hok') as Hn'.
  rewrite Forall_forall in Hn, Hn'.
  split; [intros s Hs; now apply Hn, list_elem_of_In |].
  split; [intros s Hs; now apply Hn', list_elem_of_In |].
  intros v -> Hin. unfold st', res. simpl.
  destruct (delete_result st v r f t Hok Hin) as [(e & Hres & Hdb) | (Hres & Hdb)].
  - rewrite Hdb. destruct (Voucher.voucher_set v) as [sid|]; [| reflexivity].
    intros resp Hresp. rewrite Hres in Hresp. discriminate.
  - rewrite Hdb. destruct (Voucher.voucher_set v) as [sid|] eqn:Eset; [| reflexivity].
    intros resp _. unfold vouchers_count, vouchers_of. simpl.
    rewrite <- (count_after_delete (vouchers st) v sid (voucher_ids_unique st Hok) Hin).
    unfold in_set at 3. now rewrite Eset, Nat.eqb_refl.
Qed.

Lemma num_vouchers_is_count_witness :
  Forall (fun s => VoucherSet.num_vouchers s
                   = vouchers_count (VoucherSet.id s)
                       (db (snd (handle (DeleteVoucher 1) (mkWorld spring_store [] None 9)))))
         (voucher_sets (db (snd (handle (DeleteVoucher 1) (mkWorld spring_store [] None 9)))))
  /\ vouchers_count 1 (db (snd (handle (DeleteVoucher 1) (mkWorld spring_store [] None 9)))) + 1
     = vouchers_count 1 spring_store.
Proof.
  destruct (num_vouchers_is_count spring_store (DeleteVoucher 1) [] None 9
              spring_store_reachable) as (_ & Hinv & Hdel).
  split.
  - apply Forall_forall. intros s Hs. now apply Hinv, list_elem_of_In.
  - apply (Hdel (Voucher.mk 1 "Spring" "AB" MULTI_USE 10 20 (Some 1) {[ 7 ]} 5 0 0)
                eq_refl ltac:(vm_compute; left; reflexivity)
                (HttpResponseRedirect (voucher_set_detail 1))).
    vm_compute. reflexivity.
Defined.

(** ** Voucher validation *)

Lemma rstrip_all_space s : Str.all_chars Str.is_space s = true -> Str.rstrip s = EmptyString.
Proof.
  induction s as [|c r IH]; simpl; [reflexivity |].
  intros H. apply andb_true_iff in H as [Hc Hr]. now rewrite (IH Hr), Hc.
Qed.

Lemma strip_all_space s : Str.all_chars Str.is_space s = true -> Str.strip s = EmptyString.
Proof. intros H. unfold Str.strip. now rewrite rstrip_all_space. Qed.

Lemma clean_code_empty self_voucher st raw :
  Str.all_chars Str.is_space raw = true ->
  VoucherForm.clean_code self_voucher st raw = Invalid EmptyCode.
Proof.
  intros H. unfold VoucherForm.clean_code. now rewrite strip_all_space.
Qed.

Lemma truthy_nonempty s : s <> EmptyString -> Str.truthy s = true.
Proof. destruct s; [contradiction | reflexivity]. Qed.

(** C6: a voucher form whose name and normalized code are not in use and
    whose end is not before its start is accepted on a database without
    faults: the view answers with the redirect and the table has one more
    voucher, whose code is [code.strip().upper()].  A code that is empty or
    all whitespace is rejected by [clean_code] with EmptyCode; the view then
    leaves the database as it was and, when it answers, shows EmptyCode among
    the form errors. *)
Theorem create_voucher_normalizes_code d w :
  (faults w = None ->
   (forall v, In v (vouchers (db w)) -> Voucher.name v <> VoucherForm.name d) ->
   (forall v, In v (vouchers (db w)) ->
              Voucher.code v <> Str.upper (Str.strip (VoucherForm.code d))) ->
   (VoucherForm.start_datetime d <= VoucherForm.end_datetime d)%Z ->
   Str.upper (Str.strip (VoucherForm.code d)) <> EmptyString ->
   exists w' v,
     VoucherCreateView.post d w = (Ok (HttpResponseRedirect voucher_list), w')
     /\ In v (vouchers (db w'))
     /\ length (vouchers (db w')) = S (length (vouchers (db w)))
     /\ Voucher.code v = Str.upper (Str.strip (VoucherForm.code d))
     /\ Voucher.name v = VoucherForm.name d
     /\ Voucher.start_datetime v = VoucherForm.start_datetime d
     /\ Voucher.end_datetime v = VoucherForm.end_datetime d
     /\ Voucher.usage v = VoucherForm.usage d
     /\ Voucher.offers v = VoucherForm.offers d
     /\ Voucher.voucher_set v = None)
  /\ (Str.all_chars Str.is_space (VoucherForm.code d) = true ->
      (forall self_voucher st,
         VoucherForm.clean_code self_voucher st (VoucherForm.code d) = Invalid EmptyCode)
      /\ db (snd (VoucherCreateView.post d w)) = db w
      /\ (forall resp w', VoucherCreateView.post d w = (Ok resp, w') ->
            exists errors, resp = FormInvalid errors /\ In EmptyCode errors)).
Proof.
  split.
  - intros Hf Hname Hcode Hrange Hne.
    set (c := Str.upper (Str.strip (VoucherForm.code d))) in *.
    assert (Hn : VoucherForm.clean_name None (db w) (VoucherForm.name d)
                 = Clean (VoucherForm.name d)).
    { unfold VoucherForm.clean_name. rewrite get_NotFound; [reflexivity |].
      intros x Hx. unfold has_name. apply String.eqb_neq. now apply Hname. }
    assert (Hc : VoucherForm.clean_code None (db w) (VoucherForm.code d) = Clean c).
    { unfold VoucherForm.clean_code. fold c. rewrite (truthy_nonempty c Hne). simpl.
      rewrite get_NotFound; [reflexivity |].
      intros x Hx. unfold has_code. apply String.eqb_neq. now apply Hcode. }
    assert (Hr : VoucherForm.clean d = Clean d).
    { unfold VoucherForm.clean.
      destruct (Z.ltb_spec (VoucherForm.end_datetime d) (VoucherForm.start_datetime d));
        [lia | reflexivity]. }
    assert (Hfree : code_in_use (db w) c = false).
    { unfold code_in_use. apply not_true_is_false. intros Hex.
      apply existsb_exists in Hex as (x & Hx & Hcx).
      unfold has_code in Hcx. apply String.eqb_eq in Hcx. now apply (Hcode x Hx). }
    unfold VoucherCreateView.post, bind at 1, query at 1, VoucherForm.is_valid.
    rewrite Hn, Hc, Hr. unfold process_form, VoucherCreateView.form_valid, atomic.
    cbn [VoucherForm.name VoucherForm.code VoucherForm.usage VoucherForm.offers
         VoucherForm.start_datetime VoucherForm.end_datetime].
    rewrite (bind_step _ _ _ _ _
               (objects_create_run (VoucherForm.name d) c None (VoucherForm.usage d)
                  (VoucherForm.start_datetime d) (VoucherForm.end_datetime d) w Hf Hfree)).
    unfold bind, offers_add. rewrite write_total by exact Hf. unfold ret.
    eexists _, (Voucher.mk (next_voucher_id (db w)) (VoucherForm.name d) c
                  (VoucherForm.usage d) (VoucherForm.start_datetime d)
                  (VoucherForm.end_datetime d) None (VoucherForm.offers d)
                  (clock w) 0 0).
    split; [reflexivity |]. simpl. split.
    + apply In_update_where.
      exists (Voucher.mk (next_voucher_id (db w)) (VoucherForm.name d) c
                (VoucherForm.usage d) (VoucherForm.start_datetime d)
                (VoucherForm.end_datetime d) None ∅ (clock w) 0 0).
      split; [apply in_app_iff; right; now left |].
      unfold has_id. simpl. rewrite Nat.eqb_refl.
      unfold Voucher.offers_add, Voucher.offers_set. simpl.
      now rewrite (left_id_L ∅ (∪)).
    + unfold update_where. rewrite length_map, List.length_app. simpl.
      repeat split; lia.
  - intros Hspace.
    assert (Hc : forall self_voucher st,
              VoucherForm.clean_code self_voucher st (VoucherForm.code d)
              = Invalid EmptyCode)
      by (intros; now apply clean_code_empty).
    split; [exact Hc |].
    unfold VoucherCreateView.post, bind, query, VoucherForm.is_valid. rewrite Hc.
    destruct (VoucherForm.clean_name None (db w) (VoucherForm.name d)) as [n|e|e];
      destruct (VoucherForm.clean d) as [d'|e'|e']; simpl;
      (split; [reflexivity |]); intros resp w' H; inversion H; subst;
      eexists; (split; [reflexivity |]); simpl; auto.
Qed.

Lemma create_voucher_normalizes_code_witness :
  (exists w' v,
     VoucherCreateView.post
       (VoucherForm.mk "Easter" "  egg25 " 10 20 SINGLE_USE {[ 7 ]})
       (mkWorld spring_store [] None 9)
     = (Ok (HttpResponseRedirect voucher_list), w')
     /\ In v (vouchers (db w')) /\ Voucher.code v = "EGG25")
  /\ VoucherCreateView.post
       (VoucherForm.mk "Easter" "   " 10 20 SINGLE_USE {[ 7 ]})
       (mkWorld spring_store [] None 9)
     = (Ok (FormInvalid [EmptyCode]), mkWorld spring_store [] None 9).
Proof.
  split.
  - destruct (proj1 (create_voucher_normalizes_code
                       (VoucherForm.mk "Easter" "  egg25 " 10 20 SINGLE_USE {[ 7 ]})
                       (mkWorld spring_store [] None 9)))
      as (w' & v & Hpost & Hin & _ & Hcode & _).
    + reflexivity.
    + vm_compute. intros v [<- | [<- | []]]; discriminate.
    + vm_compute. intros v [<- | [<- | []]]; discriminate.
    + vm_compute. discriminate.
    + vm_compute. discriminate.
    + exists w', v. auto.
  - destruct (proj2 (create_voucher_normalizes_code
                       (VoucherForm.mk "Easter" "   " 10 20 SINGLE_USE {[ 7 ]})
                       (mkWorld spring_store [] None 9)) eq_refl)
      as (_ & _ & _).
    vm_compute. reflexivity.
Defined.

(** C7: the name check does not report DuplicateName when more than one
    voucher holds the name.  The store [spring_store] is reachable (the set
    form wrote the name "Spring" to both vouchers of the set); there
    [clean_name] lets [MultipleObjectsReturned] escape and the create view
    raises it instead of answering with the form error. *)
Theorem duplicate_name_crashes :
  reachable spring_store
  /\ length (List.filter (has_name "Spring") (vouchers spring_store)) = 2
  /\ VoucherForm.clean_name None spring_store "Spring" = Crash MultipleObjectsReturned
  /\ VoucherCreateView.post (VoucherForm.mk "Spring" "NEW" 10 20 SINGLE_USE ∅)
       (mkWorld spring_store [] None 9)
     = (Raise MultipleObjectsReturned, mkWorld spring_store [] None 9).
Proof. split; [exact spring_store_reachable | vm_compute; auto]. Qed.

(** What the two checks do when the lookup finds one voucher. *)
Lemma clean_name_found self_voucher st n v :
  get (has_name n) (vouchers st) = Found v ->
  VoucherForm.clean_name self_voucher st n
  = if VoucherForm.is_other self_voucher v then Invalid DuplicateName else Clean n.
Proof. intros H. unfold VoucherForm.clean_name. now rewrite H. Qed.

Lemma clean_code_found self_voucher st raw v :
  Str.upper (Str.strip raw) <> EmptyString ->
  get (has_code (Str.upper (Str.strip raw))) (vouchers st) = Found v ->
  VoucherForm.clean_code self_voucher st raw
  = if VoucherForm.is_other self_voucher v then Invalid DuplicateCode
    else Clean (Str.upper (Str.strip raw)).
Proof.
  intros Hne H. unfold VoucherForm.clean_code.
  rewrite (truthy_nonempty _ Hne). simpl. now rewrite H.
Qed.

Lemma get_by_code (l : list Voucher.t) v :
  NoDup (map Voucher.code l) -> In v l -> get (has_code (Voucher.code v)) l = Found v.
Proof.
  intros Hnd Hin. unfold get, has_code.
  now rewrite (filter_key Voucher.code String.eqb l v String.eqb_eq Hnd Hin).
Qed.

(** In a reachable store the codes are unique, so the code check finds the
    voucher that holds the normalized code: a form for another voucher fails
    with DuplicateCode, the form that edits this voucher passes. *)
Lemma code_in_use_rejected st self_voucher raw v :
  reachable st -> In v (vouchers st) ->
  Voucher.code v = Str.upper (Str.strip raw) ->
  Str.upper (Str.strip raw) <> EmptyString ->
  VoucherForm.clean_code self_voucher st raw
  = if VoucherForm.is_other self_voucher v then Invalid DuplicateCode
    else Clean (Str.upper (Str.strip raw)).
Proof.
  intros Hreach Hin Hcode Hne. apply reachable_ok in Hreach as Hok.
  apply clean_code_found; [exact Hne |].
  rewrite <- Hcode. apply get_by_code; [apply (codes_unique st Hok) | exact Hin].
Qed.

(** The name check when exactly one voucher holds the name. *)
Lemma name_in_use_rejected st self_voucher n v :
  List.filter (has_name n) (vouchers st) = [v] ->
  VoucherForm.clean_name self_voucher st n
  = if VoucherForm.is_other self_voucher v then Invalid DuplicateName else Clean n.
Proof.
  intros H. apply clean_name_found. unfold get. now rewrite H.
Qed.

Lemma is_other_create v : VoucherForm.is_other None v = true.
Proof. reflexivity. Qed.

Lemma is_other_self v : VoucherForm.is_other (Some v) v = false.
Proof. unfold VoucherForm.is_other. now rewrite Nat.eqb_refl. Qed.

(** ** The voucher list *)

#[global] Instance ascending_trans field : Transitive (ascending field).
Proof. unfold ascending. intros a b c. lia. Qed.
#[global] Instance ascending_total field : Total (ascending field).
Proof. unfold ascending. intros a b. lia. Qed.
#[global] Instance descending_trans field : Transitive (descending field).
Proof. unfold descending. intros a b c. lia. Qed.
#[global] Instance descending_total field : Total (descending field).
Proof. unfold descending. intros a b. lia. Qed.

Lemma order_by_perm spec qs : order_by spec qs ≡ₚ qs.
Proof.
  unfold order_by.
  destruct spec as [|[[] [] [] [] [] [] [] []] field]; apply merge_sort_Permutation.
Qed.

Lemma sort_queryset_perm qs GET allowed default :
  sort_queryset qs GET allowed default ≡ₚ qs.
Proof.
  unfold sort_queryset. destruct (GET_get "sort" GET) as [sort|];
    [destruct (existsb _ allowed) |]; apply order_by_perm.
Qed.

Lemma sort_queryset_default qs GET :
  no_allowed_sort GET ->
  sort_queryset qs GET VoucherListView.allowed_sorts "-date_created"
  = merge_sort (descending "date_created") qs.
Proof.
  unfold no_allowed_sort, sort_queryset.
  destruct (GET_get "sort" GET) as [sort|]; [intros -> |]; reflexivity.
Qed.

Lemma newest_first_sorted qs :
  StronglySorted newest_first (merge_sort (descending "date_created") qs).
Proof. apply (StronglySorted_merge_sort (descending "date_created")). Qed.

Lemma StronglySorted_filter {A} (R : relation A) (p : A -> bool) l :
  StronglySorted R l -> StronglySorted R (List.filter p l).
Proof.
  induction 1 as [|x l Hl IH Hx]; simpl; [constructor |].
  destruct (p x); [| exact IH].
  constructor; [exact IH |]. now apply Forall_filter_keep.
Qed.

Lemma Permutation_filter_bool {A} (p : A -> bool) (l l' : list A) :
  l ≡ₚ l' -> List.filter p l ≡ₚ List.filter p l'.
Proof.
  induction 1 as [|x l l' H IH|x y l|l l' l'' H1 IH1 H2 IH2]; simpl.
  - reflexivity.
  - destruct (p x); [now constructor | exact IH].
  - destruct (p x), (p y); try reflexivity. apply perm_swap.
  - now transitivity (List.filter p l').
Qed.

Lemma filter_filter {A} (p q : A -> bool) (l : list A) :
  List.filter p (List.filter q l) = List.filter (fun x => q x && p x) l.
Proof.
  induction l as [|x l IH]; simpl; [reflexivity |].
  destruct (q x); simpl; [destruct (p x) |]; now rewrite IH.
Qed.

Lemma filter_true {A} (l : list A) : List.filter (fun _ => true) l = l.
Proof. induction l as [|x l IH]; simpl; [reflexivity | now rewrite IH]. Qed.

(** The list of a valid search: the ordered vouchers that pass every filter. *)
Lemma get_queryset_valid CharField NullBooleanField st now GET data :
  GET <> [] ->
  VoucherSearchForm.is_valid CharField NullBooleanField GET = Some data ->
  VoucherListView.get_queryset CharField NullBooleanField st now GET
  = List.filter (fun v => other_filters data v && active_filter now data v)
      (sort_queryset (order_by "-date_created" (vouchers st)) GET
                     VoucherListView.allowed_sorts "-date_created").
Proof.
  intros Hne Hvalid. unfold VoucherListView.get_queryset.
  destruct GET as [|kv GET]; [contradiction |]. rewrite Hvalid.
  set (qs := sort_queryset _ _ _ _).
  unfold other_filters, active_filter.
  destruct (Str.truthy (VoucherSearchForm.name data));
    destruct (Str.truthy (VoucherSearchForm.code data));
    destruct (VoucherSearchForm.is_active data) as [[|]|];
    destruct (VoucherSearchForm.in_set data) as [b|];
    (etransitivity; [symmetry; apply filter_true |]);
    rewrite ?filter_filter; apply filter_ext; intros v; cbv beta; btauto.
Qed.

Lemma perm_In_iff {A} (x : A) (l l' : list A) : l ≡ₚ l' -> In x l <-> In x l'.
Proof. intros HP. split; apply Permutation_in; [exact HP | symmetry; exact HP]. Qed.

Lemma In_sorted_vouchers st GET v :
  In v (sort_queryset (order_by "-date_created" (vouchers st)) GET
                      VoucherListView.allowed_sorts "-date_created")
  <-> In v (vouchers st).
Proof.
  assert (HP : sort_queryset (order_by "-date_created" (vouchers st)) GET
                             VoucherListView.allowed_sorts "-date_created"
               ≡ₚ vouchers st).
  { rewrite sort_queryset_perm. apply order_by_perm. }
  split; apply Permutation_in; [exact HP | symmetry; exact HP].
Qed.

Lemma active_at_spec now v :
  VoucherListView.active_at now v = true
  <-> (Voucher.start_datetime v <= now /\ now <= Voucher.end_datetime v)%Z.
Proof.
  unfold VoucherListView.active_at. rewrite andb_true_iff, !Z.leb_le. reflexivity.
Qed.

Lemma ended_before_spec now v :
  VoucherListView.ended_before now v = true <-> (Voucher.end_datetime v < now)%Z.
Proof. unfold VoucherListView.ended_before. apply Z.ltb_lt. Qed.

(** C8: for a valid search with [is_active] set, the list holds exactly the
    vouchers that pass the other filters of the search and, for true, have
    start_datetime <= now <= end_datetime, for false, end_datetime < now;
    with no other filter set these are all such vouchers of the store. *)
Theorem is_active_filter CharField NullBooleanField st now GET data b :
  GET <> [] ->
  VoucherSearchForm.is_valid CharField NullBooleanField GET = Some data ->
  VoucherSearchForm.is_active data = Some b ->
  let result := VoucherListView.get_queryset CharField NullBooleanField st now GET in
  let in_window (v : Voucher.t) : Prop :=
    if b then (Voucher.start_datetime v <= now /\ now <= Voucher.end_datetime v)%Z
    else (Voucher.end_datetime v < now)%Z in
  (forall v, In v result
             <-> In v (vouchers st) /\ other_filters data v = true /\ in_window v)
  /\ result ≡ₚ List.filter
                 (fun v => other_filters data v
                           && (if b then VoucherListView.active_at now v
                               else VoucherListView.ended_before now v))
                 (vouchers st)
  /\ (VoucherSearchForm.name data = EmptyString ->
      VoucherSearchForm.code data = EmptyString ->
      VoucherSearchForm.in_set data = None ->
      forall v, In v result <-> In v (vouchers st) /\ in_window v).
Proof.
  intros Hne Hvalid Hactive result in_window.
  assert (Hres : result
                 = List.filter (fun v => other_filters data v && active_filter now data v)
                     (sort_queryset (order_by "-date_created" (vouchers st)) GET
                                    VoucherListView.allowed_sorts "-date_created"))
    by (apply get_queryset_valid; assumption).
  assert (Hwin : forall v, active_filter now data v = true <-> in_window v).
  { intros v. unfold active_filter, in_window. rewrite Hactive.
    destruct b; [apply active_at_spec | apply ended_before_spec]. }
  assert (Hin : forall v, In v result
                  <-> In v (vouchers st) /\ other_filters data v = true /\ in_window v).
  { intros v. rewrite Hres, filter_In, In_sorted_vouchers, andb_true_iff, Hwin.
    reflexivity. }
  split; [exact Hin |]. split.
  - rewrite Hres.
    rewrite (Permutation_filter_bool _ _ (vouchers st))
      by (rewrite sort_queryset_perm; apply order_by_perm).
    erewrite filter_ext; [reflexivity |].
    intros v. unfold active_filter. rewrite Hactive. now destruct b.
  - intros Hname Hcode Hset v. rewrite Hin.
    unfold other_filters. rewrite Hname, Hcode, Hset. simpl. tauto.
Qed.

Lemma is_active_filter_witness :
  In (Voucher.mk 1 "Spring" "AB" MULTI_USE 10 20 (Some 1) {[ 7 ]} 5 0 0)
     (VoucherListView.get_queryset django_CharField django_NullBooleanField
        spring_store 25 [("is_active", "false")])
  /\ ~ In (Voucher.mk 1 "Spring" "AB" MULTI_USE 10 20 (Some 1) {[ 7 ]} 5 0 0)
          (VoucherListView.get_queryset django_CharField django_NullBooleanField
             spring_store 15 [("is_active", "false")]).
Proof.
  pose proof (is_active_filter django_CharField django_NullBooleanField spring_store 25
                [("is_active", "false")]
                (VoucherSearchForm.mk "" "" (Some false) None) false
                ltac:(discriminate) eq_refl eq_refl) as (_ & _ & Hlate).
  pose proof (is_active_filter django_CharField django_NullBooleanField spring_store 15
                [("is_active", "false")]
                (VoucherSearchForm.mk "" "" (Some false) None) false
                ltac:(discriminate) eq_refl eq_refl) as (_ & _ & Hearly).
  split.
  - apply (Hlate eq_refl eq_refl eq_refl). split; [vm_compute; left; reflexivity |].
    simpl. lia.
  - intros Hin. apply (Hearly eq_refl eq_refl eq_refl) in Hin as [_ Hin].
    simpl in Hin. lia.
Defined.

Lemma isnull_true_spec v :
  voucher_set__isnull true v = true <-> Voucher.voucher_set v = None.
Proof.
  unfold voucher_set__isnull. destruct (Voucher.voucher_set v); simpl; split;
    congruence.
Qed.

(** C10: without query parameters the list holds exactly the vouchers that
    belong to no set, newest first; it is not the whole collection. *)
Theorem unsubmitted_list_is_standalone CharField NullBooleanField st now :
  let result := VoucherListView.get_queryset CharField NullBooleanField st now [] in
  (forall v, In v result <-> In v (vouchers st) /\ Voucher.voucher_set v = None)
  /\ StronglySorted newest_first result
  /\ result ≡ₚ List.filter (voucher_set__isnull true) (vouchers st).
Proof.
  intros result. unfold result, VoucherListView.get_queryset.
  rewrite sort_queryset_default by exact I.
  split; [| split].
  - intros v. rewrite filter_In, isnull_true_spec.
    rewrite (perm_In_iff v _ _ (merge_sort_Permutation _ _)).
    now rewrite (perm_In_iff v _ _ (order_by_perm _ _)).
  - apply StronglySorted_filter, newest_first_sorted.
  - apply Permutation_filter_bool.
    rewrite merge_sort_Permutation. apply order_by_perm.
Qed.

Lemma order_by_allowed sort qs :
  In sort VoucherListView.allowed_sorts ->
  existsb (String.eqb sort) VoucherListView.allowed_sorts = true
  /\ order_by sort qs = merge_sort (ascending sort) qs.
Proof.
  intros [<- | [<- | [<- | []]]]; split; reflexivity.
Qed.

(** C9, as stated, fails both ways.  With a sort key outside the allow-list
    and a valid form the name filter still applies: the list is not the whole
    collection.  With a form that fails validation and an allowed sort key the
    list is ordered by that key, not newest first. *)
Lemma list_fallbacks_counterexample :
  (GET_get "sort" bogus_sort_search = Some "bogus"
   /\ existsb (String.eqb "bogus") VoucherListView.allowed_sorts = false
   /\ ~ (VoucherListView.get_queryset django_CharField django_NullBooleanField
           two_vouchers 9 bogus_sort_search
         ≡ₚ vouchers two_vouchers))
  /\ (VoucherSearchForm.is_valid django_CharField django_NullBooleanField invalid_search
      = None
      /\ ~ StronglySorted newest_first
             (VoucherListView.get_queryset django_CharField django_NullBooleanField
                two_vouchers 9 invalid_search)).
Proof.
  split; (split; [reflexivity |]).
  - split; [reflexivity |]. intros HP. apply Permutation_length in HP.
    vm_compute in HP. discriminate.
  - intros HS.
    assert (E : map Voucher.date_created
                  (VoucherListView.get_queryset django_CharField django_NullBooleanField
                     two_vouchers 9 invalid_search) = [1%Z; 2%Z])
      by (vm_compute; reflexivity).
    destruct (VoucherListView.get_queryset _ _ _ _ _) as [|a [|b [|c l]]];
      try discriminate E.
    simpl in E. inversion E as [[Ha Hb]].
    apply StronglySorted_inv in HS as [_ HF].
    apply Forall_cons in HF as [HF _]. unfold newest_first in HF. lia.
Qed.

(** C9, amended: a request with query parameters always gets a list.  When
    the search form fails validation no filter is applied: the list is the
    whole collection, in the order chosen by the sort parameter, which is
    newest first when the sort key is missing or outside the allow-list.
    When the sort key is missing or outside the allow-list the list is newest
    first, and the filters of a valid form still apply. *)
Theorem list_fallbacks CharField NullBooleanField st now GET :
  GET <> [] ->
  let result := VoucherListView.get_queryset CharField NullBooleanField st now GET in
  (VoucherSearchForm.is_valid CharField NullBooleanField GET = None ->
   result ≡ₚ vouchers st
   /\ (no_allowed_sort GET -> StronglySorted newest_first result)
   /\ (forall sort, GET_get "sort" GET = Some sort ->
                    In sort VoucherListView.allowed_sorts ->
                    StronglySorted (ascending sort) result))
  /\ (no_allowed_sort GET ->
      StronglySorted newest_first result
      /\ (forall v, In v result -> In v (vouchers st))
      /\ (forall data,
            VoucherSearchForm.is_valid CharField NullBooleanField GET = Some data ->
            forall v, In v result
                      <-> In v (vouchers st)
                          /\ other_filters data v = true
                          /\ active_filter now data v = true)).
Proof.
  intros Hne result. split.
  - intros Hinvalid.
    assert (Hres : result
                   = sort_queryset (order_by "-date_created" (vouchers st)) GET
                                   VoucherListView.allowed_sorts "-date_created").
    { unfold result, VoucherListView.get_queryset.
      destruct GET; [contradiction |]. now rewrite Hinvalid. }
    rewrite Hres. split; [| split].
    + rewrite sort_queryset_perm. apply order_by_perm.
    + intros Hsort. rewrite sort_queryset_default by exact Hsort.
      apply newest_first_sorted.
    + intros sort Hget Hallowed. unfold sort_queryset. rewrite Hget.
      destruct (order_by_allowed sort (order_by "-date_created" (vouchers st)) Hallowed)
        as [-> ->].
      apply (StronglySorted_merge_sort (ascending sort)).
  - intros Hsort.
    assert (Hsub : exists p,
              result = List.filter p (merge_sort (descending "date_created")
                                        (order_by "-date_created" (vouchers st)))).
    { unfold result.
      destruct (VoucherSearchForm.is_valid CharField NullBooleanField GET) as [data|] eqn:Ev.
      - rewrite (get_queryset_valid _ _ st now GET data Hne Ev).
        rewrite sort_queryset_default by exact Hsort. eauto.
      - unfold VoucherListView.get_queryset. destruct GET; [contradiction |].
        rewrite Ev, sort_queryset_default by exact Hsort.
        exists (fun _ => true). now rewrite filter_true. }
    destruct Hsub as (p & Hres).
    split; [| split].
    + rewrite Hres. apply StronglySorted_filter, newest_first_sorted.
    + intros v. rewrite Hres, filter_In. intros [Hv _].
      rewrite (perm_In_iff v _ _ (merge_sort_Permutation _ _)) in Hv.
      now rewrite (perm_In_iff v _ _ (order_by_perm _ _)) in Hv.
    + intros data Ev v. unfold result.
      rewrite (get_queryset_valid _ _ st now GET data Hne Ev).
      now rewrite filter_In, In_sorted_vouchers, andb_true_iff.
Qed.

Lemma list_fallbacks_witness :
  (VoucherListView.get_queryset django_CharField django_NullBooleanField
     two_vouchers 9 invalid_search
   ≡ₚ vouchers two_vouchers)
  /\ StronglySorted newest_first
       (VoucherListView.get_queryset django_CharField django_NullBooleanField
          two_vouchers 9 bogus_sort_search).
Proof.
  pose proof (list_fallbacks django_CharField django_NullBooleanField
                two_vouchers 9 invalid_search ltac:(discriminate)) as [Hinvalid _].
  pose proof (list_fallbacks django_CharField django_NullBooleanField
                two_vouchers 9 bogus_sort_search ltac:(discriminate)) as [_ Hsort].
  split.
  - exact (proj1 (Hinvalid ltac:(vm_compute; reflexivity))).
  - exact (proj1 (Hsort ltac:(vm_compute; reflexivity))).
Defined.

(** * Further properties *)

(** ** Normalized codes *)

Lemma upper_char_idem c : Str.upper_char (Str.upper_char c) = Str.upper_char c.
Proof. destruct c as [[] [] [] [] [] [] [] []]; reflexivity. Qed.

Lemma is_space_upper_char c : Str.is_space (Str.upper_char c) = Str.is_space c.
Proof. destruct c as [[] [] [] [] [] [] [] []]; reflexivity. Qed.

Lemma upper_idem s : Str.upper (Str.upper s) = Str.upper s.
Proof.
  unfold Str.upper. induction s as [|c r IH]; simpl; [reflexivity |].
  now rewrite upper_char_idem, IH.
Qed.

Lemma upper_empty s : Str.upper s = EmptyString <-> s = EmptyString.
Proof. destruct s; cbn; split; intros H; (reflexivity || discriminate H). Qed.

Lemma lstrip_upper s : Str.lstrip (Str.upper s) = Str.upper (Str.lstrip s).
Proof.
  unfold Str.upper. induction s as [|c r IH]; simpl; [reflexivity |].
  rewrite is_space_upper_char. now destruct (Str.is_space c).
Qed.

Lemma rstrip_upper s : Str.rstrip (Str.upper s) = Str.upper (Str.rstrip s).
Proof.
  unfold Str.upper. induction s as [|c r IH]; simpl; [reflexivity |].
  rewrite IH, is_space_upper_char.
  destruct (Str.rstrip r); simpl; [now destruct (Str.is_space c) | reflexivity].
Qed.

Lemma strip_upper s : Str.strip (Str.upper s) = Str.upper (Str.strip s).
Proof. unfold Str.strip. now rewrite rstrip_upper, lstrip_upper. Qed.

Lemma rstrip_idem s : Str.rstrip (Str.rstrip s) = Str.rstrip s.
Proof.
  induction s as [|c r IH]; simpl; [reflexivity |].
  destruct (Str.rstrip r) as [|c' r'] eqn:E.
  - destruct (Str.is_space c) eqn:Ec; simpl; [reflexivity | now rewrite Ec].
  - simpl in *. now rewrite IH.
Qed.

Lemma lstrip_idem s : Str.lstrip (Str.lstrip s) = Str.lstrip s.
Proof.
  induction s as [|c r IH]; simpl; [reflexivity |].
  destruct (Str.is_space c) eqn:Ec; [exact IH |]. simpl. now rewrite Ec.
Qed.

(** Stripping on the left keeps a string stripped on the right. *)
Lemma rstrip_lstrip s : Str.rstrip s = s -> Str.rstrip (Str.lstrip s) = Str.lstrip s.
Proof.
  induction s as [|c r IH]; simpl; [reflexivity |].
  intros H. destruct (Str.is_space c) eqn:Ec.
  - apply IH. destruct (Str.rstrip r) as [|c' r'] eqn:E.
    + discriminate H.
    + now inversion H.
  - simpl. rewrite Ec. exact H.
Qed.

Lemma strip_idem s : Str.strip (Str.strip s) = Str.strip s.
Proof.
  unfold Str.strip.
  rewrite (rstrip_lstrip (Str.rstrip s)) by apply rstrip_idem.
  apply lstrip_idem.
Qed.

(** [code.strip().upper()] is a fixed point of itself. *)
Lemma normalize_idem s :
  Str.upper (Str.strip (Str.upper (Str.strip s))) = Str.upper (Str.strip s).
Proof. now rewrite strip_upper, strip_idem, upper_idem. Qed.

(** ** What a valid voucher form guarantees *)

Lemma get_Found_only {A} (p : A -> bool) l a x :
  get p l = Found a -> In x l -> p x = true -> x = a.
Proof.
  unfold get. destruct (List.filter p l) as [|y [|z r]] eqn:E; try discriminate.
  intros H Hx Hp. inversion H; subst.
  assert (Hin : In x (List.filter p l)) by (apply filter_In; auto).
  rewrite E in Hin. destruct Hin as [-> | []]. reflexivity.
Qed.

Lemma get_NotFound_none {A} (p : A -> bool) l x :
  get p l = NotFound -> In x l -> p x = true -> False.
Proof.
  unfold get. destruct (List.filter p l) as [|y [|z r]] eqn:E; try discriminate.
  intros _ Hx Hp.
  assert (Hin : In x (List.filter p l)) by (apply filter_In; auto).
  rewrite E in Hin. exact Hin.
Qed.

(** A lookup that let the form through: no other voucher matches. *)
Lemma no_other_match self_voucher (p : Voucher.t -> bool) l v :
  match get p l with
  | NotFound => True
  | Found voucher => VoucherForm.is_other self_voucher voucher = false
  | Multiple => False
  end ->
  In v l -> VoucherForm.is_other self_voucher v = true -> p v = false.
Proof.
  intros Hget Hv Hother. apply not_true_is_false. intros Hp.
  destruct (get p l) as [voucher| |] eqn:E.
  - rewrite (get_Found_only p l voucher v E Hv Hp) in Hother. congruence.
  - exact (get_NotFound_none p l v E Hv Hp).
  - exact Hget.
Qed.

Lemma clean_name_Clean self_voucher st n n' :
  VoucherForm.clean_name self_voucher st n = Clean n' ->
  n' = n
  /\ forall v, In v (vouchers st) -> VoucherForm.is_other self_voucher v = true ->
       Voucher.name v <> n.
Proof.
  unfold VoucherForm.clean_name. intros H.
  assert (Hn : n' = n).
  { destruct (get _ _) as [voucher| |]; [destruct (VoucherForm.is_other _ _) | |];
      congruence. }
  split; [exact Hn |]. intros v Hv Hother Hname.
  assert (Hp : has_name n v = false).
  { apply (no_other_match self_voucher _ (vouchers st)); auto.
    destruct (get _ _) as [voucher| |]; [| exact I | discriminate H].
    destruct (VoucherForm.is_other _ _); [discriminate H | reflexivity]. }
  unfold has_name in Hp. apply String.eqb_neq in Hp. contradiction.
Qed.

Lemma clean_code_Clean self_voucher st raw c :
  VoucherForm.clean_code self_voucher st raw = Clean c ->
  c = Str.upper (Str.strip raw)
  /\ c <> EmptyString
  /\ forall v, In v (vouchers st) -> VoucherForm.is_other self_voucher v = true ->
       Voucher.code v <> c.
Proof.
  unfold VoucherForm.clean_code. intros H.
  destruct (Str.truthy (Str.upper (Str.strip raw))) eqn:Et; [| discriminate H].
  simpl in H.
  assert (Hc : c = Str.upper (Str.strip raw)).
  { destruct (get _ _) as [voucher| |]; [destruct (VoucherForm.is_other _ _) | |];
      congruence. }
  split; [exact Hc |]. split.
  - rewrite Hc. intros E. rewrite E in Et. discriminate.
  - intros v Hv Hother Hcode.
    assert (Hp : has_code (Str.upper (Str.strip raw)) v = false).
    { apply (no_other_match self_voucher _ (vouchers st)); auto.
      destruct (get _ _) as [voucher| |]; [| exact I | discriminate H].
      destruct (VoucherForm.is_other _ _); [discriminate H | reflexivity]. }
    unfold has_code in Hp. apply String.eqb_neq in Hp. congruence.
Qed.

Lemma is_valid_Valid self_voucher st d c :
  VoucherForm.is_valid self_voucher st d = Valid c ->
  VoucherForm.clean_name self_voucher st (VoucherForm.name d) = Clean (VoucherForm.name c)
  /\ VoucherForm.clean_code self_voucher st (VoucherForm.code d)
     = Clean (VoucherForm.code c)
  /\ (VoucherForm.start_datetime d <= VoucherForm.end_datetime d)%Z
  /\ VoucherForm.start_datetime c = VoucherForm.start_datetime d
  /\ VoucherForm.end_datetime c = VoucherForm.end_datetime d
  /\ VoucherForm.usage c = VoucherForm.usage d
  /\ VoucherForm.offers c = VoucherForm.offers d.
Proof.
  unfold VoucherForm.is_valid, VoucherForm.clean.
  destruct (VoucherForm.clean_name _ _ _) as [n|e|e];
    destruct (VoucherForm.clean_code _ _ _) as [c'|e'|e'];
    destruct (Z.ltb_spec (VoucherForm.end_datetime d) (VoucherForm.start_datetime d))
      as [Hlt|Hge];
    intros H; try discriminate H.
  inversion H; subst. simpl. repeat split; auto.
Qed.

(** What the cleaned data of a valid form satisfy, in one statement. *)
Lemma valid_facts self_voucher st d c :
  VoucherForm.is_valid self_voucher st d = Valid c ->
  VoucherForm.name c = VoucherForm.name d
  /\ VoucherForm.code c = Str.upper (Str.strip (VoucherForm.code d))
  /\ VoucherForm.code c <> EmptyString
  /\ (VoucherForm.start_datetime c <= VoucherForm.end_datetime c)%Z
  /\ (forall v, In v (vouchers st) -> VoucherForm.is_other self_voucher v = true ->
        Voucher.name v <> VoucherForm.name c /\ Voucher.code v <> VoucherForm.code c).
Proof.
  intros H. apply is_valid_Valid in H as (Hn & Hc & Hr & Hs & He & _ & _).
  apply clean_name_Clean in Hn as [Hn Hnames].
  apply clean_code_Clean in Hc as (Hc & Hne & Hcodes).
  repeat split; auto; try lia.
  rewrite Hn. apply Hnames; auto.
Qed.

(** X1: the voucher form accepts data only when they can be stored: the cleaned
    code is [code.strip().upper()] of the submitted one and is not empty, the
    date range is in order, and no other voucher of the store has the name or
    the cleaned code. *)
Theorem voucher_form_valid_sound self_voucher st d c :
  VoucherForm.is_valid self_voucher st d = Valid c ->
  VoucherForm.name c = VoucherForm.name d
  /\ VoucherForm.code c = Str.upper (Str.strip (VoucherForm.code d))
  /\ VoucherForm.code c <> EmptyString
  /\ (VoucherForm.start_datetime c <= VoucherForm.end_datetime c)%Z
  /\ (forall v, In v (vouchers st) -> VoucherForm.is_other self_voucher v = true ->
        Voucher.name v <> VoucherForm.name c /\ Voucher.code v <> VoucherForm.code c).
Proof. apply valid_facts. Qed.

Lemma voucher_form_valid_sound_witness :
  VoucherForm.code (VoucherForm.mk "C" "CODEC" 10 20 MULTI_USE ∅)
  = Str.upper (Str.strip " codec ")
  /\ (10 <= 20)%Z.
Proof.
  pose proof (voucher_form_valid_sound None two_vouchers
                (VoucherForm.mk "C" " codec " 10 20 MULTI_USE ∅)
                (VoucherForm.mk "C" "CODEC" 10 20 MULTI_USE ∅)
                ltac:(vm_compute; reflexivity)) as (_ & Hc & _ & Hr & _).
  split; [exact Hc | exact Hr].
Defined.

(** X2: the cleaned code is a fixed point of the cleaning: a valid form that is
    submitted again with its cleaned code cleans to the same code, so
    [clean_code] normalizes once and for all. *)
Theorem clean_code_idempotent self_voucher st raw c :
  VoucherForm.clean_code self_voucher st raw = Clean c ->
  VoucherForm.clean_code self_voucher st c = Clean c.
Proof.
  intros H. pose proof (clean_code_Clean _ _ _ _ H) as (Hc & Hne & _).
  unfold VoucherForm.clean_code in *.
  assert (Hfix : Str.upper (Str.strip c) = Str.upper (Str.strip raw))
    by (rewrite Hc; apply normalize_idem).
  rewrite Hfix. exact H.
Qed.

Lemma clean_code_idempotent_witness :
  VoucherForm.clean_code None two_vouchers "CODEC" = Clean "CODEC".
Proof.
  apply (clean_code_idempotent None two_vouchers " codec " "CODEC").
  vm_compute. reflexivity.
Defined.

(** X3: a date range whose end is before its start is never accepted: the form
    reports InvalidRange among its errors, unless the name or the code lookup
    found several vouchers and let MultipleObjectsReturned escape. *)
Theorem inverted_range_rejected self_voucher st d :
  (VoucherForm.end_datetime d < VoucherForm.start_datetime d)%Z ->
  (exists errors, VoucherForm.is_valid self_voucher st d = Errors errors
                  /\ In InvalidRange errors)
  \/ VoucherForm.is_valid self_voucher st d = Crashed MultipleObjectsReturned.
Proof.
  intros Hlt. unfold VoucherForm.is_valid, VoucherForm.clean.
  apply Z.ltb_lt in Hlt. rewrite Hlt.
  assert (Hn : forall e, VoucherForm.clean_name self_voucher st (VoucherForm.name d)
                         = Crash e -> e = MultipleObjectsReturned).
  { unfold VoucherForm.clean_name. intros e.
    destruct (get _ _) as [voucher| |]; [destruct (VoucherForm.is_other _ _) | |];
      congruence. }
  assert (Hc : forall e, VoucherForm.clean_code self_voucher st (VoucherForm.code d)
                         = Crash e -> e = MultipleObjectsReturned).
  { unfold VoucherForm.clean_code. intros e.
    destruct (negb _); [discriminate |].
    destruct (get _ _) as [voucher| |]; [destruct (VoucherForm.is_other _ _) | |];
      congruence. }
  destruct (VoucherForm.clean_name _ _ _) as [n|e|e];
    destruct (VoucherForm.clean_code _ _ _) as [c'|e'|e'];
    simpl;
    try (right; f_equal; first [apply Hn; reflexivity | apply Hc; reflexivity]);
    left; eexists; (split; [reflexivity |]); simpl; auto 6.
Qed.

Lemma inverted_range_rejected_witness :
  VoucherForm.is_valid None two_vouchers (VoucherForm.mk "C" "codec" 20 10 MULTI_USE ∅)
  = Errors [InvalidRange].
Proof.
  destruct (inverted_range_rejected None two_vouchers
              (VoucherForm.mk "C" "codec" 20 10 MULTI_USE ∅) ltac:(simpl; lia))
    as [(errors & H & _) | H].
  - vm_compute. reflexivity.
  - vm_compute in H. discriminate H.
Defined.

(** ** What each view does to the store *)

Lemma update_where_twice {A} (p : A -> bool) f g (l : list A) :
  (forall x, p (f x) = p x) ->
  update_where p g (update_where p f l) = update_where p (fun x => g (f x)) l.
Proof.
  intros Hp. unfold update_where. rewrite map_map. apply map_ext.
  intros x. destruct (p x) eqn:E; [rewrite Hp, E | rewrite E]; reflexivity.
Qed.

(** [offers.add] on the row that was just created. *)
Lemma offers_add_created (l : list Voucher.t) v o :
  Forall (fun r => Voucher.id r < Voucher.id v) l ->
  Voucher.offers v = ∅ ->
  update_where (has_id (Voucher.id v)) (Voucher.offers_add o) (l ++ [v])
  = l ++ [Voucher.offers_set o v].
Proof.
  intros Hb Hv. unfold update_where. rewrite map_app. f_equal.
  - rewrite <- (map_id l) at 2. apply map_ext_in. intros r Hr.
    rewrite Forall_forall in Hb. apply list_elem_of_In, Hb in Hr.
    unfold has_id. destruct (Nat.eqb_spec (Voucher.id r) (Voucher.id v)); [lia | reflexivity].
  - simpl. unfold has_id. rewrite Nat.eqb_refl.
    unfold Voucher.offers_add. rewrite Hv. now rewrite (left_id_L ∅ (∪)).
Qed.

(** The create view: nothing is written, or the form was valid and one row
    was appended. *)
Lemma create_post_cases d w :
  Forall (fun v => Voucher.id v < next_voucher_id (db w)) (vouchers (db w)) ->
  db (snd (VoucherCreateView.post d w)) = db w
  \/ exists c,
       VoucherForm.is_valid None (db w) d = Valid c
       /\ fst (VoucherCreateView.post d w) = Ok (HttpResponseRedirect voucher_list)
       /\ db (snd (VoucherCreateView.post d w))
          = mkStore (vouchers (db w) ++ [created c (db w) (clock w)])
                    (voucher_sets (db w)) (S (next_voucher_id (db w)))
                    (next_set_id (db w)).
Proof.
  intros Hb. unfold VoucherCreateView.post, bind, query, process_form.
  destruct (VoucherForm.is_valid None (db w) d) as [c|errs|e]; simpl; auto.
  unfold VoucherCreateView.form_valid, atomic.
  match goal with |- context [match ?body w with _ => _ end] =>
    destruct (body w) as [[resp|e] w'] eqn:E end; simpl; [| now left].
  right. exists c. split; [reflexivity |].
  run_inv E. apply objects_create_Ok in Hrun as (_ & Hv & Hdb1 & _ & _).
  run_inv Hrun0. apply offers_add_Ok in Hrun as (Hdb2 & _ & _). run_inv Hrun1.
  split; [reflexivity |].
  rewrite Hdb2, Hdb1. unfold with_vouchers. simpl. f_equal.
  rewrite offers_add_created; subst a; simpl; auto.
Qed.

(** The update view: nothing is written, or the voucher was found, belongs
    to no set, the form was valid and the row was rewritten. *)
Lemma update_post_cases pk d w :
  db (snd (VoucherUpdateView.post pk d w)) = db w
  \/ exists voucher c,
       get (has_id pk) (vouchers (db w)) = Found voucher
       /\ Voucher.voucher_set voucher = None
       /\ VoucherForm.is_valid (Some voucher) (db w) d = Valid c
       /\ fst (VoucherUpdateView.post pk d w) = Ok (HttpResponseRedirect voucher_list)
       /\ db (snd (VoucherUpdateView.post pk d w))
          = with_vouchers (update_where (has_id pk) (edited c)) (db w).
Proof.
  unfold VoucherUpdateView.post, VoucherUpdateView.get_voucher.
  unfold bind at 1 2 4 5 7 8. unfold query at 1 3 5.
  destruct (get (has_id pk) (vouchers (db w))) as [voucher| |] eqn:Hget; simpl; auto.
  destruct (Voucher.voucher_set voucher) eqn:Hset; simpl; auto.
  unfold bind, query, process_form.
  destruct (VoucherForm.is_valid (Some voucher) (db w) d) as [c|errs|e] eqn:Hvalid;
    simpl; auto.
  unfold VoucherUpdateView.form_valid, atomic.
  match goal with |- context [match ?body w with _ => _ end] =>
    destruct (body w) as [[resp|e] w'] eqn:E end; simpl; [| now left].
  right. exists voucher, c.
  split; [reflexivity |]. split; [exact Hset |]. split; [exact Hvalid |].
  apply get_Found_In in Hget as [_ Hid]. unfold has_id in Hid. apply Nat.eqb_eq in Hid.
  rewrite Hid in E.
  run_inv E. unfold voucher_save in Hrun. run_inv Hrun. run_inv Hrun1.
  destruct (existsb _ _) eqn:Eclash; [discriminate Hrun2 |].
  apply write_Ok in Hrun2 as (Hdb1 & _ & _).
  run_inv Hrun0. apply offers_set_Ok in Hrun as (Hdb2 & _ & _). run_inv Hrun1.
  split; [reflexivity |].
  rewrite Hdb2, Hdb1. unfold with_vouchers. simpl. f_equal.
  rewrite update_where_twice by (intros x; reflexivity). reflexivity.
Qed.

(** The delete view: nothing is written, or the voucher was found and
    removed, and its set recounted. *)
Lemma delete_cases pk w :
  db (snd (VoucherDeleteView.delete pk w)) = db w
  \/ exists obj,
       get (has_id pk) (vouchers (db w)) = Found obj
       /\ fst (VoucherDeleteView.delete pk w)
          = Ok (HttpResponseRedirect (VoucherDeleteView.get_success_url obj))
       /\ db (snd (VoucherDeleteView.delete pk w)) = after_delete obj (db w).
Proof.
  unfold VoucherDeleteView.delete, atomic.
  match goal with |- context [match ?body w with _ => _ end] =>
    destruct (body w) as [[resp|e] w'] eqn:E end; simpl; [| now left].
  right. run_inv E. apply get_object_Ok in Hrun as [Hget ->].
  exists a. split; [exact Hget |].
  run_inv Hrun0. apply write_Ok in Hrun as (Hdb1 & _ & _).
  run_inv Hrun1. unfold after_delete.
  destruct (Voucher.voucher_set a) as [sid|].
  - apply update_count_Ok in Hrun as (Hdb2 & _ & _). run_inv Hrun0.
    split; [reflexivity |]. rewrite Hdb2, Hdb1. reflexivity.
  - run_inv Hrun. run_inv Hrun0. split; [reflexivity |]. rewrite Hdb1. reflexivity.
Qed.

(** A save of the set form: nothing is written, or the store is the one
    described by [save_effect] for the codes that were drawn. *)
Lemma save_cases inst d w :
  store_ok (db w) ->
  db (snd (VoucherSetForm.save inst d true w)) = db w
  \/ exists codes,
       draw_codes (VoucherSetForm.count d
                   - vouchers_count
                       (VoucherSet.id (saved_instance inst d (clock w) (db w))) (db w))
                  (code_in_use (db w)) (VoucherSetForm.code_length d) (rng w)
       = Some (codes, rng (snd (VoucherSetForm.save inst d true w)))
       /\ db (snd (VoucherSetForm.save inst d true w))
          = save_effect inst d (clock w) codes (db w).
Proof.
  intros Hok. unfold VoucherSetForm.save, atomic.
  destruct (VoucherSetForm.save_body inst d true w) as [[r|e] w'] eqn:E; simpl;
    [| now left].
  right.
  apply save_body_Ok in E as (codes & Hdraw & Hdb & _ & _);
    [| apply (voucher_ids_unique _ Hok) | apply (voucher_ids_bound _ Hok)].
  exists codes. auto.
Qed.

(** The views of the set form: the store is untouched, or the form was valid
    for the instance and it was saved. *)
Lemma set_post_cases op w :
  match op with CreateVoucherSet _ | UpdateVoucherSet _ _ => True | _ => False end ->
  db (snd (handle op w)) = db w
  \/ exists inst d,
       instance_ok (db w) inst d
       /\ match op with
          | CreateVoucherSet d' => inst = None /\ d = d'
          | UpdateVoucherSet pk d' =>
              d = d' /\ exists object, inst = Some object
                         /\ get (set_has_id pk) (voucher_sets (db w)) = Found object
          | _ => False
          end
       /\ db (snd (handle op w)) = db (snd (VoucherSetForm.save inst d true w)).
Proof.
  destruct op as [| | |d|pk d|]; try contradiction; intros _; simpl.
  - right. exists None, d. split; [exact I |]. split; [auto |].
    unfold VoucherSetCreateView.post, process_form. simpl.
    now rewrite snd_bind_ret.
  - unfold VoucherSetUpdateView.post, get_object.
    unfold bind at 1 2 4 5. unfold query at 1 2.
    destruct (get (set_has_id pk) (voucher_sets (db w))) as [object| |] eqn:Hget;
      simpl; auto.
    unfold process_form, VoucherSetForm.is_valid, VoucherSetForm.clean_count.
    destruct (Nat.ltb_spec (VoucherSetForm.count d) (VoucherSet.count object));
      simpl; auto.
    right. exists (Some object), d. split.
    + split; [now apply get_Found_In in Hget | assumption].
    + split; [eauto |]. now rewrite snd_bind_ret.
Qed.

(** Deleting a set: nothing is written, or the set and its vouchers are
    removed. *)
Lemma delete_set_cases pk w :
  db (snd (VoucherSetDeleteView.post pk w)) = db w
  \/ exists object,
       get (set_has_id pk) (voucher_sets (db w)) = Found object
       /\ db (snd (VoucherSetDeleteView.post pk w))
          = mkStore (List.filter (fun v => negb (in_set pk v)) (vouchers (db w)))
                    (List.filter (fun s => negb (set_has_id pk s)) (voucher_sets (db w)))
                    (next_voucher_id (db w)) (next_set_id (db w)).
Proof.
  unfold VoucherSetDeleteView.post, get_object.
  unfold bind at 1 2 4 5. unfold query at 1 2.
  destruct (get (set_has_id pk) (voucher_sets (db w))) as [object| |] eqn:Hget;
    simpl; auto.
  rewrite !snd_bind_ret.
  match goal with |- context [write ?f w] =>
    destruct (write f w) as [[u|e] w'] eqn:E end; simpl.
  - right. exists object. split; [reflexivity |].
    now apply write_Ok in E as (Hdb & _ & _).
  - left. apply write_Raise in E. now subst.
Qed.

(** ** Sets agree with their vouchers; standalone vouchers are well formed *)

(** Removing rows, or rewriting columns of a set other than its key, name
    and dates, keeps both properties. *)
Lemma rows_shrink st st' :
  (forall v, In v (vouchers st') -> In v (vouchers st)) ->
  (forall s', In s' (voucher_sets st') ->
     exists s, In s (voucher_sets st)
       /\ VoucherSet.id s = VoucherSet.id s'
       /\ VoucherSet.name s = VoucherSet.name s'
       /\ VoucherSet.start_datetime s = VoucherSet.start_datetime s'
       /\ VoucherSet.end_datetime s = VoucherSet.end_datetime s') ->
  sets_agree st /\ standalone_ok st -> sets_agree st' /\ standalone_ok st'.
Proof.
  intros Hv Hs [Ha Hso]. split; constructor.
  - intros v s' Hin Hin' Hset.
    apply Hs in Hin' as (s & Hs1 & Hid & Hn & Hst & He).
    rewrite <- Hid in Hset. rewrite <- Hn, <- Hst, <- He.
    apply (child_fields st Ha); auto.
  - intros v v' k H1 H2. apply (siblings_agree st Ha); auto.
  - intros v v' H1 H2. apply (standalone_names st Hso); auto.
  - intros v H1. apply (standalone_range st Hso); auto.
  - intros v H1. apply (standalone_code st Hso); auto.
Qed.

Lemma agree_after_delete obj st :
  sets_agree st /\ standalone_ok st ->
  sets_agree (after_delete obj st) /\ standalone_ok (after_delete obj st).
Proof.
  apply rows_shrink.
  - unfold after_delete. destruct (Voucher.voucher_set obj); simpl;
      intros v Hv; apply filter_In in Hv; tauto.
  - unfold after_delete. destruct (Voucher.voucher_set obj) as [sid|]; simpl; intros s' Hs'.
    + apply In_update_where in Hs' as (y & Hy & ->). exists y.
      destruct (set_has_id sid y); simpl; auto.
    + exists s'. auto.
Qed.

Lemma agree_append st d c t :
  VoucherForm.is_valid None st d = Valid c ->
  sets_agree st /\ standalone_ok st ->
  let st' := mkStore (vouchers st ++ [created c st t]) (voucher_sets st)
                     (S (next_voucher_id st)) (next_set_id st) in
  sets_agree st' /\ standalone_ok st'.
Proof.
  intros Hvalid [Ha Hso] st'.
  apply valid_facts in Hvalid as (Hn & Hc & Hne & Hr & Hother).
  assert (Hin : forall v, In v (vouchers st') -> In v (vouchers st) \/ v = created c st t).
  { simpl. intros v Hv. apply in_app_iff in Hv as [Hv | [<- | []]]; auto. }
  split; constructor.
  - intros v s Hv Hs Hset. apply Hin in Hv as [Hv | ->]; [| discriminate Hset].
    apply (child_fields st Ha); auto.
  - intros v v' k H1 H2 S1 S2.
    apply Hin in H1 as [H1 | ->]; [| discriminate S1].
    apply Hin in H2 as [H2 | ->]; [| discriminate S2].
    eapply (siblings_agree st Ha); eauto.
  - intros v v' H1 H2 S1 S2 Hname.
    apply Hin in H1 as [H1 | ->]; apply Hin in H2 as [H2 | ->].
    + apply (standalone_names st Hso); auto.
    + exfalso. simpl in Hname. apply (proj1 (Hother v H1 eq_refl)). exact Hname.
    + exfalso. simpl in Hname. apply (proj1 (Hother v' H2 eq_refl)). symmetry. exact Hname.
    + reflexivity.
  - intros v H1 S1. apply Hin in H1 as [H1 | ->];
      [apply (standalone_range st Hso); auto | simpl; exact Hr].
  - intros v H1 S1. apply Hin in H1 as [H1 | ->];
      [apply (standalone_code st Hso); auto |].
    simpl. split; [exact Hne |]. rewrite Hc. apply normalize_idem.
Qed.

Lemma agree_edit st pk voucher d c :
  get (has_id pk) (vouchers st) = Found voucher ->
  Voucher.voucher_set voucher = None ->
  VoucherForm.is_valid (Some voucher) st d = Valid c ->
  sets_agree st /\ standalone_ok st ->
  let st' := with_vouchers (update_where (has_id pk) (edited c)) st in
  sets_agree st' /\ standalone_ok st'.
Proof.
  intros Hget Hset Hvalid [Ha Hso] st'.
  apply valid_facts in Hvalid as (Hn & Hc & Hne & Hr & Hother).
  pose proof (get_Found_In _ _ _ Hget) as [Hvin Hvid].
  assert (Hrow : forall v', In v' (vouchers st') ->
            (In v' (vouchers st) /\ has_id pk v' = false) \/ v' = edited c voucher).
  { simpl. intros v' Hv'. apply In_update_where in Hv' as (y & Hy & ->).
    destruct (has_id pk y) eqn:E; [right | left; auto].
    f_equal. apply (get_Found_only _ _ _ _ Hget Hy E). }
  assert (Hoth : forall v, has_id pk v = false ->
                           VoucherForm.is_other (Some voucher) v = true).
  { intros v Hv. unfold VoucherForm.is_other. unfold has_id in *.
    apply Nat.eqb_eq in Hvid. rewrite Hvid. now rewrite Hv. }
  split; constructor.
  - intros v s Hv Hs Hvs. apply Hrow in Hv as [[Hv _] | ->];
      [apply (child_fields st Ha); auto |].
    simpl in Hvs. congruence.
  - intros v v' k H1 H2 S1 S2.
    apply Hrow in H1 as [[H1 _] | ->]; [| simpl in S1; congruence].
    apply Hrow in H2 as [[H2 _] | ->]; [| simpl in S2; congruence].
    eapply (siblings_agree st Ha); eauto.
  - intros v v' H1 H2 S1 S2 Hname.
    apply Hrow in H1 as [[H1 O1] | ->]; apply Hrow in H2 as [[H2 O2] | ->].
    + apply (standalone_names st Hso); auto.
    + exfalso. simpl in Hname.
      apply (proj1 (Hother v H1 (Hoth v O1))). exact Hname.
    + exfalso. simpl in Hname.
      apply (proj1 (Hother v' H2 (Hoth v' O2))). symmetry. exact Hname.
    + reflexivity.
  - intros v H1 S1. apply Hrow in H1 as [[H1 _] | ->];
      [apply (standalone_range st Hso); auto | simpl; exact Hr].
  - intros v H1 S1. apply Hrow in H1 as [[H1 _] | ->];
      [apply (standalone_code st Hso); auto |].
    simpl. split; [exact Hne |]. rewrite Hc. apply normalize_idem.
Qed.

(** Every row of the table of sets after a save: the saved set, with the
    name and the dates of the form, or an unchanged row with another key. *)
Lemma save_effect_set_fields st inst d t codes x :
  Forall (fun s => VoucherSet.id s < next_set_id st) (voucher_sets st) ->
  In x (voucher_sets (save_effect inst d t codes st)) ->
  (VoucherSet.id x = VoucherSet.id (saved_instance inst d t st)
   /\ VoucherSet.name x = VoucherSetForm.name d
   /\ VoucherSet.start_datetime x = VoucherSetForm.start_datetime d
   /\ VoucherSet.end_datetime x = VoucherSetForm.end_datetime d)
  \/ (In x (voucher_sets st)
      /\ VoucherSet.id x <> VoucherSet.id (saved_instance inst d t st)).
Proof.
  intros Hb Hx.
  assert (Hs : forall y, In y (saved_sets inst d t st) ->
    (VoucherSet.id y = VoucherSet.id (saved_instance inst d t st)
     /\ VoucherSet.name y = VoucherSetForm.name d
     /\ VoucherSet.start_datetime y = VoucherSetForm.start_datetime d
     /\ VoucherSet.end_datetime y = VoucherSetForm.end_datetime d)
    \/ (In y (voucher_sets st)
        /\ VoucherSet.id y <> VoucherSet.id (saved_instance inst d t st))).
  { intros y Hy. apply (In_saved_sets st inst d t y Hb) in Hy as [-> | Hy];
      [left | right; exact Hy].
    destruct inst; simpl; auto. }
  unfold save_effect in Hx. cbn [voucher_sets] in Hx.
  destruct codes as [|c codes]; [now apply Hs |].
  apply In_update_where in Hx as (y & Hy & ->).
  apply Hs in Hy as [Hy | [Hy Hne]].
  - left. destruct (set_has_id _ y); simpl; exact Hy.
  - right. unfold set_has_id.
    pose proof Hne as Hne'. apply Nat.eqb_neq in Hne'. rewrite Hne'. auto.
Qed.

(** Every voucher after a save: an untouched voucher outside the set, or a
    voucher of the set that carries the form's values. *)
Lemma save_effect_rows st inst d t codes v' :
  In v' (vouchers (save_effect inst d t codes st)) ->
  (In v' (vouchers st) /\ in_set (VoucherSet.id (saved_instance inst d t st)) v' = false)
  \/ (Voucher.voucher_set v' = Some (VoucherSet.id (saved_instance inst d t st))
      /\ Voucher.name v' = VoucherSetForm.name d
      /\ Voucher.start_datetime v' = VoucherSetForm.start_datetime d
      /\ Voucher.end_datetime v' = VoucherSetForm.end_datetime d
      /\ Voucher.usage v' = VoucherSetForm.usage d
      /\ Voucher.offers v' = VoucherSetForm.offers d).
Proof.
  unfold save_effect. cbn [vouchers]. intros Hv'.
  assert (Hsf : VoucherSet.name (saved_instance inst d t st) = VoucherSetForm.name d
                /\ VoucherSet.start_datetime (saved_instance inst d t st)
                   = VoucherSetForm.start_datetime d
                /\ VoucherSet.end_datetime (saved_instance inst d t st)
                   = VoucherSetForm.end_datetime d)
    by (destruct inst; simpl; auto).
  destruct Hsf as (Hn & Hs & He).
  apply in_app_iff in Hv' as [Hv' | Hv'].
  - apply in_map_iff in Hv' as (v & <- & Hv). unfold refresh.
    destruct (in_set _ v) eqn:E; [right | left; auto].
    simpl. rewrite Hn, Hs, He. repeat split; auto.
    unfold in_set in E. destruct (Voucher.voucher_set v) as [k|]; [| discriminate E].
    apply Nat.eqb_eq in E. now subst k.
  - right. apply new_vouchers_In in Hv' as (i & c & -> & _ & _). simpl.
    rewrite Hn, Hs, He. repeat split; auto.
Qed.

Lemma agree_save st inst d t codes :
  Forall (fun s => VoucherSet.id s < next_set_id st) (voucher_sets st) ->
  sets_agree st /\ standalone_ok st ->
  sets_agree (save_effect inst d t codes st)
  /\ standalone_ok (save_effect inst d t codes st).
Proof.
  intros Hb [Ha Hso].
  pose proof (save_effect_rows st inst d t codes) as Hrow.
  set (pk := VoucherSet.id (saved_instance inst d t st)) in *.
  assert (Hout : forall v k, in_set pk v = false -> Voucher.voucher_set v = Some k ->
                             k <> pk).
  { intros v k Hv Hk ->. unfold in_set in Hv. rewrite Hk, Nat.eqb_refl in Hv.
    discriminate Hv. }
  split; constructor.
  - intros v' x Hv' Hx Hset.
    apply (save_effect_set_fields st inst d t codes x Hb) in Hx
      as [(Hid & Hn & Hst & He) | (Hx & Hne)].
    + apply Hrow in Hv' as [[Hv' Hnot] | (Hvs & Hn' & Hs' & He' & _)].
      * exfalso. apply (Hout v' _ Hnot Hset). exact Hid.
      * rewrite Hn, Hst, He. auto.
    + apply Hrow in Hv' as [[Hv' Hnot] | (Hvs & _)].
      * apply (child_fields st Ha); auto.
      * exfalso. apply Hne. fold pk. congruence.
  - intros v v' k H1 H2 S1 S2.
    apply Hrow in H1 as [[H1 N1] | (V1 & _ & _ & _ & U1 & O1)];
      apply Hrow in H2 as [[H2 N2] | (V2 & _ & _ & _ & U2 & O2)].
    + eapply (siblings_agree st Ha); eauto.
    + exfalso. apply (Hout v k N1 S1). congruence.
    + exfalso. apply (Hout v' k N2 S2). congruence.
    + split; congruence.
  - intros v v' H1 H2 S1 S2.
    apply Hrow in H1 as [[H1 _] | (V1 & _)]; [| congruence].
    apply Hrow in H2 as [[H2 _] | (V2 & _)]; [| congruence].
    apply (standalone_names st Hso); auto.
  - intros v H1 S1. apply Hrow in H1 as [[H1 _] | (V1 & _)]; [| congruence].
    apply (standalone_range st Hso); auto.
  - intros v H1 S1. apply Hrow in H1 as [[H1 _] | (V1 & _)]; [| congruence].
    apply (standalone_code st Hso); auto.
Qed.

Lemma handle_agree op w :
  store_ok (db w) -> sets_agree (db w) /\ standalone_ok (db w) ->
  sets_agree (db (snd (handle op w))) /\ standalone_ok (db (snd (handle op w))).
Proof.
  intros Hok Hinv.
  assert (Hsave : forall op', op' = op ->
            match op' with
            | CreateVoucherSet _ | UpdateVoucherSet _ _ => True
            | _ => False
            end ->
            sets_agree (db (snd (handle op w))) /\ standalone_ok (db (snd (handle op w)))).
  { intros op' -> Hop.
    destruct (set_post_cases op w Hop) as [-> | (inst & d' & _ & _ & ->)];
      [exact Hinv |].
    destruct (save_cases inst d' w Hok) as [-> | (codes & _ & ->)]; [exact Hinv |].
    apply agree_save; [apply (set_ids_bound _ Hok) | exact Hinv]. }
  destruct op as [d|pk d|pk|d|pk d|pk]; try (now apply (Hsave _ eq_refl)); simpl.
  - destruct (create_post_cases d w (voucher_ids_bound _ Hok))
      as [-> | (c & Hvalid & _ & ->)]; [exact Hinv |].
    now apply (agree_append _ d).
  - destruct (update_post_cases pk d w)
      as [-> | (voucher & c & Hget & Hset & Hvalid & _ & ->)]; [exact Hinv |].
    now apply (agree_edit _ pk voucher d).
  - destruct (delete_cases pk w) as [-> | (obj & _ & _ & ->)]; [exact Hinv |].
    now apply agree_after_delete.
  - destruct (delete_set_cases pk w) as [-> | (object & _ & ->)]; [exact Hinv |].
    revert Hinv. apply rows_shrink; simpl.
    + intros v Hv. apply filter_In in Hv. tauto.
    + intros s' Hs'. apply filter_In in Hs' as [Hs' _]. exists s'. auto.
Qed.

(** In every store the dashboard can reach, the vouchers of a set agree with
    the set and with each other, and the standalone vouchers are well
    formed. *)
Lemma reachable_agree st : reachable st -> sets_agree st /\ standalone_ok st.
Proof.
  induction 1 as [|st op r f t Hr IH].
  - split; constructor; simpl; intros; contradiction.
  - apply (handle_agree op (mkWorld st r f t)); [| exact IH].
    now apply reachable_ok.
Qed.

Lemma two_vouchers_reachable : reachable two_vouchers.
Proof. apply reachable_step, reachable_step, reachable_empty. Qed.

Lemma easter_store_reachable : reachable easter_store.
Proof. apply reachable_step, spring_store_reachable. Qed.

(** ** The vouchers of a set *)

(** X4: in every store the dashboard can reach, a voucher of a set carries the
    name and the date range of its set: the set form writes them to every
    voucher it owns and to every voucher it creates. *)
Theorem set_vouchers_carry_set_fields st v s :
  reachable st ->
  In v (vouchers st) -> In s (voucher_sets st) ->
  Voucher.voucher_set v = Some (VoucherSet.id s) ->
  Voucher.name v = VoucherSet.name s
  /\ Voucher.start_datetime v = VoucherSet.start_datetime s
  /\ Voucher.end_datetime v = VoucherSet.end_datetime s.
Proof.
  intros Hr. apply reachable_agree in Hr as [Ha _]. apply (child_fields st Ha).
Qed.

Lemma set_vouchers_carry_set_fields_witness :
  Voucher.name spring_voucher = VoucherSet.name spring_set
  /\ Voucher.start_datetime spring_voucher = VoucherSet.start_datetime spring_set
  /\ Voucher.end_datetime spring_voucher = VoucherSet.end_datetime spring_set.
Proof.
  apply (set_vouchers_carry_set_fields easter_store spring_voucher spring_set).
  - exact easter_store_reachable.
  - vm_compute. left. reflexivity.
  - vm_compute. left. reflexivity.
  - reflexivity.
Defined.

(** The values read from the first voucher of a set are those of every
    voucher of the set when siblings agree. *)
Lemma initial_of_siblings st s u o :
  sets_agree st ->
  VoucherSetUpdateView.get_initial s st = Some (u, o) ->
  forall v, In v (vouchers st) -> Voucher.voucher_set v = Some (VoucherSet.id s) ->
            Voucher.usage v = u /\ Voucher.offers v = o.
Proof.
  intros Ha. unfold VoucherSetUpdateView.get_initial, vouchers_of.
  destruct (List.filter _ _) as [|first rest] eqn:E; [discriminate |].
  intros Hinit. inversion Hinit; subst u o.
  assert (Hf : In first (List.filter (in_set (VoucherSet.id s)) (vouchers st)))
    by (rewrite E; now left).
  apply filter_In in Hf as [Hf Hfs].
  unfold in_set in Hfs. destruct (Voucher.voucher_set first) as [k|] eqn:Ek;
    [| discriminate Hfs].
  apply Nat.eqb_eq in Hfs. subst k.
  intros v Hv Hset. apply (siblings_agree st Ha v first _ Hv Hf Hset Ek).
Qed.



(** ** Standalone vouchers *)

(** X6: in every store the dashboard can reach, two different vouchers that
    belong to no set never share a name: the name check of the voucher form
    rejects it.  (Vouchers of a set do share the name of the set.) *)
Theorem standalone_names_distinct st v v' :
  reachable st ->
  In v (vouchers st) -> In v' (vouchers st) ->
  Voucher.voucher_set v = None -> Voucher.voucher_set v' = None ->
  v <> v' -> Voucher.name v <> Voucher.name v'.
Proof.
  intros Hr Hv Hv' Hs Hs' Hne Hname. apply Hne.
  apply reachable_agree in Hr as [_ Hso]. now apply (standalone_names st Hso).
Qed.

Lemma standalone_names_distinct_witness :
  Voucher.name easter_voucher
  <> Voucher.name (Voucher.mk 1 "A" "CODEA" SINGLE_USE 10 20 None ∅ 1 0 0).
Proof.
  apply (standalone_names_distinct
           (db (snd (handle (CreateVoucher easter) (mkWorld two_vouchers [] None 9))))).
  - apply reachable_step, two_vouchers_reachable.
  - vm_compute. right. right. left. reflexivity.
  - vm_compute. left. reflexivity.
  - reflexivity.
  - reflexivity.
  - discriminate.
Defined.

(** X7: in every store the dashboard can reach, a voucher that belongs to no set
    has a code that is not empty and is its own [strip().upper()], and its
    date range is in order: each of them went through the voucher form. *)
Theorem standalone_vouchers_clean st v :
  reachable st ->
  In v (vouchers st) -> Voucher.voucher_set v = None ->
  Voucher.code v <> EmptyString
  /\ Str.upper (Str.strip (Voucher.code v)) = Voucher.code v
  /\ (Voucher.start_datetime v <= Voucher.end_datetime v)%Z.
Proof.
  intros Hr Hv Hset. apply reachable_agree in Hr as [_ Hso].
  destruct (standalone_code st Hso v Hv Hset) as [Hne Hfix].
  repeat split; auto. apply (standalone_range st Hso v Hv Hset).
Qed.

Lemma standalone_vouchers_clean_witness :
  Voucher.code easter_voucher <> EmptyString
  /\ Str.upper (Str.strip (Voucher.code easter_voucher)) = Voucher.code easter_voucher
  /\ (Voucher.start_datetime easter_voucher <= Voucher.end_datetime easter_voucher)%Z.
Proof.
  apply (standalone_vouchers_clean easter_store easter_voucher).
  - exact easter_store_reachable.
  - vm_compute. right. right. left. reflexivity.
  - reflexivity.
Defined.

(** ** The update view *)

Lemma update_where_id {A} (p : A -> bool) f (l : list A) :
  (forall y, In y l -> p y = true -> f y = y) -> update_where p f l = l.
Proof.
  intros H. unfold update_where. rewrite <- (map_id l) at 2. apply map_ext_in.
  intros y Hy. destruct (p y) eqn:E; auto.
Qed.

Lemma get_ext_in {A} (p q : A -> bool) (l : list A) :
  (forall y, In y l -> p y = q y) -> get p l = get q l.
Proof. intros H. unfold get. now rewrite (List.filter_ext_in p q l H). Qed.

(** No other voucher holds the cleaned code of a valid form, so
    [voucher.save()] meets no clash. *)
Lemma valid_no_clash voucher st d c pk :
  get (has_id pk) (vouchers st) = Found voucher ->
  VoucherForm.is_valid (Some voucher) st d = Valid c ->
  existsb (fun r => has_code (VoucherForm.code c) r && negb (has_id pk r)) (vouchers st)
  = false.
Proof.
  intros Hget Hvalid. apply valid_facts in Hvalid as (_ & _ & _ & _ & Hother).
  apply get_Found_In in Hget as [_ Hid]. unfold has_id in Hid. apply Nat.eqb_eq in Hid.
  apply not_true_is_false. intros Hex. apply existsb_exists in Hex as (r & Hr & Hp).
  apply andb_true_iff in Hp as [Hc Hn].
  unfold has_code in Hc. apply String.eqb_eq in Hc.
  assert (Ho : VoucherForm.is_other (Some voucher) r = true)
    by (unfold VoucherForm.is_other; rewrite Hid; exact Hn).
  apply (proj2 (Hother r Hr Ho)). exact Hc.
Qed.

Lemma update_post_run pk d w voucher c :
  faults w = None ->
  get (has_id pk) (vouchers (db w)) = Found voucher ->
  Voucher.voucher_set voucher = None ->
  VoucherForm.is_valid (Some voucher) (db w) d = Valid c ->
  VoucherUpdateView.post pk d w
  = (Ok (HttpResponseRedirect voucher_list),
     set_db (with_vouchers (update_where (has_id pk) (edited c)) (db w)) w).
Proof.
  intros Hf Hget Hset Hvalid.
  pose proof (valid_no_clash _ _ _ _ _ Hget Hvalid) as Hclash.
  pose proof (get_Found_In _ _ _ Hget) as [_ Hid].
  unfold has_id in Hid. apply Nat.eqb_eq in Hid.
  unfold VoucherUpdateView.post, VoucherUpdateView.get_voucher.
  unfold bind at 1 2. unfold query at 1. rewrite Hget. unfold ret at 1.
  rewrite Hset. unfold bind at 1. unfold query at 1. rewrite Hvalid.
  unfold process_form, VoucherUpdateView.form_valid, atomic, voucher_save, offers_set.
  unfold bind, query. rewrite Hid, Hclash.
  rewrite write_total by exact Hf.
  rewrite write_total by exact Hf.
  unfold ret, set_db, with_vouchers. simpl. do 3 f_equal.
  rewrite update_where_twice by (intros x; reflexivity). reflexivity.
Qed.

(** X8: on a database without faults, a valid edit of a voucher that belongs to
    no set always answers with the redirect to the voucher list and rewrites
    the row with the key [pk]: name, code, usage, dates and offers are those
    of the cleaned data; the key, the owning set and the creation date stay;
    every other row is untouched. *)
Theorem update_voucher_writes_row pk d w voucher c :
  faults w = None ->
  get (has_id pk) (vouchers (db w)) = Found voucher ->
  Voucher.voucher_set voucher = None ->
  VoucherForm.is_valid (Some voucher) (db w) d = Valid c ->
  exists w',
    VoucherUpdateView.post pk d w = (Ok (HttpResponseRedirect voucher_list), w')
    /\ voucher_sets (db w') = voucher_sets (db w)
    /\ forall v', In v' (vouchers (db w')) <->
         (In v' (vouchers (db w)) /\ Voucher.id v' <> pk)
         \/ v' = Voucher.mk pk (VoucherForm.name c) (VoucherForm.code c)
                   (VoucherForm.usage c) (VoucherForm.start_datetime c)
                   (VoucherForm.end_datetime c) None (VoucherForm.offers c)
                   (Voucher.date_created voucher)
                   (Voucher.num_basket_additions voucher) (Voucher.num_orders voucher).
Proof.
  intros Hf Hget Hset Hvalid. eexists. split; [now apply (update_post_run pk d w voucher c) |].
  simpl. split; [reflexivity |].
  pose proof (get_Found_In _ _ _ Hget) as [Hvin Hid].
  assert (Hrow : edited c voucher
                 = Voucher.mk pk (VoucherForm.name c) (VoucherForm.code c)
                     (VoucherForm.usage c) (VoucherForm.start_datetime c)
                     (VoucherForm.end_datetime c) None (VoucherForm.offers c)
                     (Voucher.date_created voucher)
                     (Voucher.num_basket_additions voucher) (Voucher.num_orders voucher)).
  { unfold edited, Voucher.offers_set, Voucher.assign. simpl. rewrite Hset.
    unfold has_id in Hid. apply Nat.eqb_eq in Hid. now rewrite Hid. }
  rewrite <- Hrow. intros v'. rewrite In_update_where. split.
  - intros (y & Hy & ->). destruct (has_id pk y) eqn:E.
    + right. f_equal. apply (get_Found_only _ _ _ _ Hget Hy E).
    + left. split; [exact Hy |]. unfold has_id in E. now apply Nat.eqb_neq in E.
  - intros [[Hv' Hne] | ->].
    + exists v'. split; [exact Hv' |]. unfold has_id.
      apply Nat.eqb_neq in Hne. now rewrite Hne.
    + exists voucher. split; [exact Hvin |]. now rewrite Hid.
Qed.

Lemma update_voucher_writes_row_witness :
  exists w',
    VoucherUpdateView.post 3 (VoucherForm.mk "Whitsun" " egg30" 15 25 MULTI_USE {[ 8 ]})
      (mkWorld easter_store [] None 11)
    = (Ok (HttpResponseRedirect voucher_list), w')
    /\ In (Voucher.mk 3 "Whitsun" "EGG30" MULTI_USE 15 25 None {[ 8 ]} 9 0 0)
          (vouchers (db w')).
Proof.
  destruct (update_voucher_writes_row 3
              (VoucherForm.mk "Whitsun" " egg30" 15 25 MULTI_USE {[ 8 ]})
              (mkWorld easter_store [] None 11) easter_voucher
              (VoucherForm.mk "Whitsun" "EGG30" 15 25 MULTI_USE {[ 8 ]})
              eq_refl ltac:(vm_compute; reflexivity) eq_refl
              ltac:(vm_compute; reflexivity))
    as (w' & Hpost & _ & Hrows).
  exists w'. split; [exact Hpost |]. apply Hrows. right. reflexivity.
Defined.

(** X9: the edit form of a voucher starts from the columns of the voucher.
    Submitting them unchanged is accepted and changes nothing, for every
    voucher that belongs to no set in a store the dashboard can reach, when
    no voucher of a set carries the same name and the database has no
    fault. *)
Theorem update_with_initial_changes_nothing st v r t :
  reachable st ->
  In v (vouchers st) -> Voucher.voucher_set v = None ->
  (forall v', In v' (vouchers st) -> Voucher.name v' = Voucher.name v ->
              Voucher.voucher_set v' = None) ->
  VoucherUpdateView.post (Voucher.id v) (VoucherUpdateView.get_initial v)
    (mkWorld st r None t)
  = (Ok (HttpResponseRedirect voucher_list), mkWorld st r None t).
Proof.
  intros Hr Hv Hset Hnames.
  pose proof (reachable_ok st Hr) as Hok.
  apply reachable_agree in Hr as [_ Hso].
  pose proof (get_voucher_by_key _ v (voucher_ids_unique st Hok) Hv) as Hget.
  destruct (standalone_code st Hso v Hv Hset) as [Hne Hfix].
  pose proof (standalone_range st Hso v Hv Hset) as Hrange.
  assert (Hvalid : VoucherForm.is_valid (Some v) st (VoucherUpdateView.get_initial v)
                   = Valid (VoucherUpdateView.get_initial v)).
  { unfold VoucherForm.is_valid, VoucherUpdateView.get_initial. simpl.
    assert (Hn : VoucherForm.clean_name (Some v) st (Voucher.name v)
                 = Clean (Voucher.name v)).
    { unfold VoucherForm.clean_name.
      rewrite (get_ext_in (has_name (Voucher.name v)) (has_id (Voucher.id v))).
      - now rewrite Hget, is_other_self.
      - intros y Hy. destruct (has_id (Voucher.id v) y) eqn:E.
        + rewrite (get_Found_only _ _ _ _ Hget Hy E). unfold has_name.
          apply String.eqb_refl.
        + apply not_true_is_false. intros Hp. unfold has_name in Hp.
          apply String.eqb_eq in Hp.
          assert (y = v)
            by (apply (standalone_names st Hso); auto).
          subst y. unfold has_id in E. rewrite Nat.eqb_refl in E. discriminate E. }
    assert (Hc : VoucherForm.clean_code (Some v) st (Voucher.code v)
                 = Clean (Voucher.code v)).
    { unfold VoucherForm.clean_code. rewrite Hfix, (truthy_nonempty _ Hne). simpl.
      now rewrite (get_by_code _ v (codes_unique st Hok) Hv), Nat.eqb_refl. }
    rewrite Hn, Hc. unfold VoucherForm.clean. simpl.
    destruct (Z.ltb_spec (Voucher.end_datetime v) (Voucher.start_datetime v));
      [lia | reflexivity]. }
  rewrite (update_post_run (Voucher.id v) _ (mkWorld st r None t) v
             (VoucherUpdateView.get_initial v) eq_refl Hget Hset Hvalid).
  f_equal. unfold set_db, with_vouchers. simpl.
  rewrite update_where_id; [now destruct st |].
  intros y Hy Hp. rewrite (get_Found_only _ _ _ _ Hget Hy Hp).
  now destruct v.
Qed.

Lemma update_with_initial_changes_nothing_witness :
  VoucherUpdateView.post 3 (VoucherUpdateView.get_initial easter_voucher)
    (mkWorld easter_store [] None 11)
  = (Ok (HttpResponseRedirect voucher_list), mkWorld easter_store [] None 11).
Proof.
  apply (update_with_initial_changes_nothing easter_store easter_voucher [] 11).
  - exact easter_store_reachable.
  - vm_compute. right. right. left. reflexivity.
  - reflexivity.
  - vm_compute. intros v' [<- | [<- | [<- | []]]]; simpl; intros H;
      (discriminate H || reflexivity).
Defined.

(** X10: a voucher that belongs to a set cannot be edited on its own: whatever
    was submitted, the update view answers with the redirect to the edit page
    of the set and writes nothing.  For a key that no voucher has, the view
    lets DoesNotExist escape. *)
Theorem update_guards pk d w :
  (forall voucher set_pk,
     get (has_id pk) (vouchers (db w)) = Found voucher ->
     Voucher.voucher_set voucher = Some set_pk ->
     VoucherUpdateView.post pk d w
     = (Ok (HttpResponseRedirect (voucher_set_update set_pk)), w))
  /\ (get (has_id pk) (vouchers (db w)) = NotFound ->
      VoucherUpdateView.post pk d w = (Raise DoesNotExist, w)).
Proof.
  split.
  - intros voucher set_pk Hget Hset.
    unfold VoucherUpdateView.post, VoucherUpdateView.get_voucher.
    unfold bind at 1 2. unfold query at 1. rewrite Hget. unfold ret at 1.
    now rewrite Hset.
  - intros Hget.
    unfold VoucherUpdateView.post, VoucherUpdateView.get_voucher.
    unfold bind at 1 2. unfold query at 1. now rewrite Hget.
Qed.

Lemma update_guards_witness :
  VoucherUpdateView.post 1 (VoucherForm.mk "Whitsun" "EGG30" 15 25 MULTI_USE ∅)
    (mkWorld easter_store [] None 11)
  = (Ok (HttpResponseRedirect (voucher_set_update 1)), mkWorld easter_store [] None 11)
  /\ VoucherUpdateView.post 7 (VoucherForm.mk "Whitsun" "EGG30" 15 25 MULTI_USE ∅)
       (mkWorld easter_store [] None 11)
     = (Raise DoesNotExist, mkWorld easter_store [] None 11).
Proof.
  split.
  - apply (proj1 (update_guards 1 (VoucherForm.mk "Whitsun" "EGG30" 15 25 MULTI_USE ∅)
                    (mkWorld easter_store [] None 11)) spring_voucher 1).
    + vm_compute. reflexivity.
    + reflexivity.
  - apply (proj2 (update_guards 7 (VoucherForm.mk "Whitsun" "EGG30" 15 25 MULTI_USE ∅)
                    (mkWorld easter_store [] None 11))).
    vm_compute. reflexivity.
Defined.

(** ** The delete view *)

Lemma delete_run pk w obj :
  faults w = None ->
  get (has_id pk) (vouchers (db w)) = Found obj ->
  VoucherDeleteView.delete pk w
  = (Ok (HttpResponseRedirect (VoucherDeleteView.get_success_url obj)),
     set_db (after_delete obj (db w)) w).
Proof.
  intros Hf Hget.
  unfold VoucherDeleteView.delete, atomic, get_object, voucher_delete, after_delete.
  unfold bind at 1 2 3. unfold query at 1. rewrite Hget. unfold ret at 1.
  rewrite write_total by exact Hf. unfold bind.
  destruct (Voucher.voucher_set obj) as [sid|].
  - unfold update_count. rewrite write_total by exact Hf. reflexivity.
  - reflexivity.
Qed.

Lemma filter_split_length {A} (p : A -> bool) (l : list A) :
  length (List.filter (fun x => negb (p x)) l) + length (List.filter p l) = length l.
Proof.
  induction l as [|x l IH]; simpl; [reflexivity |].
  destruct (p x); simpl; lia.
Qed.

(** X11: on a database without faults, deleting an existing voucher always
    answers, with the redirect to the page of its set when it has one and to
    the voucher list otherwise; the voucher is gone, every other voucher is
    still there, and no set is added or removed. *)
Theorem delete_removes_exactly pk w obj :
  faults w = None ->
  get (has_id pk) (vouchers (db w)) = Found obj ->
  exists w',
    VoucherDeleteView.delete pk w
    = (Ok (HttpResponseRedirect
             match Voucher.voucher_set obj with
             | Some set_pk => voucher_set_detail set_pk
             | None => voucher_list
             end), w')
    /\ (forall v, In v (vouchers (db w')) <-> In v (vouchers (db w)) /\ v <> obj)
    /\ S (length (vouchers (db w'))) = length (vouchers (db w))
    /\ map VoucherSet.id (voucher_sets (db w')) = map VoucherSet.id (voucher_sets (db w)).
Proof.
  intros Hf Hget. eexists. split; [apply (delete_run pk w obj Hf Hget) |].
  pose proof (get_Found_In _ _ _ Hget) as [Hin Hid].
  assert (Hpk : Voucher.id obj = pk) by (unfold has_id in Hid; now apply Nat.eqb_eq).
  assert (Hv : vouchers (after_delete obj (db w))
               = List.filter (fun r => negb (has_id pk r)) (vouchers (db w))).
  { unfold after_delete. rewrite Hpk. now destruct (Voucher.voucher_set obj). }
  assert (Hone : List.filter (has_id pk) (vouchers (db w)) = [obj]).
  { unfold get in Hget. destruct (List.filter _ _) as [|x [|y r]]; congruence. }
  cbn [db set_db]. rewrite Hv. split; [| split].
  - intros v. rewrite filter_In. split.
    + intros [Hv' Hp]. split; [exact Hv' |]. intros ->. rewrite Hid in Hp. discriminate Hp.
    + intros [Hv' Hne]. split; [exact Hv' |]. apply negb_true_iff.
      apply not_true_is_false. intros Hp. apply Hne.
      apply (get_Found_only _ _ _ _ Hget Hv' Hp).
  - pose proof (filter_split_length (has_id pk) (vouchers (db w))) as Hlen.
    rewrite Hone in Hlen. simpl in Hlen. lia.
  - unfold after_delete. destruct (Voucher.voucher_set obj) as [sid|]; simpl;
      [| reflexivity].
    now apply map_update_where.
Qed.

Lemma delete_removes_exactly_witness :
  exists w',
    VoucherDeleteView.delete 1 (mkWorld easter_store [] None 11)
    = (Ok (HttpResponseRedirect (voucher_set_detail 1)), w')
    /\ ~ In spring_voucher (vouchers (db w'))
    /\ In easter_voucher (vouchers (db w')).
Proof.
  destruct (delete_removes_exactly 1 (mkWorld easter_store [] None 11) spring_voucher
              eq_refl ltac:(vm_compute; reflexivity))
    as (w' & Hdel & Hrows & _).
  exists w'. split; [exact Hdel |]. split.
  - intros Hin. apply Hrows in Hin as [_ Hne]. now apply Hne.
  - apply Hrows. split; [vm_compute; right; right; left; reflexivity | discriminate].
Defined.

(** X12: for a key that no voucher has, the delete view answers Http404 and
    writes nothing. *)
Theorem delete_missing_is_404 pk w :
  get (has_id pk) (vouchers (db w)) = NotFound ->
  VoucherDeleteView.delete pk w = (Raise Http404, w).
Proof.
  intros Hget. unfold VoucherDeleteView.delete, atomic, get_object.
  unfold bind at 1 2. unfold query at 1. rewrite Hget. unfold raise.
  now destruct w.
Qed.

Lemma delete_missing_is_404_witness :
  VoucherDeleteView.delete 7 (mkWorld easter_store [] None 11)
  = (Raise Http404, mkWorld easter_store [] None 11).
Proof.
  apply (delete_missing_is_404 7 (mkWorld easter_store [] None 11)).
  vm_compute. reflexivity.
Defined.

(** ** Transactions of the voucher views *)

(** X13: the three views that write vouchers run in a transaction: a request to
    create, edit or delete a voucher that ends in an exception leaves the
    database as it was, also when the exception comes after a write. *)
Theorem voucher_views_atomic w e w' :
  (forall d, VoucherCreateView.post d w = (Raise e, w') -> db w' = db w)
  /\ (forall pk d, VoucherUpdateView.post pk d w = (Raise e, w') -> db w' = db w)
  /\ (forall pk, VoucherDeleteView.delete pk w = (Raise e, w') -> db w' = db w).
Proof.
  split; [| split].
  - intros d H. unfold VoucherCreateView.post, bind, query, process_form in H.
    destruct (VoucherForm.is_valid None (db w) d) as [c|errs|e'].
    + now apply atomic_Raise in H.
    + discriminate H.
    + inversion H; subst. reflexivity.
  - intros pk d H.
    destruct (update_post_cases pk d w) as [Hdb | (voucher & c & _ & _ & _ & Hfst & _)].
    + rewrite H in Hdb. exact Hdb.
    + rewrite H in Hfst. discriminate Hfst.
  - intros pk H. unfold VoucherDeleteView.delete in H. now apply atomic_Raise in H.
Qed.

Lemma voucher_views_atomic_witness :
  fst (VoucherDeleteView.delete 1 (mkWorld easter_store [] (Some 1) 11))
  = Raise DatabaseError
  /\ db (snd (VoucherDeleteView.delete 1 (mkWorld easter_store [] (Some 1) 11)))
     = easter_store.
Proof.
  split; [vm_compute; reflexivity |].
  apply (proj2 (proj2 (voucher_views_atomic (mkWorld easter_store [] (Some 1) 11)
                         DatabaseError
                         (snd (VoucherDeleteView.delete 1
                                 (mkWorld easter_store [] (Some 1) 11))))) 1).
  vm_compute. reflexivity.
Defined.

(** ** Searching the voucher list *)

Lemma sorted_vouchers_perm st GET :
  sort_queryset (order_by "-date_created" (vouchers st)) GET
                VoucherListView.allowed_sorts "-date_created"
  ≡ₚ vouchers st.
Proof. rewrite sort_queryset_perm. apply order_by_perm. Qed.

(** The list for a search by code only. *)
Lemma get_queryset_code_only CharField NullBooleanField st now GET data :
  GET <> [] ->
  VoucherSearchForm.is_valid CharField NullBooleanField GET = Some data ->
  VoucherSearchForm.name data = EmptyString ->
  VoucherSearchForm.code data <> EmptyString ->
  VoucherSearchForm.is_active data = None ->
  VoucherSearchForm.in_set data = None ->
  VoucherListView.get_queryset CharField NullBooleanField st now GET
  = List.filter (has_code (VoucherSearchForm.code data))
      (sort_queryset (order_by "-date_created" (vouchers st)) GET
                     VoucherListView.allowed_sorts "-date_created").
Proof.
  intros Hne Hvalid Hname Hcode Hactive Hset. unfold VoucherListView.get_queryset.
  destruct GET as [|kv GET]; [contradiction |].
  rewrite Hvalid, Hname, Hactive, Hset, (truthy_nonempty _ Hcode). reflexivity.
Qed.

(** X14: the search form puts the code in upper case before the list is filtered
    by it, and the filter asks for the exact code.  So in every store the
    dashboard can reach, a search by code alone, typed in any letter case,
    lists the one voucher whose code is the text in upper case, and nothing
    else. *)
Theorem code_search_finds_voucher CharField NullBooleanField st now GET data text v :
  reachable st ->
  In v (vouchers st) -> Voucher.code v <> EmptyString ->
  GET <> [] ->
  VoucherSearchForm.is_valid CharField NullBooleanField GET = Some data ->
  VoucherSearchForm.name data = EmptyString ->
  VoucherSearchForm.is_active data = None ->
  VoucherSearchForm.in_set data = None ->
  CharField (GET_get "code" GET) = Some text ->
  Str.upper text = Voucher.code v ->
  VoucherListView.get_queryset CharField NullBooleanField st now GET = [v].
Proof.
  intros Hr Hv Hne HGET Hvalid Hname Hactive Hset Htext Hup.
  assert (Hcode : VoucherSearchForm.code data = Voucher.code v).
  { unfold VoucherSearchForm.is_valid in Hvalid. rewrite Htext in Hvalid.
    destruct (CharField (GET_get "name" GET)); [| discriminate Hvalid].
    destruct (NullBooleanField (GET_get "is_active" GET)); [| discriminate Hvalid].
    destruct (NullBooleanField (GET_get "in_set" GET)); [| discriminate Hvalid].
    inversion Hvalid; subst data. simpl. exact Hup. }
  rewrite (get_queryset_code_only CharField NullBooleanField st now GET data);
    auto; [| now rewrite Hcode].
  rewrite Hcode. unfold has_code.
  apply (filter_key Voucher.code String.eqb _ v String.eqb_eq).
  - rewrite (sorted_vouchers_perm st GET). apply (codes_unique st (reachable_ok st Hr)).
  - apply In_sorted_vouchers. exact Hv.
Qed.

Lemma code_search_finds_voucher_witness :
  VoucherListView.get_queryset django_CharField django_NullBooleanField easter_store 12
    [("code", " egg25")]
  = [easter_voucher].
Proof.
  apply (code_search_finds_voucher django_CharField django_NullBooleanField easter_store 12
           [("code", " egg25")] (VoucherSearchForm.mk "" "EGG25" None None) "egg25").
  - exact easter_store_reachable.
  - vm_compute. right. right. left. reflexivity.
  - discriminate.
  - discriminate.
  - vm_compute. reflexivity.
  - reflexivity.
  - reflexivity.
  - reflexivity.
  - vm_compute. reflexivity.
  - vm_compute. reflexivity.
Defined.

(** X15: the list shown before anything was submitted is the list of the search
    that the unsubmitted form displays: [in_set] set to false and every other
    filter empty. *)
Theorem unsubmitted_list_is_not_in_set_search CharField NullBooleanField st now GET :
  GET <> [] ->
  VoucherSearchForm.is_valid CharField NullBooleanField GET
  = Some (VoucherSearchForm.mk EmptyString EmptyString None (Some false)) ->
  no_allowed_sort GET ->
  VoucherListView.get_queryset CharField NullBooleanField st now GET
  = VoucherListView.get_queryset CharField NullBooleanField st now [].
Proof.
  intros Hne Hvalid Hsort. unfold VoucherListView.get_queryset.
  destruct GET as [|kv GET]; [contradiction |].
  rewrite Hvalid. simpl.
  rewrite (sort_queryset_default _ (kv :: GET) Hsort).
  rewrite (sort_queryset_default _ [] I). reflexivity.
Qed.

Lemma unsubmitted_list_is_not_in_set_search_witness :
  VoucherListView.get_queryset django_CharField django_NullBooleanField easter_store 12
    [("in_set", "false")]
  = VoucherListView.get_queryset django_CharField django_NullBooleanField easter_store 12 [].
Proof.
  apply unsubmitted_list_is_not_in_set_search.
  - discriminate.
  - vm_compute. reflexivity.
  - exact I.
Defined.

(** ** The page of a voucher set *)

Lemma in_set_spec pk v : in_set pk v = true <-> Voucher.voucher_set v = Some pk.
Proof.
  unfold in_set. destruct (Voucher.voucher_set v) as [k|]; [| split; discriminate].
  rewrite Nat.eqb_eq. split; congruence.
Qed.

Lemma sorted_set_vouchers_perm st pk GET :
  sort_queryset (order_by "-date_created" (List.filter (in_set pk) (vouchers st))) GET
                VoucherListView.allowed_sorts "-date_created"
  ≡ₚ vouchers_of pk st.
Proof. rewrite sort_queryset_perm. apply order_by_perm. Qed.

(** X16: the page of a set lists vouchers of that set only, whatever the request.
    When neither [name] nor [code] is among the query parameters, or the
    cleaned code is empty, these are all the vouchers of the set; with a code
    they are the vouchers of the set whose code contains it, letter case
    ignored. *)
Theorem set_detail_lists_set_vouchers CharField voucher_set st GET :
  (forall v, In v (VoucherSetDetailView.get_queryset CharField voucher_set st GET) ->
             In v (vouchers st)
             /\ Voucher.voucher_set v = Some (VoucherSet.id voucher_set))
  /\ (GET_has "name" GET || GET_has "code" GET = false
      \/ VoucherSetSearchForm.is_valid CharField GET = Some EmptyString ->
      VoucherSetDetailView.get_queryset CharField voucher_set st GET
      ≡ₚ vouchers_of (VoucherSet.id voucher_set) st)
  /\ (forall code,
        GET_has "name" GET || GET_has "code" GET = true ->
        VoucherSetSearchForm.is_valid CharField GET = Some code ->
        code <> EmptyString ->
        forall v, In v (VoucherSetDetailView.get_queryset CharField voucher_set st GET)
                  <-> In v (vouchers st)
                      /\ Voucher.voucher_set v = Some (VoucherSet.id voucher_set)
                      /\ Str.icontains code (Voucher.code v) = true).
Proof.
  pose proof (sorted_set_vouchers_perm st (VoucherSet.id voucher_set) GET) as HP.
  assert (Hall : forall v,
            In v (sort_queryset
                    (order_by "-date_created"
                       (List.filter (in_set (VoucherSet.id voucher_set)) (vouchers st)))
                    GET VoucherListView.allowed_sorts "-date_created")
            <-> In v (vouchers st)
                /\ Voucher.voucher_set v = Some (VoucherSet.id voucher_set)).
  { intros v. rewrite (perm_In_iff v _ _ HP). unfold vouchers_of.
    now rewrite filter_In, in_set_spec. }
  unfold VoucherSetDetailView.get_queryset.
  split; [| split].
  - intros v Hv. apply Hall.
    destruct (negb _); [exact Hv |].
    destruct (VoucherSetSearchForm.is_valid CharField GET) as [code|]; [| exact Hv].
    destruct (Str.truthy code); [| exact Hv].
    apply filter_In in Hv. tauto.
  - intros [Hsub | Hvalid].
    + rewrite Hsub. exact HP.
    + rewrite Hvalid. simpl. destruct (negb _); exact HP.
  - intros code Hsub Hvalid Hne v.
    rewrite Hsub, Hvalid, (truthy_nonempty _ Hne). simpl.
    rewrite filter_In, Hall. tauto.
Qed.

Lemma set_detail_lists_set_vouchers_witness :
  VoucherSetDetailView.get_queryset django_CharField spring_set easter_store
    [("sort", "num_orders")]
  ≡ₚ vouchers_of 1 easter_store
  /\ (In spring_voucher
         (VoucherSetDetailView.get_queryset django_CharField spring_set easter_store
            [("code", "b")])
      /\ ~ In spring_voucher
             (VoucherSetDetailView.get_queryset django_CharField spring_set easter_store
                [("code", "c")])).
Proof.
  split.
  - apply (proj1 (proj2 (set_detail_lists_set_vouchers django_CharField spring_set
                           easter_store [("sort", "num_orders")]))).
    left. reflexivity.
  - split.
    + apply (proj2 (proj2 (set_detail_lists_set_vouchers django_CharField spring_set
                             easter_store [("code", "b")])) "B");
        [reflexivity | vm_compute; reflexivity | discriminate |].
      split; [vm_compute; left; reflexivity | split; reflexivity].
    + intros Hin.
      apply (proj2 (proj2 (set_detail_lists_set_vouchers django_CharField spring_set
                             easter_store [("code", "c")])) "C") in Hin;
        [| reflexivity | vm_compute; reflexivity | discriminate].
      destruct Hin as (_ & _ & Hin). vm_compute in Hin. discriminate Hin.
Defined.

(** ** The download of the codes of a set *)

Lemma NoDup_map_singleton {A} (l : list A) :
  NoDup l -> NoDup (map (fun x => [x]) l).
Proof.
  induction l as [|x l IH]; simpl; intros H; [constructor |].
  apply NoDup_cons in H as [Hx Hl]. apply NoDup_cons. split; [| now apply IH].
  intros Hin. apply Hx. apply list_elem_of_In, in_map_iff in Hin as (y & Hy & Hin).
  inversion Hy; subst. now apply list_elem_of_In.
Qed.

(** X17: the download of a set writes one row for each voucher of the set, holding
    its code, and leaves the store alone.  In every store the dashboard can
    reach the rows are pairwise different and there are as many as the
    [num_vouchers] recorded on the set.  For a key that no set has the view
    answers Http404. *)
Theorem download_lists_codes pk w :
  reachable (db w) ->
  (forall s, get (set_has_id pk) (voucher_sets (db w)) = Found s ->
     exists rows,
       VoucherSetDownloadView.get pk w = (Ok rows, w)
       /\ (forall c, In [c] rows <->
             exists v, In v (vouchers (db w))
                       /\ Voucher.voucher_set v = Some pk /\ Voucher.code v = c)
       /\ length rows = VoucherSet.num_vouchers s
       /\ NoDup rows)
  /\ (get (set_has_id pk) (voucher_sets (db w)) = NotFound ->
      VoucherSetDownloadView.get pk w = (Raise Http404, w)).
Proof.
  intros Hr. pose proof (reachable_ok _ Hr) as Hok. split.
  - intros s Hget. pose proof (get_Found_In _ _ _ Hget) as [Hs Hid].
    unfold set_has_id in Hid. apply Nat.eqb_eq in Hid.
    eexists. split.
    { unfold VoucherSetDownloadView.get, get_object.
      unfold bind at 1 2. unfold query at 1. rewrite Hget. unfold ret at 1.
      unfold bind, query, ret. rewrite Hid. reflexivity. }
    split; [| split].
    + intros c. rewrite in_map_iff. split.
      * intros (c' & Hc' & Hin). inversion Hc'; subst c'.
        apply in_map_iff in Hin as (v & <- & Hv).
        apply filter_In in Hv as [Hv Hp]. apply in_set_spec in Hp. eauto.
      * intros (v & Hv & Hset & <-). exists (Voucher.code v). split; [reflexivity |].
        apply in_map. apply filter_In. split; [exact Hv | now apply in_set_spec].
    + rewrite !length_map.
      pose proof (num_vouchers_ok _ Hok) as Hn. rewrite Forall_forall in Hn.
      apply list_elem_of_In, Hn in Hs. rewrite Hs, Hid. reflexivity.
    + apply NoDup_map_singleton. apply NoDup_map_filter, (codes_unique _ Hok).
  - intros Hget. unfold VoucherSetDownloadView.get, get_object.
    unfold bind at 1 2. unfold query at 1. now rewrite Hget.
Qed.

Lemma download_lists_codes_witness :
  VoucherSetDownloadView.get 1 (mkWorld easter_store [] None 12)
  = (Ok [["AB"]; ["CD"]], mkWorld easter_store [] None 12)
  /\ VoucherSetDownloadView.get 4 (mkWorld easter_store [] None 12)
     = (Raise Http404, mkWorld easter_store [] None 12).
Proof.
  pose proof (download_lists_codes 1 (mkWorld easter_store [] None 12)
                easter_store_reachable) as [Hrows _].
  pose proof (download_lists_codes 4 (mkWorld easter_store [] None 12)
                easter_store_reachable) as [_ Hmissing].
  split.
  - destruct (Hrows spring_set ltac:(vm_compute; reflexivity)) as (rows & Hget & _).
    vm_compute. reflexivity.
  - apply Hmissing. vm_compute. reflexivity.
Defined.

(** ** Saving a set that needs no new voucher *)

Lemma save_run_no_gap inst d w :
  faults w = None -> store_ok (db w) ->
  VoucherSetForm.count d
  <= vouchers_count (VoucherSet.id (saved_instance inst d (clock w) (db w))) (db w) ->
  exists w',
    VoucherSetForm.save inst d true w
    = (Ok (Some (VoucherSet.id (saved_instance inst d (clock w) (db w)))), w')
    /\ db w' = save_effect inst d (clock w) [] (db w)
    /\ rng w' = rng w.
Proof.
  intros Hf Hok Hle.
  assert (Hdraw : draw_codes
                    (VoucherSetForm.count d
                     - vouchers_count
                         (VoucherSet.id (saved_instance inst d (clock w) (db w))) (db w))
                    (code_in_use (db w)) (VoucherSetForm.code_length d) (rng w)
                  = Some ([], rng w)).
  { replace (VoucherSetForm.count d - _) with 0 by lia. reflexivity. }
  destruct (save_total inst d w [] (rng w) Hf Hdraw) as (r & w' & Hsave).
  exists w'. pose proof Hsave as Hbody. apply atomic_Ok in Hbody.
  apply save_body_Ok in Hbody as (codes & Hdraw' & Hdb & Hres & _);
    [| apply (voucher_ids_unique _ Hok) | apply (voucher_ids_bound _ Hok)].
  rewrite Hdraw in Hdraw'. inversion Hdraw'; subst codes.
  split; [now rewrite Hsave, Hres |]. split; [exact Hdb | congruence].
Qed.

(** X18: when the set already owns as many vouchers as the form asks for, the loop
    that adds vouchers runs zero times: on a database without faults the save
    always returns, draws nothing from the random source, creates no voucher
    and does not recount; the existing vouchers of the set are refreshed in
    place. *)
Theorem save_without_gap inst d w :
  reachable (db w) -> faults w = None ->
  VoucherSetForm.count d
  <= vouchers_count (VoucherSet.id (saved_instance inst d (clock w) (db w))) (db w) ->
  exists w',
    VoucherSetForm.save inst d true w
    = (Ok (Some (VoucherSet.id (saved_instance inst d (clock w) (db w)))), w')
    /\ rng w' = rng w
    /\ next_voucher_id (db w') = next_voucher_id (db w)
    /\ vouchers (db w')
       = map (refresh (saved_instance inst d (clock w) (db w))
                      (VoucherSetForm.usage d) (VoucherSetForm.offers d))
             (vouchers (db w))
    /\ voucher_sets (db w') = saved_sets inst d (clock w) (db w).
Proof.
  intros Hr Hf Hle.
  destruct (save_run_no_gap inst d w Hf (reachable_ok _ Hr) Hle)
    as (w' & Hsave & Hdb & Hrng).
  exists w'. rewrite Hdb. unfold save_effect. simpl.
  rewrite app_nil_r, Nat.add_0_r. auto.
Qed.

Lemma save_without_gap_witness :
  exists w',
    VoucherSetForm.save (Some spring_set)
      (VoucherSetForm.mk "Summer" 2 "summer sale" 30 40 2 SINGLE_USE {[ 8 ]}) true
      (mkWorld easter_store (list_ascii_of_string "EF") None 12)
    = (Ok (Some 1), w')
    /\ rng w' = list_ascii_of_string "EF"
    /\ next_voucher_id (db w') = 4.
Proof.
  destruct (save_without_gap (Some spring_set)
              (VoucherSetForm.mk "Summer" 2 "summer sale" 30 40 2 SINGLE_USE {[ 8 ]})
              (mkWorld easter_store (list_ascii_of_string "EF") None 12)
              easter_store_reachable eq_refl ltac:(vm_compute; lia))
    as (w' & Hsave & Hrng & Hnext & _).
  exists w'. auto.
Defined.

(** X19: the edit form of a set starts from the columns of the set and from the
    usage and offers of its first voucher.  In every store the dashboard can
    reach, submitting them unchanged for a set that owns as many vouchers as
    its count is accepted and changes nothing, when the database has no
    fault. *)
Theorem set_resubmission_changes_nothing st s u o r t :
  reachable st ->
  In s (voucher_sets st) ->
  VoucherSetUpdateView.get_initial s st = Some (u, o) ->
  VoucherSet.count s = VoucherSet.num_vouchers s ->
  exists w',
    VoucherSetUpdateView.post (VoucherSet.id s)
      (VoucherSetForm.mk (VoucherSet.name s) (VoucherSet.code_length s)
         (VoucherSet.description s) (VoucherSet.start_datetime s)
         (VoucherSet.end_datetime s) (VoucherSet.count s) u o)
      (mkWorld st r None t)
    = (Ok (HttpResponseRedirect (voucher_set_detail (VoucherSet.id s))), w')
    /\ db w' = st /\ rng w' = r.
Proof.
  intros Hr Hs Hinit Hfull.
  pose proof (reachable_ok st Hr) as Hok.
  pose proof (reachable_agree st Hr) as [Ha _].
  set (d := VoucherSetForm.mk (VoucherSet.name s) (VoucherSet.code_length s)
              (VoucherSet.description s) (VoucherSet.start_datetime s)
              (VoucherSet.end_datetime s) (VoucherSet.count s) u o).
  set (w := mkWorld st r None t).
  assert (Hsaved : saved_instance (Some s) d t st = s) by now destruct s.
  assert (Hcount : vouchers_count (VoucherSet.id s) st = VoucherSet.count s).
  { pose proof (num_vouchers_ok st Hok) as Hn. rewrite Forall_forall in Hn.
    apply list_elem_of_In, Hn in Hs. congruence. }
  destruct (save_run_no_gap (Some s) d w eq_refl Hok) as (w' & Hsave & Hdb & Hrng).
  { change (clock w) with t. change (db w) with st.
    rewrite Hsaved, Hcount. reflexivity. }
  change (clock w) with t in Hsave, Hdb. change (db w) with st in Hsave, Hdb.
  change (rng w) with r in Hrng. rewrite Hsaved in Hsave.
  exists w'. split; [| split].
  - unfold VoucherSetUpdateView.post, get_object.
    unfold bind at 1 2. unfold query at 1. simpl.
    rewrite (get_by_key _ s (set_ids_unique st Hok) Hs). unfold ret at 1.
    unfold process_form, VoucherSetForm.is_valid, VoucherSetForm.clean_count. simpl.
    rewrite Nat.ltb_irrefl. unfold bind. fold d w. rewrite Hsave. reflexivity.
  - rewrite Hdb. unfold save_effect. rewrite Hsaved.
    pose proof (initial_of_siblings st s u o Ha Hinit) as Hrows.
    assert (Hv : map (refresh s (VoucherSetForm.usage d) (VoucherSetForm.offers d))
                     (vouchers st) = vouchers st).
    { rewrite <- (map_id (vouchers st)) at 2. apply map_ext_in. intros v Hv.
      unfold refresh. destruct (in_set (VoucherSet.id s) v) eqn:E; [| reflexivity].
      apply in_set_spec in E.
      destruct (child_fields st Ha v s Hv Hs E) as (Hn & Hst & He).
      destruct (Hrows v Hv E) as [Hu Ho].
      unfold Voucher.offers_set, Voucher.update. simpl.
      rewrite <- Hn, <- Hst, <- He, <- Hu, <- Ho. now destruct v. }
    rewrite Hv, app_nil_r, Nat.add_0_r. unfold saved_sets. rewrite Hsaved.
    rewrite update_where_id; [now destruct st |].
    intros y Hy Hp. unfold set_has_id in Hp. apply Nat.eqb_eq in Hp.
    symmetry. apply (unique_key_eq VoucherSet.id (voucher_sets st)); auto.
    apply (set_ids_unique st Hok).
  - exact Hrng.
Qed.

Lemma set_resubmission_changes_nothing_witness :
  exists w',
    VoucherSetUpdateView.post 1 spring (mkWorld easter_store [] None 12)
    = (Ok (HttpResponseRedirect (voucher_set_detail 1)), w')
    /\ db w' = easter_store.
Proof.
  destruct (set_resubmission_changes_nothing easter_store spring_set
              MULTI_USE {[ 7 ]} [] 12 easter_store_reachable
              ltac:(vm_compute; left; reflexivity)
              ltac:(vm_compute; reflexivity) eq_refl)
    as (w' & Hpost & Hdb & _).
  exists w'. split; [exact Hpost | exact Hdb].
Defined.
